(** * Mock-interview service: session store, turn recording and score aggregation

    A shallow embedding of [backend/app/services/interview_service.py]
    (with the parts of [schemas.py], [llm_client.py] and
    [utils/prompt_templates.py] it relies on), of [config.py] and of the
    handlers of [main.py], followed by the properties of the session
    state machine, of the running averages, of the artifact store, of the
    configuration and of the HTTP answers.

    Conventions of the embedding.
    - A Python [str] is a [string] whose characters are read as the code
      points 0..255; [strip] and [lower] follow Python on that range.
    - A Python [float] is a binary64 [float] of the kernel, so sums and
      quotients round exactly as in CPython.
    - A value decoded from JSON is a [pyval]; a [dict] decoded from JSON
      is an association list in insertion order, as is the [artifacts]
      dict of a session; the score dicts, whose order is never observed,
      and the session store are [gmap]s.
    - Mutable objects are threaded explicitly: a method is a function from
      the object's state to an outcome and the state it leaves behind, also
      when it raises.
    - [uuid4()], [datetime.utcnow()] (one reading per call of the service)
      and the LLM reply are inputs of the operation that reads them.
    - The models of [schemas.py] are pydantic models: building one checks
      the fields against their annotations (pydantic 2, lax mode) and
      raises a validation error when a value does not fit.
    - [pathlib] is the POSIX flavour; writing an upload to the storage
      directory succeeds, and a path exists when an upload was written
      under it; logging is left out.
    - A handler of [main.py] is the body of the endpoint: what FastAPI
      does around it (parsing the request, injecting the service, turning
      an [HTTPException] into a response) is left out, and [str(exc)] is
      kept as the exception it is the text of.
    - The texts of [utils/prompt_templates.py] stay behind an interface:
      they go through [textwrap.dedent] and the formatting of a float,
      which are not modelled. *)

From Stdlib Require Import ZArith String Ascii List Bool Lia Sorted.
From Stdlib.Strings Require Import Byte.
From Stdlib Require Import PrimFloat SpecFloat FloatOps.
From stdpp Require Import gmap strings list.

Local Open Scope string_scope.
Local Open Scope list_scope.

(* ===================================================================== *)
(** ** Python strings *)
(* ===================================================================== *)

Module PyStr.

(** [str.isspace] on one character: TAB..CR, FS..US, SPACE, NEL, NBSP. *)
Definition isspace (c : ascii) : bool :=
  let n := nat_of_ascii c in
  (Nat.leb 9 n && Nat.leb n 13) || (Nat.leb 28 n && Nat.leb n 32)
  || Nat.eqb n 133 || Nat.eqb n 160.

Fixpoint lstrip (s : string) : string :=
  match s with
  | EmptyString => EmptyString
  | String c s' => if isspace c then lstrip s' else s
  end.

Fixpoint rstrip (s : string) : string :=
  match s with
  | EmptyString => EmptyString
  | String c s' =>
      match rstrip s' with
      | EmptyString => if isspace c then EmptyString else String c EmptyString
      | r => String c r
      end
  end.

(** [s.strip()] *)
Definition strip (s : string) : string := rstrip (lstrip s).

(** [str.lower] on one character: A..Z and the Latin-1 capitals. *)
Definition lower_char (c : ascii) : ascii :=
  let n := nat_of_ascii c in
  if (Nat.leb 65 n && Nat.leb n 90)
     || (Nat.leb 192 n && Nat.leb n 222 && negb (Nat.eqb n 215))
  then ascii_of_nat (n + 32) else c.

(** [s.lower()] *)
Fixpoint lower (s : string) : string :=
  match s with
  | EmptyString => EmptyString
  | String c s' => String (lower_char c) (lower s')
  end.

(** [s.startswith(p)] *)
Definition startswith (s p : string) : bool := String.prefix p s.

(** [s.startswith((p1, p2, ...))] *)
Definition startswith_any (s : string) (ps : list string) : bool :=
  existsb (startswith s) ps.

(** [s.rfind(".")], [None] standing for -1. *)
Fixpoint rfind_dot (s : string) : option nat :=
  match s with
  | EmptyString => None
  | String c s' =>
      match rfind_dot s' with
      | Some i => Some (S i)
      | None => if Ascii.eqb c "."%char then Some 0 else None
      end
  end.

(** [s[i:]] *)
Fixpoint drop (i : nat) (s : string) : string :=
  match i, s with
  | O, _ => s
  | S i', String _ s' => drop i' s'
  | S _, EmptyString => EmptyString
  end.

(** [s.split("/")] *)
Fixpoint split_slash (s : string) : list string :=
  match s with
  | EmptyString => [EmptyString]
  | String c s' =>
      match split_slash s' with
      | [] => [EmptyString]
      | w :: ws => if Ascii.eqb c "/"%char then EmptyString :: w :: ws
                   else String c w :: ws
      end
  end.

End PyStr.

(* ===================================================================== *)
(** ** Python numbers *)
(* ===================================================================== *)

Module PyNum.

(** The binary64 value nearest to the integer [z] (ties to even). *)
Definition nearest_float (z : Z) : float :=
  SF2Prim (binary_normalize prec emax z 0 false).

(** [float(z)] for an [int]: CPython raises [OverflowError] when the
    nearest binary64 value is not finite. *)
Definition float_of_int (z : Z) : option float :=
  let f := nearest_float z in
  if is_infinity f then None else Some f.

(** [total / count] for a [float] and a positive [int] count.  The count
    is converted as by [float_of_int]; it stays far below [2^1024], where
    CPython would raise, for every session a process can hold. *)
Definition truediv_count (total : float) (count : nat) : float :=
  (total / nearest_float (Z.of_nat count))%float.

End PyNum.

(* ===================================================================== *)
(** ** Values decoded from JSON and Python's exceptions *)
(* ===================================================================== *)

#[warnings="-register-all"]
Inductive pyval : Type :=
| PyNone
| PyBool (b : bool)
| PyInt (z : Z)
| PyFloat (f : float)
| PyStr (s : string)
| PyList (l : list pyval)
| PyDict (d : list (string * pyval)).

Inductive exn : Type :=
| KeyError (msg : string)
| ValueError (msg : string)
| TypeError
| AttributeError
| OverflowError
| IndexError
| JSONDecodeError
| RecursionError
| PydanticValidationError (model : string)
| TransportError (msg : string).

Module Py.

(** [d.get(k)] on a dict in insertion order. *)
Fixpoint get {V : Type} (d : list (string * V)) (k : string) : option V :=
  match d with
  | [] => None
  | (k', v) :: d' => if String.eqb k' k then Some v else get d' k
  end.

(** [d[k] = v]: an existing key keeps its position. *)
Fixpoint set {V : Type} (d : list (string * V)) (k : string) (v : V)
  : list (string * V) :=
  match d with
  | [] => [(k, v)]
  | (k', v') :: d' =>
      if String.eqb k' k then (k', v) :: d' else (k', v') :: set d' k v
  end.

(** [dict(pairs)]: later pairs overwrite earlier ones. *)
Definition dict_of_items {V : Type} (items : list (string * V))
  : list (string * V) :=
  fold_left (fun d kv => set d (fst kv) (snd kv)) items [].

(** [bool(v)] *)
Definition truthy (v : pyval) : bool :=
  match v with
  | PyNone => false
  | PyBool b => b
  | PyInt z => negb (Z.eqb z 0)
  | PyFloat f => negb (PrimFloat.eqb f 0%float)
  | PyStr s => negb (String.eqb s "")
  | PyList l => match l with [] => false | _ => true end
  | PyDict d => match d with [] => false | _ => true end
  end.

(** [v or w] *)
Definition or_else (v w : pyval) : pyval := if truthy v then v else w.

(** [isinstance(v, (int, float))]; [bool] is a subclass of [int]. *)
Definition isinstance_int_float (v : pyval) : bool :=
  match v with
  | PyBool _ | PyInt _ | PyFloat _ => true
  | _ => false
  end.

(** [float(v)] for a value that passed [isinstance_int_float]. *)
Definition float_ (v : pyval) : exn + float :=
  match v with
  | PyBool b => inr (if b then 1%float else 0%float)
  | PyInt z => match PyNum.float_of_int z with
               | Some f => inr f
               | None => inl OverflowError
               end
  | PyFloat f => inr f
  | _ => inl TypeError
  end.

End Py.

(* ===================================================================== *)
(** ** Methods on a mutable object: state and exceptions *)
(* ===================================================================== *)

(** A method on an object of state [S]: its outcome and the state it
    leaves, which keeps every mutation done before a [raise]. *)
Definition Meth (S A : Type) : Type := S -> (exn + A) * S.

Definition ret {S A} (a : A) : Meth S A := fun s => (inr a, s).
Definition raise {S A} (e : exn) : Meth S A := fun s => (inl e, s).
Definition bind {S A B} (m : Meth S A) (k : A -> Meth S B) : Meth S B :=
  fun s =>
    match m s with
    | (inr a, s') => k a s'
    | (inl e, s') => (inl e, s')
    end.
Definition get_state {S} : Meth S S := fun s => (inr s, s).
Definition modify {S} (f : S -> S) : Meth S unit := fun s => (inr tt, f s).
Definition lift_result {S A} (r : exn + A) : Meth S A := fun s => (r, s).

Notation "'let*' x ':=' m 'in' k" := (bind m (fun x => k))
  (at level 10, x name, m at level 100, k at level 200).

(* ===================================================================== *)
(** ** schemas.py *)
(* ===================================================================== *)

Inductive FocusArea : Type :=
| FORMULAS | DATA_ANALYSIS | AUTOMATION | DASHBOARDS | DATA_MODELING.

Inductive WorkbookPlatform : Type := MICROSOFT_EXCEL | GOOGLE_SHEETS.

Record CandidateProfile : Type := {
  name : string;
  current_role : string;
  years_experience : float;
  target_role : string;
  cand_focus_areas : list FocusArea
}.

Record SessionCreateRequest : Type := {
  req_candidate : CandidateProfile;
  req_scenario : string;
  req_workbook_platform : WorkbookPlatform
}.

Record EvaluationSnapshot : Type := {
  summary : string;
  strengths : list string;
  gaps : list string;
  rubric_scores : list (string * float);
  recommendation : string
}.

Record ChatMessage : Type := {
  role : string;
  content : string;
  msg_created_at : Z
}.

Record ChatTurn : Type := {
  candidate_message : option ChatMessage;
  interviewer_message : ChatMessage;
  evaluation : option EvaluationSnapshot;
  next_best_action : option string
}.

Inductive ArtifactSource : Type := SourceFile | SourceLink.

Record SubmissionArtifact : Type := {
  art_id : string;
  source : ArtifactSource;
  filename : option string;
  content_type : option string;
  size_bytes : option nat;
  uploaded_at : Z;
  description : string;
  url : option string;
  storage_path : option string
}.

Record SessionCreateResponse : Type := {
  resp_session_id : string;
  first_turn : ChatTurn
}.

Record ChatResponse : Type := {
  turn : ChatTurn;
  running_scores_of : gmap string float;
  total_turns : nat
}.

Record SummaryResponse : Type := {
  sum_session_id : string;
  sum_transcript : list ChatTurn;
  final_summary : string;
  recommended_next_steps : list string;
  overall_scores : list (string * float)
}.

(* ===================================================================== *)
(** ** Collaborators outside the core *)
(* ===================================================================== *)

(** The JSON codec, pydantic's parser of numeric strings and the prompt
    composer are used through their interfaces only. *)
Class Externals : Type := {
  (** [json.loads(s)]: the decoded value, or what it raised, which is
      [JSONDecodeError] for a text that is not JSON, and can be the plain
      [ValueError] of an integer literal over the digit limit or the
      [RecursionError] of a text nested too deep. *)
  json_loads : string -> exn + pyval;
  (** [json.dumps(v)] *)
  json_dumps : pyval -> string;
  (** [json.dumps(transcript_payload, default=str)] of [summarize]. *)
  dumps_transcript : list ChatTurn -> string;
  (** pydantic reading a [str] for a [float] field; [None] is a refusal. *)
  float_of_str : string -> option float;
  build_interview_system_prompt : string;
  build_session_bootstrap_prompt :
    CandidateProfile -> string -> list FocusArea -> WorkbookPlatform -> string;
  build_summary_prompt : CandidateProfile -> string -> string
}.

(** [LLMClient.chat_completion]: the provider's payload, or what it raised. *)
Definition LLMClient : Type := list (string * string) -> exn + pyval.

(** The keys of [SKILL_RUBRIC], in the order of the source. *)
Definition SKILL_RUBRIC : list string :=
  ["excel_functions"; "data_analysis"; "automation"; "business_acumen";
   "storytelling"].

(* ===================================================================== *)
(** ** pydantic: what the models accept for their fields *)
(* ===================================================================== *)

Module Pydantic.

(** A [str] field accepts a [str] only. *)
Definition validate_str (v : pyval) : option string :=
  match v with PyStr s => Some s | _ => None end.

(** An [Optional[str]] field. *)
Definition validate_opt_str (v : pyval) : option (option string) :=
  match v with
  | PyNone => Some None
  | PyStr s => Some (Some s)
  | _ => None
  end.

(** A [float] field (lax mode): numbers, booleans, numeric strings. *)
Definition validate_float `{Externals} (v : pyval) : option float :=
  match v with
  | PyFloat f => Some f
  | PyInt z => PyNum.float_of_int z
  | PyBool b => Some (if b then 1%float else 0%float)
  | PyStr s => float_of_str s
  | _ => None
  end.

(** A [List[str]] field given a list. *)
Fixpoint validate_list_str (l : list pyval) : option (list string) :=
  match l with
  | [] => Some []
  | v :: l' =>
      match validate_str v, validate_list_str l' with
      | Some s, Some ss => Some (s :: ss)
      | _, _ => None
      end
  end.

(** A [dict[str, float]] field given a dict with string keys. *)
Fixpoint validate_dict_str_float `{Externals} (d : list (string * pyval))
  : option (list (string * float)) :=
  match d with
  | [] => Some []
  | (k, v) :: d' =>
      match validate_float v, validate_dict_str_float d' with
      | Some f, Some fs => Some ((k, f) :: fs)
      | _, _ => None
      end
  end.

End Pydantic.

(* ===================================================================== *)
(** ** pathlib (POSIX flavour) *)
(* ===================================================================== *)

Module Pathlib.

(** The parts of [Path(p)] after the root: empty and ["."] components
    are dropped. *)
Definition parts (p : string) : list string :=
  List.filter (fun c => negb (String.eqb c "" || String.eqb c "."))
    (PyStr.split_slash p).

(** [Path(p).name]: the final component, [""] when there is none. *)
Definition name (p : string) : string := List.last (parts p) "".

(** [Path(p).suffix]: from the last dot of the name, unless that dot is
    the first or the last character. *)
Definition suffix (p : string) : string :=
  let n := name p in
  match PyStr.rfind_dot n with
  | Some i =>
      if Nat.ltb 0 i && Nat.ltb i (String.length n - 1) then PyStr.drop i n
      else ""
  | None => ""
  end.

End Pathlib.

(* ===================================================================== *)
(** ** llm_client.py *)
(* ===================================================================== *)

(** [v[key]] for a string key. *)
Definition subscript_key (v : pyval) (key : string) : exn + pyval :=
  match v with
  | PyDict d => match Py.get d key with
                | Some x => inr x
                | None => inl (KeyError key)
                end
  | _ => inl TypeError
  end.

(** [v[0]] *)
Definition subscript_0 (v : pyval) : exn + pyval :=
  match v with
  | PyList (x :: _) => inr x
  | PyList [] => inl IndexError
  | PyStr (String c _) => inr (PyStr (String c ""))
  | PyStr EmptyString => inl IndexError
  | PyDict _ => inl (KeyError "0")
  | _ => inl TypeError
  end.

(** [v.get(key, default)] *)
Definition dict_get_default (v : pyval) (key : string) (dflt : pyval)
  : exn + pyval :=
  match v with
  | PyDict d => inr (default dflt (Py.get d key))
  | _ => inl AttributeError
  end.

Section LlmClient.
Context `{Externals}.

(** [json.loads(v)] *)
Definition loads (v : pyval) : exn + pyval :=
  match v with
  | PyStr s => json_loads s
  | _ => inl TypeError
  end.

Definition sum_bind {A B} (r : exn + A) (k : A -> exn + B) : exn + B :=
  match r with inr a => k a | inl e => inl e end.

(** The body of the [try] of [AzureOpenAILLM.extract_content]. *)
Definition extract_content_try (payload : pyval) : exn + pyval :=
  sum_bind (subscript_key payload "choices") (fun choices =>
  sum_bind (subscript_0 choices) (fun choice =>
  sum_bind (subscript_key choice "message") (fun message =>
  sum_bind (dict_get_default message "content" (PyStr "{}")) (fun content =>
  loads content)))).

(** [AzureOpenAILLM.extract_content]: [KeyError], [JSONDecodeError] and
    [IndexError] become a [ValueError]; anything else propagates. *)
Definition extract_content (payload : pyval) : exn + pyval :=
  match extract_content_try payload with
  | inl (KeyError _) | inl JSONDecodeError | inl IndexError =>
      inl (ValueError "Unable to parse LLM response payload")
  | r => r
  end.

End LlmClient.

(* ===================================================================== *)
(** ** interview_service.py: [InterviewSession] *)
(* ===================================================================== *)

Record InterviewSession : Type := {
  session_id : string;
  candidate : CandidateProfile;
  scenario : string;
  focus_areas : list FocusArea;
  workbook_platform : WorkbookPlatform;
  messages : list (string * string);
  transcript : list ChatTurn;
  score_totals : gmap string float;
  score_counts : gmap string nat;
  artifacts : list (string * SubmissionArtifact);
  created_at : Z;
  updated_at : Z
}.

Definition set_messages (f : list (string * string) -> list (string * string))
  (s : InterviewSession) : InterviewSession :=
  {| session_id := session_id s; candidate := candidate s;
     scenario := scenario s; focus_areas := focus_areas s;
     workbook_platform := workbook_platform s;
     messages := f (messages s); transcript := transcript s;
     score_totals := score_totals s; score_counts := score_counts s;
     artifacts := artifacts s; created_at := created_at s;
     updated_at := updated_at s |}.

Definition set_transcript (f : list ChatTurn -> list ChatTurn)
  (s : InterviewSession) : InterviewSession :=
  {| session_id := session_id s; candidate := candidate s;
     scenario := scenario s; focus_areas := focus_areas s;
     workbook_platform := workbook_platform s;
     messages := messages s; transcript := f (transcript s);
     score_totals := score_totals s; score_counts := score_counts s;
     artifacts := artifacts s; created_at := created_at s;
     updated_at := updated_at s |}.

Definition set_score_totals (f : gmap string float -> gmap string float)
  (s : InterviewSession) : InterviewSession :=
  {| session_id := session_id s; candidate := candidate s;
     scenario := scenario s; focus_areas := focus_areas s;
     workbook_platform := workbook_platform s;
     messages := messages s; transcript := transcript s;
     score_totals := f (score_totals s); score_counts := score_counts s;
     artifacts := artifacts s; created_at := created_at s;
     updated_at := updated_at s |}.

Definition set_score_counts (f : gmap string nat -> gmap string nat)
  (s : InterviewSession) : InterviewSession :=
  {| session_id := session_id s; candidate := candidate s;
     scenario := scenario s; focus_areas := focus_areas s;
     workbook_platform := workbook_platform s;
     messages := messages s; transcript := transcript s;
     score_totals := score_totals s; score_counts := f (score_counts s);
     artifacts := artifacts s; created_at := created_at s;
     updated_at := updated_at s |}.

Definition set_artifacts
  (f : list (string * SubmissionArtifact) -> list (string * SubmissionArtifact))
  (s : InterviewSession) : InterviewSession :=
  {| session_id := session_id s; candidate := candidate s;
     scenario := scenario s; focus_areas := focus_areas s;
     workbook_platform := workbook_platform s;
     messages := messages s; transcript := transcript s;
     score_totals := score_totals s; score_counts := score_counts s;
     artifacts := f (artifacts s); created_at := created_at s;
     updated_at := updated_at s |}.

Definition set_updated_at (t : Z) (s : InterviewSession) : InterviewSession :=
  {| session_id := session_id s; candidate := candidate s;
     scenario := scenario s; focus_areas := focus_areas s;
     workbook_platform := workbook_platform s;
     messages := messages s; transcript := transcript s;
     score_totals := score_totals s; score_counts := score_counts s;
     artifacts := artifacts s; created_at := created_at s;
     updated_at := t |}.

(** [d.setdefault(k, v)] *)
Definition setdefault {V : Type} (k : string) (v : V) (m : gmap string V)
  : gmap string V :=
  match m !! k with
  | Some _ => m
  | None => <[k := v]> m
  end.

(** [self.score_totals.get(skill, 0.0)] *)
Definition total_of (s : InterviewSession) (skill : string) : float :=
  default 0%float (score_totals s !! skill).

(** [self.score_counts.get(skill, 0)] *)
Definition count_of (s : InterviewSession) (skill : string) : nat :=
  default 0 (score_counts s !! skill).

(** The loop of [InterviewSession.record_scores] over [scores.items()],
    [updated] being the dict built so far. *)
Fixpoint record_scores_items (items : list (string * pyval))
  (updated : gmap string float)
  : Meth InterviewSession (gmap string float) :=
  match items with
  | [] => ret updated
  | (skill, value) :: rest =>
      if negb (Py.isinstance_int_float value) then
        record_scores_items rest updated
      else
        let* fv := lift_result (Py.float_ value) in
        let* _ := modify (fun s =>
          set_score_totals (insert skill (total_of s skill + fv)%float) s) in
        let* _ := modify (fun s =>
          set_score_counts (insert skill (count_of s skill + 1)) s) in
        let* s := get_state in
        match score_totals s !! skill, score_counts s !! skill with
        | Some t, Some c =>
            record_scores_items rest
              (<[skill := PyNum.truediv_count t c]> updated)
        | _, _ => raise (KeyError skill)
        end
  end.

(** [InterviewSession.record_scores] *)
Definition record_scores (scores : list (string * pyval))
  : Meth InterviewSession (gmap string float) :=
  record_scores_items scores ∅.

(** [InterviewSession.running_scores] *)
Definition running_scores (s : InterviewSession) : gmap string float :=
  map_imap (fun skill total =>
    match score_counts s !! skill with
    | Some c => if Nat.eqb c 0 then None
                else Some (PyNum.truediv_count total c)
    | None => None
    end) (score_totals s).

(* ===================================================================== *)
(** ** interview_service.py: [InterviewService] *)
(* ===================================================================== *)

(** [list(v)] *)
Definition list_ (v : pyval) : exn + list pyval :=
  match v with
  | PyList l => inr l
  | PyStr s => inr (map (fun c => PyStr (String c "")) (list_ascii_of_string s))
  | PyDict d => inr (map (fun kv => PyStr (fst kv)) d)
  | _ => inl TypeError
  end.

(** [hash(v)] is defined: a list and a dict are unhashable. *)
Definition hashable (v : pyval) : bool :=
  match v with
  | PyList _ | PyDict _ => false
  | _ => true
  end.

(** One element of the sequence given to [dict(...)]: the key and the
    value it stands for.  An element that is no sequence is a
    [TypeError], one whose length is not 2 a [ValueError], an unhashable
    key a [TypeError]. *)
Definition dict_item (v : pyval) : exn + (pyval * pyval) :=
  match v with
  | PyList [k; x] => if hashable k then inr (k, x) else inl TypeError
  | PyList _ => inl (ValueError "dictionary update sequence element")
  | PyStr (String a (String b EmptyString)) =>
      inr (PyStr (String a ""), PyStr (String b ""))
  | PyStr _ => inl (ValueError "dictionary update sequence element")
  | PyDict [(k1, _); (k2, _)] => inr (PyStr k1, PyStr k2)
  | PyDict _ => inl (ValueError "dictionary update sequence element")
  | _ => inl TypeError
  end.

(** The elements of the sequence given to [dict(...)], read in order
    up to the first one that is refused. *)
Fixpoint dict_items (l : list pyval) : exn + list (pyval * pyval) :=
  match l with
  | [] => inr []
  | v :: l' =>
      match dict_item v with
      | inl e => inl e
      | inr kv => match dict_items l' with
                  | inl e => inl e
                  | inr kvs => inr (kv :: kvs)
                  end
      end
  end.

(** The items of a dict whose keys are all of type [str]. *)
Fixpoint str_keys (kvs : list (pyval * pyval))
  : option (list (string * pyval)) :=
  match kvs with
  | [] => Some []
  | (PyStr k, x) :: kvs' =>
      match str_keys kvs' with
      | Some skvs => Some ((k, x) :: skvs)
      | None => None
      end
  | _ :: _ => None
  end.

(** [dict(v)], as the [rubric_scores] argument of [EvaluationSnapshot].
    Python builds the dict whatever its hashable keys are; the model then
    refuses a key that is not a [str]: that refusal is reported here, once
    [dict] has read the whole sequence. *)
Definition dict_ (v : pyval) : exn + list (string * pyval) :=
  match v with
  | PyDict d => inr (Py.dict_of_items d)
  | PyList l =>
      match dict_items l with
      | inl e => inl e
      | inr kvs =>
          match str_keys kvs with
          | Some skvs => inr (Py.dict_of_items skvs)
          | None => inl (PydanticValidationError "EvaluationSnapshot")
          end
      end
  | PyStr EmptyString => inr []
  | PyStr _ => inl (ValueError "dictionary update sequence element")
  | _ => inl TypeError
  end.

Definition ALLOWED_FILE_EXTENSIONS : list string :=
  [".xlsx"; ".xlsm"; ".xlsb"; ".xls"; ".csv"; ".tsv"; ".ods"].

(** [x in ALLOWED_FILE_EXTENSIONS] and the like. *)
Definition str_in (x : string) (l : list string) : bool :=
  existsb (String.eqb x) l.

(** The service object, with the upload directory's files as [disk]. *)
Record InterviewService : Type := {
  _sessions : gmap string InterviewSession;
  _storage_dir : string;
  _max_upload_bytes : Z;
  disk : gmap string (list byte)
}.

Definition set_sessions
  (f : gmap string InterviewSession -> gmap string InterviewSession)
  (svc : InterviewService) : InterviewService :=
  {| _sessions := f (_sessions svc); _storage_dir := _storage_dir svc;
     _max_upload_bytes := _max_upload_bytes svc; disk := disk svc |}.

Definition set_disk
  (f : gmap string (list byte) -> gmap string (list byte))
  (svc : InterviewService) : InterviewService :=
  {| _sessions := _sessions svc; _storage_dir := _storage_dir svc;
     _max_upload_bytes := _max_upload_bytes svc; disk := f (disk svc) |}.

(** [InterviewService(llm_client, storage_dir=..., max_upload_bytes=...)] *)
Definition new_service (storage_dir : string) (max_upload_bytes : Z)
  : InterviewService :=
  {| _sessions := ∅; _storage_dir := storage_dir;
     _max_upload_bytes := max_upload_bytes; disk := ∅ |}.

(** The default of [max_upload_bytes]: [10 * 1024 * 1024]. *)
Definition default_max_upload_bytes : Z := 10 * 1024 * 1024.

(** [InterviewService._get_session] *)
Definition _get_session (sid : string)
  : Meth InterviewService InterviewSession :=
  fun svc =>
    match _sessions svc !! sid with
    | Some s => (inr s, svc)
    | None => (inl (KeyError ("Unknown session id " ++ sid)%string), svc)
    end.

(** Running a method on the session object that the store holds under
    [sid]: the store sees what the method did, also when it raises. *)
Definition on_session {A} (sid : string) (m : Meth InterviewSession A)
  : Meth InterviewService A :=
  fun svc =>
    match _sessions svc !! sid with
    | Some s =>
        let '(r, s') := m s in (r, set_sessions (insert sid s') svc)
    | None => (inl (KeyError ("Unknown session id " ++ sid)%string), svc)
    end.

Section Service.
Context `{Externals}.

(** The [EvaluationSnapshot(...)] call of [_record_ai_turn]. *)
Definition build_evaluation (e : list (string * pyval))
  : exn + EvaluationSnapshot :=
  let summary_v := default (PyStr "") (Py.get e "summary") in
  sum_bind (list_ (Py.or_else (default (PyList []) (Py.get e "strengths"))
                              (PyList []))) (fun strengths_l =>
  sum_bind (list_ (Py.or_else (default (PyList []) (Py.get e "gaps"))
                              (PyList []))) (fun gaps_l =>
  sum_bind (dict_ (Py.or_else (default (PyDict []) (Py.get e "rubric_scores"))
                              (PyDict []))) (fun scores_d =>
  let recommendation_v := default (PyStr "") (Py.get e "recommendation") in
  match Pydantic.validate_str summary_v,
        Pydantic.validate_list_str strengths_l,
        Pydantic.validate_list_str gaps_l,
        Pydantic.validate_dict_str_float scores_d,
        Pydantic.validate_str recommendation_v with
  | Some su, Some st, Some ga, Some sc, Some re =>
      inr {| summary := su; strengths := st; gaps := ga;
             rubric_scores := sc; recommendation := re |}
  | _, _, _, _, _ => inl (PydanticValidationError "EvaluationSnapshot")
  end))).

(** The values of a validated [rubric_scores], as [record_scores] gets them. *)
Definition as_pyvals (scores : list (string * float))
  : list (string * pyval) :=
  map (fun kv => (fst kv, PyFloat (snd kv))) scores.

(** The seeding loop at the end of [_record_ai_turn]. *)
Definition seed_rubric (s : InterviewSession) : InterviewSession :=
  fold_left (fun s skill =>
    set_score_counts (setdefault skill 0)
      (set_score_totals (setdefault skill 0%float) s)) SKILL_RUBRIC s.

(** [InterviewService._record_ai_turn], [now] being [datetime.utcnow()].
    The closing [session.running_scores()] computes a value that is
    dropped, and is left out. *)
Definition _record_ai_turn (now : Z) (content_v : pyval)
  (candidate_msg : option ChatMessage) : Meth InterviewSession ChatTurn :=
  let* interviewer_message_text :=
    lift_result (dict_get_default content_v "interviewer_message" (PyStr "")) in
  let* evaluation_raw :=
    lift_result (dict_get_default content_v "evaluation" PyNone) in
  let evaluation_payload := Py.or_else evaluation_raw (PyDict []) in
  let* next_best_action_v :=
    lift_result (dict_get_default content_v "next_best_action" PyNone) in
  let* interviewer_msg :=
    match Pydantic.validate_str interviewer_message_text with
    | Some text => ret {| role := "interviewer"; content := text;
                          msg_created_at := now |}
    | None => raise (PydanticValidationError "ChatMessage")
    end in
  let* evaluation_ :=
    if Py.truthy evaluation_payload then
      match evaluation_payload with
      | PyDict e =>
          let* ev := lift_result (build_evaluation e) in
          let* _ := record_scores (as_pyvals (rubric_scores ev)) in
          ret (Some ev)
      | _ => raise AttributeError
      end
    else ret None in
  let* turn_ :=
    match Pydantic.validate_opt_str next_best_action_v with
    | Some nba => ret {| candidate_message := candidate_msg;
                         interviewer_message := interviewer_msg;
                         evaluation := evaluation_;
                         next_best_action := nba |}
    | None => raise (PydanticValidationError "ChatTurn")
    end in
  let* _ := modify (set_transcript (fun t => t ++ [turn_])) in
  let* _ := modify (set_messages
              (fun m => m ++ [("assistant", json_dumps content_v)])) in
  let* _ := modify (set_updated_at now) in
  let* _ := modify seed_rubric in
  ret turn_.

(** The gateway as the service uses it: [chat_completion], then
    [extract_content]. *)
Definition call_gateway (llm : LLMClient) (msgs : list (string * string))
  : exn + pyval :=
  sum_bind (llm msgs) extract_content.

(** The [InterviewSession(...)] call of [create_session]: the fields
    with a default factory start empty. *)
Definition new_session (uuid : string) (now : Z)
  (payload : SessionCreateRequest) : InterviewSession :=
  {| session_id := uuid; candidate := req_candidate payload;
     scenario := req_scenario payload;
     focus_areas := cand_focus_areas (req_candidate payload);
     workbook_platform := req_workbook_platform payload;
     messages := []; transcript := []; score_totals := ∅;
     score_counts := ∅; artifacts := []; created_at := now;
     updated_at := now |}.

(** [InterviewService.create_session]; [uuid] is [str(uuid4())]. *)
Definition create_session (llm : LLMClient) (uuid : string) (now : Z)
  (payload : SessionCreateRequest)
  : Meth InterviewService SessionCreateResponse :=
  fun svc =>
    let session0 := new_session uuid now payload in
    let body : Meth InterviewSession ChatTurn :=
      let* _ := modify (set_messages (fun m =>
                  m ++ [("system", build_interview_system_prompt)])) in
      let* _ := modify (set_messages (fun m =>
                  m ++ [("user", build_session_bootstrap_prompt
                                   (req_candidate payload)
                                   (req_scenario payload)
                                   (cand_focus_areas (req_candidate payload))
                                   (req_workbook_platform payload))])) in
      let* s := get_state in
      let* content_v := lift_result (call_gateway llm (messages s)) in
      _record_ai_turn now content_v None in
    match body session0 with
    | (inr turn_, session1) =>
        (inr {| resp_session_id := uuid; first_turn := turn_ |},
         set_sessions (insert uuid session1) svc)
    | (inl e, _) => (inl e, svc)
    end.

(** [InterviewService.chat] *)
Definition chat (llm : LLMClient) (now : Z) (sid : string) (message : string)
  : Meth InterviewService ChatResponse :=
  on_session sid (
    let candidate_msg :=
      {| role := "candidate"; content := message; msg_created_at := now |} in
    let* _ := modify (set_messages (fun m => m ++ [("user", message)])) in
    let* s := get_state in
    let* content_v := lift_result (call_gateway llm (messages s)) in
    let* turn_ := _record_ai_turn now content_v (Some candidate_msg) in
    let* s := get_state in
    ret {| turn := turn_; running_scores_of := running_scores s;
           total_turns := length (transcript s) |}).

(** The [SummaryResponse(...)] call of [summarize]. *)
Definition build_summary (sid : string) (session : InterviewSession)
  (overall_summary scorecard next_steps : pyval) : exn + SummaryResponse :=
  match Pydantic.validate_str overall_summary,
        match next_steps with
        | PyList l => Pydantic.validate_list_str l
        | _ => None
        end,
        match scorecard with
        | PyDict d => Pydantic.validate_dict_str_float d
        | _ => None
        end with
  | Some su, Some ns, Some sc =>
      inr {| sum_session_id := sid; sum_transcript := transcript session;
             final_summary := su; recommended_next_steps := ns;
             overall_scores := sc |}
  | _, _, _ => inl (PydanticValidationError "SummaryResponse")
  end.

(** [InterviewService.summarize] *)
Definition summarize (llm : LLMClient) (sid : string)
  : Meth InterviewService SummaryResponse :=
  let* session := _get_session sid in
  let summary_prompt :=
    build_summary_prompt (candidate session)
      (dumps_transcript (transcript session)) in
  let msgs := messages session ++ [("user", summary_prompt)] in
  let* content_v := lift_result (call_gateway llm msgs) in
  let* overall_summary :=
    lift_result (dict_get_default content_v "overall_summary" (PyStr "")) in
  let* scorecard :=
    lift_result (dict_get_default content_v "scorecard" (PyDict [])) in
  let* next_steps :=
    lift_result (dict_get_default content_v "next_steps" (PyList [])) in
  lift_result (build_summary sid session overall_summary scorecard next_steps).

End Service.

(** [(description or "").strip()] *)
Definition clean_description (description_ : option string) : string :=
  PyStr.strip (match description_ with
               | Some d => d
               | None => ""
               end).

(** [InterviewService.store_file_artifact]; writing the bytes is taken
    to succeed. *)
Definition store_file_artifact (uuid : string) (now : Z) (sid : string)
  (filename_ : string) (content_type_ : option string) (data : list byte)
  (description_ : option string)
  : Meth InterviewService SubmissionArtifact :=
  let* _ := _get_session sid in
  let extension := PyStr.lower (Pathlib.suffix filename_) in
  if negb (str_in extension ALLOWED_FILE_EXTENSIONS) then
    raise (ValueError
      "Unsupported file type. Upload Excel workbooks, CSV/TSV extracts, or OpenDocument spreadsheets.")
  else
    let* svc := get_state in
    if (Z.of_nat (length data) >? _max_upload_bytes svc)%Z then
      raise (ValueError "File exceeds the maximum allowed size of 10 MB.")
    else
      let sanitized_name := Pathlib.name filename_ in
      let storage :=
        (_storage_dir svc ++ "/" ++ sid ++ "/" ++ uuid ++ extension)%string in
      let* _ := modify (set_disk (insert storage data)) in
      let artifact :=
        {| art_id := uuid; source := SourceFile;
           filename := Some sanitized_name; content_type := content_type_;
           size_bytes := Some (length data); uploaded_at := now;
           description := clean_description description_; url := None;
           storage_path := Some storage |} in
      let* _ := on_session sid
                  (modify (set_artifacts (fun a => Py.set a uuid artifact))) in
      let* _ := on_session sid (modify (set_updated_at now)) in
      ret artifact.

(** [InterviewService.store_link_artifact] *)
Definition store_link_artifact (uuid : string) (now : Z) (sid : string)
  (url_ : string) (description_ : option string)
  : Meth InterviewService SubmissionArtifact :=
  let* _ := _get_session sid in
  let cleaned_url := PyStr.strip url_ in
  if String.eqb cleaned_url ""
     || negb (PyStr.startswith_any (PyStr.lower cleaned_url)
                ["http://"; "https://"]) then
    raise (ValueError
      "Provide a valid shareable link starting with http:// or https://")
  else
    let artifact :=
      {| art_id := uuid; source := SourceLink; filename := None;
         content_type := None; size_bytes := None; uploaded_at := now;
         description := clean_description description_;
         url := Some cleaned_url; storage_path := None |} in
    let* _ := on_session sid
                (modify (set_artifacts (fun a => Py.set a uuid artifact))) in
    let* _ := on_session sid (modify (set_updated_at now)) in
    ret artifact.

(** Insertion into a list sorted by [uploaded_at], newest first, ahead
    of the entries that are not newer. *)
Fixpoint insert_newest_first (a : SubmissionArtifact)
  (l : list SubmissionArtifact) : list SubmissionArtifact :=
  match l with
  | [] => [a]
  | b :: l' =>
      if (uploaded_at b >? uploaded_at a)%Z then b :: insert_newest_first a l'
      else a :: l
  end.

(** [sorted(values, key=lambda artifact: artifact.uploaded_at, reverse=True)]:
    a stable sort. *)
Definition sorted_newest_first (l : list SubmissionArtifact)
  : list SubmissionArtifact :=
  fold_right insert_newest_first [] l.

(** [InterviewService.list_artifacts] *)
Definition list_artifacts (sid : string)
  : Meth InterviewService (list SubmissionArtifact) :=
  let* session := _get_session sid in
  ret (sorted_newest_first (map snd (artifacts session))).

(** [InterviewService.get_artifact] *)
Definition get_artifact (sid : string) (aid : string)
  : Meth InterviewService SubmissionArtifact :=
  let* session := _get_session sid in
  match Py.get (artifacts session) aid with
  | Some artifact => ret artifact
  | None => raise (KeyError ("Unknown artifact id " ++ aid)%string)
  end.

(* ===================================================================== *)
(** ** config.py *)
(* ===================================================================== *)

Module Config.

(** [s.split(sep)] for a separator of one character. *)
Fixpoint split_on (sep : ascii) (s : string) : list string :=
  match s with
  | EmptyString => [EmptyString]
  | String c s' =>
      match split_on sep s' with
      | [] => [EmptyString]
      | w :: ws => if Ascii.eqb c sep then EmptyString :: w :: ws
                   else String c w :: ws
      end
  end.

(** [not value] for an [Optional[str]]. *)
Definition unset (value : option string) : bool :=
  match value with
  | None => true
  | Some v => String.eqb v ""
  end.

(** [Settings._parse_list] *)
Definition _parse_list (raw : option string) : list string :=
  match raw with
  | None => ["*"]
  | Some r =>
      if String.eqb r "" then ["*"]
      else map PyStr.strip
             (List.filter (fun item => negb (String.eqb (PyStr.strip item) ""))
                (split_on "," r))
  end.

Record Settings : Type := {
  azure_openai_endpoint : option string;
  azure_openai_api_key : option string;
  azure_openai_deployment : option string;
  azure_openai_api_version : option string;
  cors_allow_origins : list string
}.

(** [Settings()], [getenv] being [os.getenv]. *)
Definition new_settings (getenv : string -> option string) : Settings :=
  {| azure_openai_endpoint := getenv "AZURE_OPENAI_ENDPOINT";
     azure_openai_api_key := getenv "AZURE_OPENAI_API_KEY";
     azure_openai_deployment := getenv "AZURE_OPENAI_DEPLOYMENT";
     azure_openai_api_version :=
       Some (default "2024-02-01" (getenv "AZURE_OPENAI_API_VERSION"));
     cors_allow_origins := _parse_list (getenv "CORS_ALLOW_ORIGINS") |}.

Inductive config_error : Type := RuntimeError (msg : string).

(** The list [missing] of [require_azure_config]. *)
Definition missing (st : Settings) : list string :=
  map fst
    (List.filter (fun nv => unset (snd nv))
       [("AZURE_OPENAI_ENDPOINT", azure_openai_endpoint st);
        ("AZURE_OPENAI_API_KEY", azure_openai_api_key st);
        ("AZURE_OPENAI_DEPLOYMENT", azure_openai_deployment st)]).

(** [Settings.require_azure_config] *)
Definition require_azure_config (st : Settings) : config_error + unit :=
  match missing st with
  | [] => inr tt
  | names =>
      inl (RuntimeError
             ("Missing Azure OpenAI configuration. Please set the following environment variables: "
              ++ String.concat ", " names ++ ".")%string)
  end.

End Config.

(* ===================================================================== *)
(** ** main.py: the HTTP handlers *)
(* ===================================================================== *)

Module Main.

(** The [detail] of an [HTTPException]: a fixed text, or [str(exc)]. *)
Inductive detail_text : Type :=
| Detail (text : string)
| StrOf (exc : exn).

Record HTTPException : Type := {
  status_code : Z;
  detail : detail_text
}.

(** How a handler ends: it returns, raises an [HTTPException], or lets
    an exception of the service through. *)
Inductive outcome (A : Type) : Type :=
| Returned (a : A)
| Raised (e : HTTPException)
| Unhandled (e : exn).
Arguments Returned {A} a.
Arguments Raised {A} e.
Arguments Unhandled {A} e.

Definition Handler (A : Type) : Type :=
  InterviewService -> outcome A * InterviewService.

(** [except KeyError] *)
Definition is_KeyError (e : exn) : bool :=
  match e with KeyError _ => true | _ => false end.

(** [except ValueError]: the decoding and validation errors are
    subclasses of [ValueError]. *)
Definition is_ValueError (e : exn) : bool :=
  match e with
  | ValueError _ | JSONDecodeError | PydanticValidationError _ => true
  | _ => false
  end.

Definition http {A} (status : Z) (d : detail_text) : outcome A :=
  Raised {| status_code := status; detail := d |}.

(** [HTTPException(status_code=404, detail="Session not found")] *)
Definition session_not_found {A} : outcome A :=
  http 404 (Detail "Session not found").

(** How a handler may end for a stored session: it returned, or it
    answered 500 with an exception that is no [KeyError], or it answered
    404 because the gateway client raised a [KeyError] on [msgs]. *)
Definition answered {A} (llm : LLMClient) (msgs : list (string * string))
  (r : outcome A) : Prop :=
  match r with
  | Returned _ => True
  | Raised e =>
      (exists exc, e = {| status_code := 500; detail := StrOf exc |} /\
                   is_KeyError exc = false) \/
      (e = {| status_code := 404; detail := Detail "Session not found" |} /\
       exists msg, llm msgs = inl (KeyError msg))
  | Unhandled _ => False
  end.

Record FileResponse : Type := {
  path : string;
  media_type : string;
  download_name : string
}.

(** [value or fallback] for an [Optional[str]]. *)
Definition or_str (value : option string) (fallback : string) : string :=
  match value with
  | Some v => if String.eqb v "" then fallback else v
  | None => fallback
  end.

Section Handlers.
Context `{Externals}.

(** [POST /api/session] *)
Definition create_session (llm : LLMClient) (uuid : string) (now : Z)
  (payload : SessionCreateRequest) : Handler SessionCreateResponse :=
  fun svc =>
    match create_session llm uuid now payload svc with
    | (inr r, svc') => (Returned r, svc')
    | (inl e, svc') => (http 500 (StrOf e), svc')
    end.

(** [POST /api/session/{session_id}/chat] *)
Definition chat (llm : LLMClient) (now : Z) (session_id message : string)
  : Handler ChatResponse :=
  fun svc =>
    match chat llm now session_id message svc with
    | (inr r, svc') => (Returned r, svc')
    | (inl e, svc') =>
        if is_KeyError e then (session_not_found, svc')
        else (http 500 (StrOf e), svc')
    end.

(** [GET /api/session/{session_id}/summary] *)
Definition summary (llm : LLMClient) (session_id : string)
  : Handler SummaryResponse :=
  fun svc =>
    match summarize llm session_id svc with
    | (inr r, svc') => (Returned r, svc')
    | (inl e, svc') =>
        if is_KeyError e then (session_not_found, svc')
        else (http 500 (StrOf e), svc')
    end.

End Handlers.

(** [GET /api/session/{session_id}/artifacts] *)
Definition list_artifacts (session_id : string)
  : Handler (list SubmissionArtifact) :=
  fun svc =>
    match list_artifacts session_id svc with
    | (inr artifacts, svc') => (Returned artifacts, svc')
    | (inl e, svc') =>
        if is_KeyError e then (session_not_found, svc')
        else (Unhandled e, svc')
    end.

(** [POST /api/session/{session_id}/artifacts/upload]; [data] is what
    [file.read()] gave. *)
Definition upload_artifact (uuid : string) (now : Z) (session_id : string)
  (file_filename file_content_type : option string) (data : list byte)
  (description_ : string) : Handler SubmissionArtifact :=
  fun svc =>
    match store_file_artifact uuid now session_id
            (or_str file_filename "submission.xlsx") file_content_type data
            (Some description_) svc with
    | (inr artifact, svc') => (Returned artifact, svc')
    | (inl e, svc') =>
        if is_KeyError e then (session_not_found, svc')
        else if is_ValueError e then (http 400 (StrOf e), svc')
        else (http 500 (StrOf e), svc')
    end.

(** [POST /api/session/{session_id}/artifacts/link] *)
Definition link_artifact (uuid : string) (now : Z) (session_id : string)
  (payload_url payload_description : string) : Handler SubmissionArtifact :=
  fun svc =>
    match store_link_artifact uuid now session_id (PyStr.strip payload_url)
            (Some payload_description) svc with
    | (inr artifact, svc') => (Returned artifact, svc')
    | (inl e, svc') =>
        if is_KeyError e then (session_not_found, svc')
        else if is_ValueError e then (http 400 (StrOf e), svc')
        else (Unhandled e, svc')
    end.

(** [GET /api/session/{session_id}/artifacts/{artifact_id}]; a path
    exists when the upload directory holds a file under it. *)
Definition download_artifact (session_id artifact_id : string)
  : Handler FileResponse :=
  fun svc =>
    match get_artifact session_id artifact_id svc with
    | (inl e, svc') =>
        if is_KeyError e then (http 404 (Detail "Artifact not found"), svc')
        else (Unhandled e, svc')
    | (inr artifact, svc') =>
        match source artifact, storage_path artifact with
        | SourceFile, Some p =>
            if String.eqb p "" then
              (http 400 (Detail "Artifact is not available for download"), svc')
            else
              match disk svc' !! p with
              | None =>
                  (http 404 (Detail "Stored file could not be found"), svc')
              | Some _ =>
                  (Returned
                     {| path := p;
                        media_type := or_str (content_type artifact)
                                        "application/octet-stream";
                        download_name := or_str (filename artifact)
                                           (Pathlib.name p) |},
                   svc')
              end
        | _, _ =>
            (http 400 (Detail "Artifact is not available for download"), svc')
        end
    end.

End Main.

(* ===================================================================== *)
(** ** Runs of the service *)
(* ===================================================================== *)

(** One call of the service, with what the call reads from the
    outside. *)
Inductive op : Type :=
| OpCreateSession (llm : LLMClient) (uuid : string) (now : Z)
    (payload : SessionCreateRequest)
| OpChat (llm : LLMClient) (now : Z) (sid message : string)
| OpSummarize (llm : LLMClient) (sid : string)
| OpListArtifacts (sid : string)
| OpStoreFile (uuid : string) (now : Z) (sid filename_ : string)
    (content_type_ : option string) (data : list byte)
    (description_ : option string)
| OpStoreLink (uuid : string) (now : Z) (sid url_ : string)
    (description_ : option string)
| OpGetArtifact (sid aid : string).

Inductive response : Type :=
| RCreated (r : SessionCreateResponse)
| RChat (r : ChatResponse)
| RSummary (r : SummaryResponse)
| RArtifacts (l : list SubmissionArtifact)
| RArtifact (a : SubmissionArtifact).

Definition map_result {S A B} (f : A -> B) (m : Meth S A) : Meth S B :=
  let* a := m in ret (f a).

Section Runs.
Context `{Externals}.

Definition exec (o : op) : Meth InterviewService response :=
  match o with
  | OpCreateSession llm uuid now payload =>
      map_result RCreated (create_session llm uuid now payload)
  | OpChat llm now sid message => map_result RChat (chat llm now sid message)
  | OpSummarize llm sid => map_result RSummary (summarize llm sid)
  | OpListArtifacts sid => map_result RArtifacts (list_artifacts sid)
  | OpStoreFile uuid now sid fn ct data de =>
      map_result RArtifact (store_file_artifact uuid now sid fn ct data de)
  | OpStoreLink uuid now sid u de =>
      map_result RArtifact (store_link_artifact uuid now sid u de)
  | OpGetArtifact sid aid => map_result RArtifact (get_artifact sid aid)
  end.

(** The outcomes of a sequence of calls and the service they leave. *)
Fixpoint run (ops : list op) (svc : InterviewService)
  : list (exn + response) * InterviewService :=
  match ops with
  | [] => ([], svc)
  | o :: ops' =>
      let '(r, svc') := exec o svc in
      let '(rs, svc'') := run ops' svc' in
      (r :: rs, svc'')
  end.

(** The session ids that [create_session] returned during a run. *)
Definition returned_session_ids (rs : list (exn + response)) : list string :=
  flat_map (fun r => match r with
                     | inr (RCreated c) => [resp_session_id c]
                     | _ => []
                     end) rs.

(** A sequence of [chat] calls on one session. *)
Fixpoint chats (sid : string) (calls : list (LLMClient * Z * string))
  (svc : InterviewService) : list (exn + ChatResponse) * InterviewService :=
  match calls with
  | [] => ([], svc)
  | (llm, now, message) :: calls' =>
      let '(r, svc') := chat llm now sid message svc in
      let '(rs, svc'') := chats sid calls' svc' in
      (r :: rs, svc'')
  end.

End Runs.

(* ===================================================================== *)
(** ** Notions used by the statements *)
(* ===================================================================== *)

(** The score that a turn's evaluation carries for [skill], if any. *)
Definition observation (skill : string) (t : ChatTurn) : option float :=
  match evaluation t with
  | Some ev => Py.get (rubric_scores ev) skill
  | None => None
  end.

(** The scores for [skill] in a list of turns, in order. *)
Definition observations (skill : string) (ts : list ChatTurn) : list float :=
  omap (observation skill) ts.

(** The sum that [record_scores] accumulates: left to right from [t0]. *)
Definition float_sum (t0 : float) (vs : list float) : float :=
  fold_left PrimFloat.add vs t0.

(** What the validated scores [fl] of one evaluation do to the totals
    and counts kept by [record_scores]. *)
Definition apply_scores (fl : list (string * float)) (s : InterviewSession)
  : InterviewSession :=
  fold_left (fun s kv =>
    set_score_counts (insert (fst kv) (count_of s (fst kv) + 1))
      (set_score_totals
         (insert (fst kv) (total_of s (fst kv) + snd kv)%float) s)) fl s.

(** The spec's name for the [KeyError] of [_get_session]. *)
Definition SessionNotFound (sid : string) : exn :=
  KeyError ("Unknown session id " ++ sid)%string.

(** The session ids of the store all satisfy [D]. *)
Definition dom_within (D : string -> Prop) (svc : InterviewService) : Prop :=
  forall k, is_Some (_sessions svc !! k) -> D k.

(** The spec's [ValidationError]: the [ValueError] of the store
    operations. *)
Definition raises_ValidationError {A} (r : exn + A) : Prop :=
  exists msg, r = inl (ValueError msg).

(** The call returned. *)
Definition returns {A} (r : exn + A) : Prop := exists a, r = inr a.

(** The lower-cased URL starts with [http://] or [https://]. *)
Definition http_scheme (u : string) : Prop :=
  PyStr.startswith_any (PyStr.lower u) ["http://"; "https://"] = true.

(** The total of [skill] is kept whenever the skill has been counted. *)
Definition tracked (skill : string) (s : InterviewSession) : Prop :=
  0 < count_of s skill -> is_Some (score_totals s !! skill).



(** Every skill of the rubric is a key of the totals and of the counts. *)
Definition seeded (s : InterviewSession) : Prop :=
  forall skill, skill ∈ SKILL_RUBRIC ->
    is_Some (score_totals s !! skill) /\ is_Some (score_counts s !! skill).

(** Totals and counts have the same keys, and a skill counted zero times
    has the total [0.0]. *)
Definition wf_scores (s : InterviewSession) : Prop :=
  forall skill,
    match score_totals s !! skill, score_counts s !! skill with
    | Some t, Some c => c = 0 -> t = 0%float
    | None, None => True
    | _, _ => False
    end.

(** What holds of a session once its first turn is recorded. *)
Definition good_session (s : InterviewSession) : Prop :=
  seeded s /\ wf_scores s /\ transcript s <> [].

Definition good_service (svc : InterviewService) : Prop :=
  forall sid s, _sessions svc !! sid = Some s -> good_session s.

Section TurnDefs.
Context `{Externals}.

(** The session of [create_session] when the gateway is called. *)
Definition bootstrap_session (uuid : string) (now : Z)
  (payload : SessionCreateRequest) : InterviewSession :=
  set_messages (fun m =>
      m ++ [("user", build_session_bootstrap_prompt (req_candidate payload)
                       (req_scenario payload)
                       (cand_focus_areas (req_candidate payload))
                       (req_workbook_platform payload))])
    (set_messages (fun m => m ++ [("system", build_interview_system_prompt)])
       (new_session uuid now payload)).

(** The messages [summarize] sends for session [s]. *)
Definition summary_messages (s : InterviewSession) : list (string * string) :=
  messages s ++
  [("user", build_summary_prompt (candidate s)
              (dumps_transcript (transcript s)))].

(** The session once the scores of turn [t] are folded in. *)
Definition scored (t : ChatTurn) (s : InterviewSession) : InterviewSession :=
  match evaluation t with
  | Some ev => apply_scores (rubric_scores ev) s
  | None => s
  end.

(** The session once [_record_ai_turn] has recorded turn [t] for the
    gateway reply [content_v]. *)
Definition recorded (now : Z) (content_v : pyval) (t : ChatTurn)
  (s : InterviewSession) : InterviewSession :=
  seed_rubric
    (set_updated_at now
       (set_messages (fun m => m ++ [("assistant", json_dumps content_v)])
          (set_transcript (fun tr => tr ++ [t]) (scored t s)))).

End TurnDefs.

(** The number of calls that returned. *)
Fixpoint successes {A} (rs : list (exn + A)) : nat :=
  match rs with
  | [] => 0
  | inr _ :: rs' => S (successes rs')
  | inl _ :: rs' => successes rs'
  end.

(** The averages in [updated] are the ones the session's totals and
    counts give. *)
Definition averages_of (updated : gmap string float) (s : InterviewSession)
  : Prop :=
  forall k avg, updated !! k = Some avg ->
    exists t c, score_totals s !! k = Some t /\ score_counts s !! k = Some c /\
                0 < c /\ avg = PyNum.truediv_count t c.

(** The skills of [items] whose value is an [int] or a [float]. *)
Definition numeric_skill (items : list (string * pyval)) (skill : string)
  : Prop :=
  exists v, In (skill, v) items /\ Py.isinstance_int_float v = true.

(** [c in s] for a character. *)
Fixpoint contains_char (c : ascii) (s : string) : bool :=
  match s with
  | EmptyString => false
  | String c' s' => Ascii.eqb c' c || contains_char c s'
  end.

(** The list [l] is in the order [list_artifacts] gives: no entry is
    older than one that follows it. *)
Definition newest_first (l : list SubmissionArtifact) : Prop :=
  StronglySorted (fun a b => (uploaded_at b <= uploaded_at a)%Z) l.

(** The entries of [l] uploaded at [t], in the order of [l]. *)
Definition uploaded_exactly_at (t : Z) (l : list SubmissionArtifact)
  : list SubmissionArtifact :=
  List.filter (fun a => (uploaded_at a =? t)%Z) l.

(** The outcome [r] of storing an artifact under [uuid] in session [sid]
    of [svc]: what came back is what [get_artifact] now gives for [uuid],
    it is listed, and the other ids answer as before. *)
Definition retrievable (sid uuid : string) (svc : InterviewService)
  (r : (exn + SubmissionArtifact) * InterviewService) : Prop :=
  forall a, fst r = inr a ->
    art_id a = uuid /\
    get_artifact sid uuid (snd r) = (inr a, snd r) /\
    (exists l, list_artifacts sid (snd r) = (inr l, snd r) /\ In a l) /\
    (forall aid, aid <> uuid ->
       fst (get_artifact sid aid (snd r)) = fst (get_artifact sid aid svc)).

(** The outcome [r] of a store operation on session [sid], which was
    [s] in [svc], has left the conversation alone. *)
Definition conversation_kept (sid : string) (svc : InterviewService)
  (s : InterviewSession)
  (r : (exn + SubmissionArtifact) * InterviewService) : Prop :=
  (exists s', _sessions (snd r) !! sid = Some s' /\
     messages s' = messages s /\ transcript s' = transcript s /\
     score_totals s' = score_totals s /\ score_counts s' = score_counts s /\
     running_scores s' = running_scores s /\
     (forall aid, is_Some (Py.get (artifacts s) aid) ->
                  is_Some (Py.get (artifacts s') aid))) /\
  (forall sid', sid' <> sid ->
     _sessions (snd r) !! sid' = _sessions svc !! sid').

(** The session once artifact [a] is stored in it at time [now]. *)
Definition with_artifact (a : SubmissionArtifact) (now : Z)
  (s : InterviewSession) : InterviewSession :=
  set_updated_at now (set_artifacts (fun d => Py.set d (art_id a) a) s).

(** What the validation of the two store operations guarantees of an
    artifact held under [key], [max] being the upload limit. *)
Definition valid_artifact (max : Z) (key : string) (a : SubmissionArtifact)
  : Prop :=
  art_id a = key /\
  PyStr.strip (description a) = description a /\
  match source a with
  | SourceFile =>
      url a = None /\ is_Some (storage_path a) /\
      (exists n, size_bytes a = Some n /\ (Z.of_nat n <= max)%Z) /\
      (exists nm, filename a = Some nm /\ contains_char "/" nm = false /\
                  In (PyStr.lower (Pathlib.suffix nm)) ALLOWED_FILE_EXTENSIONS)
  | SourceLink =>
      filename a = None /\ content_type a = None /\ size_bytes a = None /\
      storage_path a = None /\
      (exists u, url a = Some u /\ u <> "" /\ PyStr.strip u = u /\
                 http_scheme u)
  end.

(** Every artifact of every session is valid for the service's limit. *)
Definition artifacts_valid (max : Z) (svc : InterviewService) : Prop :=
  _max_upload_bytes svc = max /\
  forall sid s key a,
    _sessions svc !! sid = Some s -> Py.get (artifacts s) key = Some a ->
    valid_artifact max key a.

(** Session [s'] is a later state of session [s]: histories and counts
    only grow, artifact ids are kept, the identity is the same. *)
Definition grows (s s' : InterviewSession) : Prop :=
  messages s `prefix_of` messages s' /\
  transcript s `prefix_of` transcript s' /\
  (forall skill, count_of s skill <= count_of s' skill) /\
  (forall aid, is_Some (Py.get (artifacts s) aid) ->
               is_Some (Py.get (artifacts s') aid)) /\
  session_id s' = session_id s /\ candidate s' = candidate s /\
  created_at s' = created_at s.

(** No [create_session] of [ops] draws the id [sid]. *)
Definition never_redrawn (sid : string) (ops : list op) : Prop :=
  forall llm uuid now payload,
    In (OpCreateSession llm uuid now payload) ops -> uuid <> sid.

(** The message of the [ValueError] of [extract_content]. *)
Definition unparsable : exn := ValueError "Unable to parse LLM response payload".

(** [except (KeyError, json.JSONDecodeError, IndexError)]: the exceptions
    that [extract_content] turns into its [ValueError]. *)
Definition caught (e : exn) : bool :=
  match e with
  | KeyError _ | JSONDecodeError | IndexError => true
  | _ => false
  end.

(** A completion payload whose first choice carries [message]. *)
Definition completion (message : pyval) (others : list pyval)
  (more : list (string * pyval)) : pyval :=
  PyDict (("choices", PyList (PyDict [("message", message)] :: others)) :: more).

(** [s] is a non-empty text with no blank at either end. *)
Definition clean_item (s : string) : Prop := s <> "" /\ PyStr.strip s = s.

(** The artifacts of [s] are filed under their own ids, each id once. *)
Definition artifacts_keyed (s : InterviewSession) : Prop :=
  NoDup (map fst (artifacts s)) /\
  forall key a, In (key, a) (artifacts s) -> art_id a = key.

(** The number of messages of the history with the given role. *)
Definition count_role (r : string) (msgs : list (string * string)) : nat :=
  length (List.filter (fun m => String.eqb (fst m) r) msgs).

(** Every session of the store satisfies [I]. *)
Definition all_sessions (I : InterviewSession -> Prop)
  (svc : InterviewService) : Prop :=
  forall sid s, _sessions svc !! sid = Some s -> I s.

Section HistoryDefs.
Context `{Externals}.

(** The message history and the transcript of [s] are in step: the
    history opens with the system prompt, goes on with user and assistant
    messages only, and has one assistant message per recorded turn. *)
Definition in_step (s : InterviewSession) : Prop :=
  (exists rest,
     messages s = ("system", build_interview_system_prompt) :: rest /\
     forall m, In m rest -> fst m = "user" \/ fst m = "assistant") /\
  count_role "assistant" (messages s) = length (transcript s).

End HistoryDefs.

(** Every score of the transcript of [s] has been counted. *)
Definition scores_counted (s : InterviewSession) : Prop :=
  forall skill, length (observations skill (transcript s)) <= count_of s skill.

(** The store holds a session under [k]. *)
Definition has_session (k : string) (svc : InterviewService) : Prop :=
  is_Some (_sessions svc !! k).




(* ===================================================================== *)
(** ** A scripted gateway, for the worked examples *)
(* ===================================================================== *)

Module Example.

(** A reply in the shape the system prompt asks for, as [DummyLLM] of
    the tests builds it, carrying [scores] as its [rubric_scores]. *)
Definition reply (scores : pyval) : pyval :=
  PyDict [("interviewer_message", PyStr "Welcome");
          ("evaluation",
           PyDict [("summary", PyStr ""); ("strengths", PyList []);
                   ("gaps", PyList []); ("rubric_scores", scores);
                   ("recommendation", PyStr "awaiting_candidate")]);
          ("next_best_action", PyStr "collect_response")].

(** The texts the scripted gateway sends, with what they decode to. *)
Definition replies : list (string * pyval) :=
  [("bootstrap", reply (PyDict []));
   ("data_analysis 3", reply (PyDict [("data_analysis", PyInt 3)]));
   ("data_analysis 5", reply (PyDict [("data_analysis", PyInt 5)]));
   ("data_analysis 1.0",
    reply (PyDict [("data_analysis", PyFloat 0x1p+0%float)]));
   ("data_analysis 1.2",
    reply (PyDict [("data_analysis", PyFloat 0x1.3333333333333p+0%float)]));
   ("data_analysis 1.6",
    reply (PyDict [("data_analysis", PyFloat 0x1.999999999999ap+0%float)]));
   ("data_analysis null", reply (PyDict [("data_analysis", PyNone)]));
   ("no keys", PyDict []);
   ("scorecard text", PyDict [("scorecard", PyStr "n/a")])].

Definition scripted : Externals :=
  {| json_loads := fun text => match Py.get replies text with
                                | Some v => inr v
                                | None => inl JSONDecodeError
                                end;
     json_dumps := fun _ => "<json>";
     dumps_transcript := fun _ => "<transcript>";
     float_of_str := fun _ => None;
     build_interview_system_prompt := "<system prompt>";
     build_session_bootstrap_prompt := fun _ _ _ _ => "<bootstrap prompt>";
     build_summary_prompt := fun _ _ => "<summary prompt>" |}.

(** A client whose completion carries [text] as its message content. *)
Definition llm_says (text : string) : LLMClient :=
  fun _ => inr (PyDict [("choices",
             PyList [PyDict [("message", PyDict [("content", PyStr text)])]])]).

(** A client whose transport fails. *)
Definition llm_down : LLMClient := fun _ => inl (TransportError "timeout").

Definition jordan : CandidateProfile :=
  {| name := "Jordan"; current_role := "Analyst";
     years_experience := 0x1p+2%float;
     target_role := "Senior Analyst"; cand_focus_areas := [DATA_ANALYSIS] |}.

Definition request : SessionCreateRequest :=
  {| req_candidate := jordan; req_scenario := "fpanda";
     req_workbook_platform := MICROSOFT_EXCEL |}.

Definition service0 : InterviewService :=
  new_service "/uploads" default_max_upload_bytes.

(** The service after [create_session] for Jordan, the gateway sending
    the bootstrap reply (no scores yet). *)
Definition service1 : InterviewService :=
  snd (create_session (H := scripted) (llm_says "bootstrap") "sid-1" 0
         request service0).

Definition ask (text : string) (now : Z) (message : string)
  : LLMClient * Z * string := (llm_says text, now, message).

(** Two answers, scored 3 and 5 on data analysis. *)
Definition calls_3_5 : list (LLMClient * Z * string) :=
  [ask "data_analysis 3" 1 "First answer";
   ask "data_analysis 5" 2 "Second answer"].

(** Three answers scored 1.0, 1.2 and 1.6, and the same in reverse. *)
Definition calls_up : list (LLMClient * Z * string) :=
  [ask "data_analysis 1.0" 1 "a"; ask "data_analysis 1.2" 2 "b";
   ask "data_analysis 1.6" 3 "c"].

Definition calls_down : list (LLMClient * Z * string) :=
  [ask "data_analysis 1.6" 1 "a"; ask "data_analysis 1.2" 2 "b";
   ask "data_analysis 1.0" 3 "c"].

(** The responses of the calls that returned. *)
Definition returned {A} (rs : list (exn + A)) : list A :=
  omap (fun r => match r with inr a => Some a | inl _ => None end) rs.

(** The scenario of the spec: Jordan's session, then an answer scored 3
    and an answer scored 5. *)
Definition first_chat : (exn + ChatResponse) * InterviewService :=
  chat (H := scripted) (llm_says "data_analysis 3") 1 "sid-1" "First answer"
    service1.

Definition second_chat : (exn + ChatResponse) * InterviewService :=
  chat (H := scripted) (llm_says "data_analysis 5") 2 "sid-1" "Second answer"
    (snd first_chat).

(** The same with the score 3 carried by the reply to [create_session]
    and a first answer that gets no score. *)
Definition service1' : InterviewService :=
  snd (create_session (H := scripted) (llm_says "data_analysis 3") "sid-1" 0
         request service0).

Definition first_chat' : (exn + ChatResponse) * InterviewService :=
  chat (H := scripted) (llm_says "bootstrap") 1 "sid-1" "First answer"
    service1'.

Definition second_chat' : (exn + ChatResponse) * InterviewService :=
  chat (H := scripted) (llm_says "data_analysis 5") 2 "sid-1" "Second answer"
    (snd first_chat').

(** What a [chat] call shows of the scores: the items of
    [running_scores] and [total_turns]. *)
Definition shown (r : (exn + ChatResponse) * InterviewService)
  : option (list (string * float) * nat) :=
  match fst r with
  | inr x => Some (map_to_list (running_scores_of x), total_turns x)
  | inl _ => None
  end.

(** Jordan's session on a service that takes uploads of 3 bytes at most. *)
Definition small_service : InterviewService :=
  snd (create_session (H := scripted) (llm_says "bootstrap") "sid-1" 0
         request (new_service "/uploads" 3)).

(** The creation of Jordan's session, then three artifacts: a link
    stored at 5, a workbook stored at 7, and a second link stored at 5. *)
Definition artifact_ops : list op :=
  [OpCreateSession (llm_says "bootstrap") "sid-1" 0 request;
   OpStoreLink "artifact-1" 5 "sid-1" "https://x" None;
   OpStoreFile "artifact-2" 7 "sid-1" "Report.xlsx" None [x01; x02]%byte None;
   OpStoreLink "artifact-3" 5 "sid-1" "https://y" None].

(** The service they leave. *)
Definition service3 : InterviewService :=
  snd (run (H := scripted) artifact_ops service0).

End Example.

(** A gateway whose reply scores the answer but names a number as its
    next action. *)
Module Edge.

Definition reply : pyval :=
  PyDict [("interviewer_message", PyStr "Next");
          ("evaluation",
           PyDict [("summary", PyStr "ok"); ("strengths", PyList []);
                   ("gaps", PyList []);
                   ("rubric_scores", PyDict [("automation", PyInt 4)]);
                   ("recommendation", PyStr "continue")]);
          ("next_best_action", PyInt 7)].

Definition scripted : Externals :=
  {| json_loads := fun text => match Py.get [("action 7", reply)] text with
                                | Some v => inr v
                                | None => inl JSONDecodeError
                                end;
     json_dumps := fun _ => "<json>";
     dumps_transcript := fun _ => "<transcript>";
     float_of_str := fun _ => None;
     build_interview_system_prompt := "<system prompt>";
     build_session_bootstrap_prompt := fun _ _ _ _ => "<bootstrap prompt>";
     build_summary_prompt := fun _ _ => "<summary prompt>" |}.

End Edge.

(* ===================================================================== *)
(** ** Reasoning about methods *)
(* ===================================================================== *)

(** [hoare P m Q]: from a state in [P], [m] ends, normally or by raising,
    with an outcome and a state related by [Q]. *)
Definition hoare {S A} (P : S -> Prop) (m : Meth S A)
  (Q : exn + A -> S -> Prop) : Prop :=
  forall s, P s -> Q (fst (m s)) (snd (m s)).

(** [m] keeps [I], however it ends. *)
Definition preserves {S A} (I : S -> Prop) (m : Meth S A) : Prop :=
  hoare I m (fun _ => I).

(** A method that only reads leaves the state as it was. *)
Definition read_only {S A} (m : Meth S A) : Prop := forall s, snd (m s) = s.

Lemma hoare_bind {S A B} (P : S -> Prop) (R : exn + A -> S -> Prop)
  (Q : exn + B -> S -> Prop) (m : Meth S A) (k : A -> Meth S B) :
  hoare P m R ->
  (forall e s, R (inl e) s -> Q (inl e) s) ->
  (forall a, hoare (R (inr a)) (k a) Q) ->
  hoare P (bind m k) Q.
Proof.
  intros Hm He Hk s Hs. specialize (Hm s Hs). unfold bind.
  destruct (m s) as [[e | a] s']; simpl in *.
  - by apply He.
  - by apply Hk.
Qed.

Lemma preserves_bind {S A B} (I : S -> Prop) (m : Meth S A)
  (k : A -> Meth S B) :
  preserves I m -> (forall a, preserves I (k a)) -> preserves I (bind m k).
Proof.
  intros Hm Hk. apply (hoare_bind I (fun _ => I)); auto.
Qed.

Lemma preserves_ret {S A} (I : S -> Prop) (a : A) : preserves I (ret a).
Proof. by intros s Hs. Qed.

Lemma preserves_raise {S A} (I : S -> Prop) (e : exn) :
  preserves I (@raise S A e).
Proof. by intros s Hs. Qed.

Lemma preserves_get_state {S} (I : S -> Prop) : preserves I (@get_state S).
Proof. by intros s Hs. Qed.

Lemma preserves_lift_result {S A} (I : S -> Prop) (r : exn + A) :
  preserves I (@lift_result S A r).
Proof. by intros s Hs. Qed.

Lemma preserves_modify {S} (I : S -> Prop) (f : S -> S) :
  (forall s, I s -> I (f s)) -> preserves I (modify f).
Proof. intros Hf s Hs. by apply Hf. Qed.

Lemma preserves_map_result {S A B} (I : S -> Prop) (f : A -> B)
  (m : Meth S A) : preserves I m -> preserves I (map_result f m).
Proof.
  intros Hm. apply preserves_bind; [done |]. intros a. apply preserves_ret.
Qed.

Create HintDb meth discriminated.
#[export] Hint Resolve preserves_ret preserves_raise preserves_get_state
  preserves_lift_result preserves_map_result : meth.

Lemma read_only_bind {S A B} (m : Meth S A) (k : A -> Meth S B) :
  read_only m -> (forall a, read_only (k a)) -> read_only (bind m k).
Proof.
  intros Hm Hk s. unfold bind. specialize (Hm s).
  destruct (m s) as [[e | a] s']; simpl in *; subst; [done |]. apply Hk.
Qed.

Lemma read_only_ret {S A} (a : A) : read_only (@ret S A a).
Proof. by intros s. Qed.

Lemma read_only_raise {S A} (e : exn) : read_only (@raise S A e).
Proof. by intros s. Qed.

Lemma read_only_lift_result {S A} (r : exn + A) :
  read_only (@lift_result S A r).
Proof. by intros s. Qed.

Lemma read_only_get_session sid : read_only (_get_session sid).
Proof. intros svc. unfold _get_session. by destruct (_ !! _). Qed.

#[export] Hint Resolve read_only_ret read_only_raise read_only_lift_result
  read_only_get_session : meth.

(** Facts about a stored session or a returned response are evaluated
    through the store, so that the value itself is never spelled out. *)
Lemma session_fact {A} (f : InterviewSession -> A) svc sid s (a : A) :
  _sessions svc !! sid = Some s ->
  f <$> _sessions svc !! sid = Some a -> f s = a.
Proof. intros ->. by intros [= <-]. Qed.

Lemma last_fact {A B} (f : A -> B) (l : list A) (x : A) (b : B) :
  last l = Some x -> f <$> last l = Some b -> f x = b.
Proof. intros ->. by intros [= <-]. Qed.

Lemma is_Some_true {A} (o : option A) :
  (if o is Some _ then true else false) = true -> is_Some o.
Proof. by destruct o. Qed.

Lemma service1_session :
  exists s, _sessions Example.service1 !! "sid-1" = Some s.
Proof. apply is_Some_true. by vm_compute. Qed.

(* ===================================================================== *)
(** ** The session store *)
(* ===================================================================== *)

Section StoreProofs.
Context `{Externals}.

Lemma read_only_summarize llm sid : read_only (summarize llm sid).
Proof.
  unfold summarize.
  repeat (apply read_only_bind; [auto with meth | intros ?]).
  auto with meth.
Qed.

(** C8.  [summarize] leaves the service as it found it: the store is the
    same, so every session keeps its message history, transcript, score
    totals and counts and artifacts, and no turn is added. *)
Theorem summarize_does_not_mutate (llm : LLMClient) (sid : string)
  (svc : InterviewService) :
  let svc' := snd (summarize llm sid svc) in
  svc' = svc /\
  forall sid' s, _sessions svc !! sid' = Some s ->
    exists s', _sessions svc' !! sid' = Some s' /\
      messages s' = messages s /\ transcript s' = transcript s /\
      score_totals s' = score_totals s /\ score_counts s' = score_counts s /\
      artifacts s' = artifacts s /\
      length (transcript s') = length (transcript s).
Proof.
  intros svc'. assert (Heq : svc' = svc) by apply read_only_summarize.
  split; [done |]. intros sid' s Hs. exists s. by rewrite Heq.
Qed.

Lemma chat_gateway_failure llm now sid message svc s e :
  _sessions svc !! sid = Some s ->
  call_gateway llm (messages s ++ [("user", message)]) = inl e ->
  chat llm now sid message svc =
    (inl e, set_sessions
              (insert sid (set_messages (fun m => m ++ [("user", message)]) s))
              svc).
Proof.
  intros Hs He. unfold chat, on_session. rewrite Hs.
  unfold bind, modify, get_state, lift_result. simpl. by rewrite He.
Qed.


Lemma preserves_on_session_dom {A} D sid (m : Meth InterviewSession A) :
  preserves (dom_within D) (on_session sid m).
Proof.
  intros svc Hsvc. unfold on_session.
  destruct (_sessions svc !! sid) as [s |] eqn:Hs; [| done].
  destruct (m s) as [r s']. intros k Hk. cbn in Hk.
  apply Hsvc. destruct (decide (sid = k)) as [-> | Hne].
  - by rewrite Hs.
  - by rewrite lookup_insert_ne in Hk.
Qed.

Lemma preserves_get_session I sid : preserves I (_get_session sid).
Proof. intros svc Hsvc. unfold _get_session. by destruct (_ !! _). Qed.

Ltac preserves_step :=
  first
    [ apply preserves_ret | apply preserves_raise | apply preserves_get_state
    | apply preserves_lift_result | apply preserves_get_session
    | apply preserves_on_session_dom
    | apply preserves_map_result
    | apply preserves_bind; [| intros ?]
    | match goal with
      | |- preserves _ (if ?b then _ else _) => destruct b
      | |- preserves _ (match ?x with _ => _ end) => destruct x
      end ].

Lemma preserves_dom_store_file D uuid now sid fn ct data de :
  preserves (dom_within D) (store_file_artifact uuid now sid fn ct data de).
Proof.
  unfold store_file_artifact. repeat preserves_step.
Qed.

Lemma preserves_dom_store_link D uuid now sid u de :
  preserves (dom_within D) (store_link_artifact uuid now sid u de).
Proof. unfold store_link_artifact. repeat preserves_step. Qed.

Lemma preserves_dom_chat D llm now sid msg :
  preserves (dom_within D) (chat llm now sid msg).
Proof. unfold chat. apply preserves_on_session_dom. Qed.

Lemma preserves_dom_read_only {A} D (m : Meth InterviewService A) :
  read_only m -> preserves (dom_within D) m.
Proof. intros Hm svc Hsvc. by rewrite Hm. Qed.

Lemma read_only_list_artifacts sid : read_only (list_artifacts sid).
Proof.
  unfold list_artifacts. apply read_only_bind; [auto with meth | intros ?].
  auto with meth.
Qed.

Lemma read_only_get_artifact sid aid : read_only (get_artifact sid aid).
Proof.
  unfold get_artifact. apply read_only_bind; [auto with meth | intros ?].
  destruct (Py.get _ _); auto with meth.
Qed.

Lemma exec_sessions_dom o svc k :
  is_Some (_sessions (snd (exec o svc)) !! k) ->
  is_Some (_sessions svc !! k) \/ In k (returned_session_ids [fst (exec o svc)]).
Proof.
  set (D := fun k => is_Some (_sessions svc !! k)).
  assert (Hkeep : preserves (dom_within D) (exec o) ->
                  is_Some (_sessions (snd (exec o svc)) !! k) ->
                  is_Some (_sessions svc !! k) \/
                  In k (returned_session_ids [fst (exec o svc)])).
  { intros Hp Hk. left. apply (Hp svc); [by intros k' | done]. }
  destruct o as [llm uuid now payload | llm now sid msg | llm sid | sid
                | uuid now sid fn ct data de | uuid now sid u de | sid aid];
    simpl exec in *.
  - clear Hkeep. unfold map_result, bind, create_session.
    match goal with |- context [match ?b ?s0 with _ => _ end] =>
      destruct (b s0) as [[e | t] s1] end; simpl; [by left |].
    intros Hk. destruct (decide (uuid = k)) as [-> | Hne]; [right; by left |].
    left. by rewrite lookup_insert_ne in Hk.
  - apply Hkeep, preserves_map_result, preserves_dom_chat.
  - apply Hkeep, preserves_map_result, preserves_dom_read_only,
      read_only_summarize.
  - apply Hkeep, preserves_map_result, preserves_dom_read_only,
      read_only_list_artifacts.
  - apply Hkeep, preserves_map_result, preserves_dom_store_file.
  - apply Hkeep, preserves_map_result, preserves_dom_store_link.
  - apply Hkeep, preserves_map_result, preserves_dom_read_only,
      read_only_get_artifact.
Qed.

Lemma run_sessions_dom ops svc k :
  is_Some (_sessions (snd (run ops svc)) !! k) ->
  is_Some (_sessions svc !! k) \/ In k (returned_session_ids (fst (run ops svc))).
Proof.
  revert svc. induction ops as [| o ops IH]; intros svc; simpl; [by left |].
  pose proof (exec_sessions_dom o svc k) as Ho.
  destruct (exec o svc) as [r svc1]. specialize (IH svc1).
  destruct (run ops svc1) as [rs svc2]. simpl in *.
  intros Hk. destruct (IH Hk) as [H1 | H1].
  - destruct (Ho H1) as [H0 | H0]; [by left |]. right.
    unfold returned_session_ids in *. simpl in *. rewrite app_nil_r in H0.
    apply in_or_app. by left.
  - right. unfold returned_session_ids in *. simpl. apply in_or_app. by right.
Qed.

Lemma unknown_session_raises svc sid (llm : LLMClient) now msg aid :
  _sessions svc !! sid = None ->
  chat llm now sid msg svc = (inl (SessionNotFound sid), svc) /\
  summarize llm sid svc = (inl (SessionNotFound sid), svc) /\
  list_artifacts sid svc = (inl (SessionNotFound sid), svc) /\
  get_artifact sid aid svc = (inl (SessionNotFound sid), svc).
Proof.
  intros Hs. unfold SessionNotFound.
  unfold chat, on_session, summarize, list_artifacts, get_artifact, bind,
    _get_session.
  by rewrite Hs.
Qed.

(** C9.  After any run of the service from its creation, a session id
    that [create_session] never returned makes [chat], [summarize],
    [list_artifacts] and [get_artifact] raise the [KeyError] of an unknown
    session and leaves the service unchanged. *)
Theorem never_created_session_not_found (ops : list op) (dir : string)
  (max : Z) (sid : string) (llm : LLMClient) (now : Z) (msg aid : string) :
  ~ In sid (returned_session_ids (fst (run ops (new_service dir max)))) ->
  let svc := snd (run ops (new_service dir max)) in
  chat llm now sid msg svc = (inl (SessionNotFound sid), svc) /\
  summarize llm sid svc = (inl (SessionNotFound sid), svc) /\
  list_artifacts sid svc = (inl (SessionNotFound sid), svc) /\
  get_artifact sid aid svc = (inl (SessionNotFound sid), svc).
Proof.
  intros Hnot svc. apply unknown_session_raises.
  destruct (_sessions svc !! sid) as [s |] eqn:Hs; [| done].
  destruct (run_sessions_dom ops (new_service dir max) sid) as [H0 | H0].
  - fold svc. by rewrite Hs.
  - simpl in H0. rewrite lookup_empty in H0. by destruct H0.
  - done.
Qed.


(** C1, as amended.  When the gateway call or the parsing of its reply
    fails in [chat], the error propagates, no turn is recorded and the
    score totals, counts and artifacts are as before; the message history
    keeps the candidate's entry that was appended before the call; other
    sessions are untouched. *)
Theorem chat_gateway_error_effect (llm : LLMClient) (now : Z)
  (sid message : string) (svc : InterviewService) (s : InterviewSession)
  (e : exn) :
  _sessions svc !! sid = Some s ->
  call_gateway llm (messages s ++ [("user", message)]) = inl e ->
  let r := chat llm now sid message svc in
  fst r = inl e /\
  (exists s', _sessions (snd r) !! sid = Some s' /\
     messages s' = messages s ++ [("user", message)] /\
     transcript s' = transcript s /\
     score_totals s' = score_totals s /\
     score_counts s' = score_counts s /\
     artifacts s' = artifacts s) /\
  (forall sid', sid' <> sid ->
     _sessions (snd r) !! sid' = _sessions svc !! sid').
Proof.
  intros Hs He r. unfold r. rewrite (chat_gateway_failure _ _ _ _ _ s e Hs He).
  cbn. split; [done |]. split.
  - eexists. rewrite lookup_insert_eq. by split.
  - intros sid' Hne. by rewrite lookup_insert_ne.
Qed.

End StoreProofs.

Lemma chat_gateway_error_effect_witness :
  fst (chat (H := Example.scripted) Example.llm_down 1%Z "sid-1" "hello"
         Example.service1) = inl (TransportError "timeout").
Proof.
  destruct service1_session as [s Hs].
  exact (proj1 (chat_gateway_error_effect (H := Example.scripted)
                  Example.llm_down 1%Z "sid-1" "hello" Example.service1 s
                  (TransportError "timeout") Hs eq_refl)).
Defined.

(** C1, as stated, fails: after a gateway error the session's message
    history is not the one before the call. *)
Lemma chat_gateway_error_extends_history :
  ~ (forall (E : Externals) (llm : LLMClient) (now : Z) (sid message : string)
       (svc : InterviewService) (s : InterviewSession) (e : exn),
       _sessions svc !! sid = Some s ->
       call_gateway llm (messages s ++ [("user", message)]) = inl e ->
       exists s', _sessions (snd (chat llm now sid message svc)) !! sid = Some s' /\
         messages s' = messages s /\ transcript s' = transcript s /\
         score_totals s' = score_totals s /\ score_counts s' = score_counts s).
Proof.
  intros Hclaim. destruct service1_session as [s Hs].
  destruct (Hclaim Example.scripted Example.llm_down 1%Z "sid-1" "hello"
              Example.service1 s (TransportError "timeout") Hs eq_refl)
    as (s1 & Hs1 & Hm1 & _).
  rewrite (chat_gateway_failure (H := Example.scripted) Example.llm_down 1
             "sid-1" "hello" Example.service1 s (TransportError "timeout")
             Hs eq_refl) in Hs1.
  cbn in Hs1. rewrite lookup_insert_eq in Hs1. injection Hs1 as <-.
  cbn in Hm1. apply (f_equal length) in Hm1.
  rewrite length_app in Hm1. simpl in Hm1. lia.
Qed.

Lemma never_created_session_not_found_witness :
  let svc :=
    snd (run (H := Example.scripted)
           [OpCreateSession (Example.llm_says "bootstrap") "sid-1" 0
              Example.request] (new_service "/uploads" 1024)) in
  chat (H := Example.scripted) Example.llm_down 1 "sid-2" "hello" svc
    = (inl (SessionNotFound "sid-2"), svc) /\
  summarize (H := Example.scripted) Example.llm_down "sid-2" svc
    = (inl (SessionNotFound "sid-2"), svc) /\
  list_artifacts "sid-2" svc = (inl (SessionNotFound "sid-2"), svc) /\
  get_artifact "sid-2" "artifact-1" svc
    = (inl (SessionNotFound "sid-2"), svc).
Proof.
  apply (never_created_session_not_found (H := Example.scripted)).
  vm_compute. intros [Heq | []]. discriminate Heq.
Defined.

(* ===================================================================== *)
(** ** Artifacts and the summary *)
(* ===================================================================== *)

Lemma str_in_In x l : str_in x l = true <-> In x l.
Proof.
  unfold str_in. rewrite existsb_exists. split.
  - intros (y & Hy & Heq). apply String.eqb_eq in Heq. by subst.
  - intros Hx. exists x. split; [done |]. apply String.eqb_refl.
Qed.

Lemma str_in_not_In x l : str_in x l = false <-> ~ In x l.
Proof.
  rewrite <- str_in_In. destruct (str_in x l); split; auto; try done.
Qed.

Lemma get_set_eq {V} (d : list (string * V)) k v :
  Py.get (Py.set d k v) k = Some v.
Proof.
  induction d as [| [k' v'] d IH]; simpl.
  - by rewrite String.eqb_refl.
  - destruct (String.eqb k' k) eqn:Hk; simpl; by rewrite Hk.
Qed.

Lemma get_set_ne {V} (d : list (string * V)) k k' v :
  k <> k' -> Py.get (Py.set d k v) k' = Py.get d k'.
Proof.
  intros Hne. induction d as [| [k0 v0] d IH]; simpl.
  - apply String.eqb_neq in Hne. by rewrite Hne.
  - destruct (String.eqb k0 k) eqn:Hk; simpl; [| by rewrite IH].
    apply String.eqb_eq in Hk. subst k0.
    apply String.eqb_neq in Hne. by rewrite Hne.
Qed.

Lemma store_file_artifact_cases uuid now sid fn ct data de svc s :
  _sessions svc !! sid = Some s ->
  let ext := PyStr.lower (Pathlib.suffix fn) in
  let r := store_file_artifact uuid now sid fn ct data de svc in
  if negb (str_in ext ALLOWED_FILE_EXTENSIONS) then
    raises_ValidationError (fst r) /\ snd r = svc
  else if (Z.of_nat (length data) >? _max_upload_bytes svc)%Z then
    raises_ValidationError (fst r) /\ snd r = svc
  else
    exists a s',
      fst r = inr a /\ art_id a = uuid /\ source a = SourceFile /\
      size_bytes a = Some (length data) /\
      filename a = Some (Pathlib.name fn) /\
      is_Some (storage_path a) /\
      _sessions (snd r) !! sid = Some s' /\
      Py.get (artifacts s') uuid = Some a.
Proof.
  intros Hs ext r. unfold r, store_file_artifact, bind, _get_session.
  rewrite Hs. fold ext.
  destruct (negb (str_in ext ALLOWED_FILE_EXTENSIONS)); [by split; [eexists |] |].
  cbn [get_state]. 
  destruct (Z.of_nat (length data) >? _max_upload_bytes svc)%Z;
    [by split; [eexists |] |].
  unfold modify, on_session. cbn. rewrite Hs. cbn.
  rewrite lookup_insert_eq. cbn.
  eexists _, _. repeat split; try reflexivity.
  - by eexists.
  - by rewrite lookup_insert_eq.
  - cbn. apply get_set_eq.
Qed.

Lemma raises_not_returns {A} (r : exn + A) :
  raises_ValidationError r -> ~ returns r.
Proof. intros [msg ->] [a Ha]. discriminate. Qed.

(** C6.  For an existing session, [store_file_artifact] raises the
    validation error exactly when the lower-cased extension of the file
    name is outside the allowed set or the data is longer than the
    configured maximum, and returns exactly otherwise: a [.txt] name
    fails whatever the bytes, a length above the maximum fails, a length
    equal to it passes; a refused upload leaves the service unchanged;
    the default maximum is 10 MiB. *)
Theorem store_file_artifact_validation (uuid : string) (now : Z)
  (sid fn : string) (ct : option string) (data : list byte)
  (de : option string) (svc : InterviewService) (s : InterviewSession) :
  _sessions svc !! sid = Some s ->
  let ext := PyStr.lower (Pathlib.suffix fn) in
  let size := Z.of_nat (length data) in
  let r := store_file_artifact uuid now sid fn ct data de svc in
  (raises_ValidationError (fst r) <->
     ~ In ext ALLOWED_FILE_EXTENSIONS \/ (size > _max_upload_bytes svc)%Z) /\
  (returns (fst r) <->
     In ext ALLOWED_FILE_EXTENSIONS /\ (size <= _max_upload_bytes svc)%Z) /\
  (ext = ".txt" -> raises_ValidationError (fst r)) /\
  ((size > _max_upload_bytes svc)%Z -> raises_ValidationError (fst r)) /\
  (In ext ALLOWED_FILE_EXTENSIONS -> size = _max_upload_bytes svc ->
     returns (fst r)) /\
  (raises_ValidationError (fst r) -> snd r = svc) /\
  default_max_upload_bytes = 10485760%Z.
Proof.
  intros Hs ext size r.
  pose proof (store_file_artifact_cases uuid now sid fn ct data de svc s Hs)
    as Hcases. cbv zeta in Hcases. fold ext r in Hcases.
  assert (Hiff : raises_ValidationError (fst r) <->
            ~ In ext ALLOWED_FILE_EXTENSIONS \/
            (size > _max_upload_bytes svc)%Z).
  { destruct (str_in ext ALLOWED_FILE_EXTENSIONS) eqn:Hin; simpl in Hcases.
    - apply str_in_In in Hin.
      destruct (Z.of_nat (length data) >? _max_upload_bytes svc)%Z eqn:Hgt.
      + split; [| by intros _; apply Hcases]. intros _. right. unfold size. lia.
      + destruct Hcases as (a & s' & Ha & _). split.
        * intros [msg Hmsg]. rewrite Hmsg in Ha. discriminate.
        * intros [Hn | Hn]; [done |]. unfold size in Hn. lia.
    - apply str_in_not_In in Hin. split; [by left | intros _; apply Hcases]. }
  assert (Hok : returns (fst r) <->
            In ext ALLOWED_FILE_EXTENSIONS /\
            (size <= _max_upload_bytes svc)%Z).
  { destruct (str_in ext ALLOWED_FILE_EXTENSIONS) eqn:Hin; simpl in Hcases.
    - apply str_in_In in Hin.
      destruct (Z.of_nat (length data) >? _max_upload_bytes svc)%Z eqn:Hgt.
      + split.
        * intros Hr. by destruct (raises_not_returns (fst r) (proj1 Hcases)).
        * intros [_ Hle]. unfold size in Hle. lia.
      + destruct Hcases as (a & s' & Ha & _). split.
        * intros _. split; [done |]. unfold size. lia.
        * intros _. by exists a.
    - apply str_in_not_In in Hin. split.
      + intros Hr. by destruct (raises_not_returns (fst r) (proj1 Hcases)).
      + by intros [Hn _]. }
  split; [done |]. split; [done |]. repeat split.
  - intros Htxt. apply Hiff. left. rewrite Htxt. vm_compute.
    intros Hin. repeat destruct Hin as [Hin | Hin]; try discriminate Hin; done.
  - intros Hgt. apply Hiff. by right.
  - intros Hin Heq. apply Hok. split; [done | lia].
  - intros Hr.
    destruct (negb (str_in ext ALLOWED_FILE_EXTENSIONS)); [apply Hcases |].
    destruct (Z.of_nat (length data) >? _max_upload_bytes svc)%Z;
      [apply Hcases |].
    destruct Hcases as (a & s' & Ha & _). destruct Hr as [msg Hmsg].
    rewrite Hmsg in Ha. discriminate.
Qed.

Lemma store_link_artifact_cases uuid now sid u de svc s :
  _sessions svc !! sid = Some s ->
  let cleaned := PyStr.strip u in
  let r := store_link_artifact uuid now sid u de svc in
  if String.eqb cleaned ""
     || negb (PyStr.startswith_any (PyStr.lower cleaned) ["http://"; "https://"])
  then raises_ValidationError (fst r) /\ snd r = svc
  else
    exists a s',
      fst r = inr a /\ art_id a = uuid /\ source a = SourceLink /\
      url a = Some cleaned /\ storage_path a = None /\
      _sessions (snd r) !! sid = Some s' /\
      Py.get (artifacts s') uuid = Some a.
Proof.
  intros Hs cleaned r. unfold r, store_link_artifact, bind, _get_session.
  rewrite Hs. fold cleaned.
  destruct (String.eqb cleaned "" || _); [by split; [eexists |] |].
  unfold modify, on_session. cbn. rewrite Hs. cbn.
  rewrite lookup_insert_eq. cbn.
  eexists _, _. repeat split; try reflexivity.
  - by rewrite lookup_insert_eq.
  - cbn. apply get_set_eq.
Qed.

(** C7.  For an existing session, [store_link_artifact] strips the URL
    and raises the validation error exactly when the result is empty or
    does not start, lower-cased, with [http://] or [https://]; a link it
    records is of the link kind and holds the stripped URL; [ftp://x] and
    blanks fail, [https://x] is recorded as it is. *)
Theorem store_link_artifact_validation (uuid : string) (now : Z)
  (sid u : string) (de : option string) (svc : InterviewService)
  (s : InterviewSession) :
  _sessions svc !! sid = Some s ->
  let cleaned := PyStr.strip u in
  let r := store_link_artifact uuid now sid u de svc in
  (raises_ValidationError (fst r) <-> cleaned = "" \/ ~ http_scheme cleaned) /\
  (forall a, fst r = inr a ->
     source a = SourceLink /\ url a = Some cleaned /\ http_scheme cleaned /\
     exists s', _sessions (snd r) !! sid = Some s' /\
                Py.get (artifacts s') uuid = Some a) /\
  raises_ValidationError
    (fst (store_link_artifact uuid now sid "ftp://x" de svc)) /\
  raises_ValidationError
    (fst (store_link_artifact uuid now sid "   " de svc)) /\
  (exists a, fst (store_link_artifact uuid now sid "https://x" de svc) = inr a
             /\ source a = SourceLink /\ url a = Some "https://x"
             /\ PyStr.startswith "https://x" "https://" = true).
Proof.
  intros Hs cleaned r.
  pose proof (store_link_artifact_cases uuid now sid u de svc s Hs) as Hcases.
  cbv zeta in Hcases. subst cleaned r. unfold http_scheme.
  split; [| split; [| split; [| split]]].
  - destruct (String.eqb (PyStr.strip u) "") eqn:Hempty;
      cbn [orb negb] in Hcases.
    + apply String.eqb_eq in Hempty. split; [by left | intros _; apply Hcases].
    + apply String.eqb_neq in Hempty.
      destruct (PyStr.startswith_any _ _) eqn:Hsch; cbn [orb negb] in Hcases.
      * destruct Hcases as (a & s' & Ha & _). split.
        -- intros [msg Hmsg]. rewrite Hmsg in Ha. discriminate.
        -- intros [Hn | Hn]; done.
      * split; [by right | intros _; apply Hcases].
  - intros a Ha.
    match type of Hcases with
    | if ?b then _ else _ => destruct b eqn:Hbad
    end.
    + destruct Hcases as [[msg Hmsg] _]. rewrite Hmsg in Ha. discriminate.
    + destruct Hcases as (a' & s' & Ha' & _ & Hsrc & Hurl & _ & Hs' & Hget).
      rewrite Ha' in Ha. injection Ha as <-.
      apply orb_false_iff in Hbad as [_ Hbad].
      apply negb_false_iff in Hbad. repeat split; try done. by exists s'.
  - pose proof (store_link_artifact_cases uuid now sid "ftp://x" de svc s Hs)
      as Hftp. cbv zeta in Hftp.
    match type of Hftp with
    | if ?b then _ else _ =>
        replace b with true in Hftp by (vm_compute; reflexivity)
    end. apply Hftp.
  - pose proof (store_link_artifact_cases uuid now sid "   " de svc s Hs)
      as Hblank. cbv zeta in Hblank.
    match type of Hblank with
    | if ?b then _ else _ =>
        replace b with true in Hblank by (vm_compute; reflexivity)
    end. apply Hblank.
  - pose proof (store_link_artifact_cases uuid now sid "https://x" de svc s Hs)
      as Hhttps. cbv zeta in Hhttps.
    match type of Hhttps with
    | if ?b then _ else _ =>
        replace b with false in Hhttps by (vm_compute; reflexivity)
    end.
    replace (PyStr.strip "https://x") with "https://x" in Hhttps
      by (vm_compute; reflexivity).
    destruct Hhttps as (a & s' & Ha & _ & Hsrc & Hurl & _). by exists a.
Qed.

Lemma small_service_session :
  exists s, _sessions Example.small_service !! "sid-1" = Some s.
Proof. apply is_Some_true. by vm_compute. Qed.

Lemma store_file_artifact_validation_witness :
  returns (fst (store_file_artifact "artifact-1" 5 "sid-1" "candidate.CSV"
                  None [x01; x02; x03]%byte None Example.small_service)).
Proof.
  destruct small_service_session as [s Hs].
  destruct (store_file_artifact_validation "artifact-1" 5 "sid-1"
              "candidate.CSV" None [x01; x02; x03]%byte None
              Example.small_service s Hs)
    as (_ & _ & _ & _ & Hmax & _).
  apply Hmax.
  - apply str_in_In. vm_compute. reflexivity.
  - vm_compute. reflexivity.
Defined.

Lemma store_link_artifact_validation_witness :
  exists a,
    fst (store_link_artifact "artifact-2" 6 "sid-1" "https://x" None
           Example.service1) = inr a /\
    source a = SourceLink /\ url a = Some "https://x" /\
    PyStr.startswith "https://x" "https://" = true.
Proof.
  destruct service1_session as [s Hs].
  exact (proj2 (proj2 (proj2 (proj2
    (store_link_artifact_validation "artifact-2" 6 "sid-1" "https://x" None
       Example.service1 s Hs))))).
Defined.

Section SummaryProofs.
Context `{Externals}.

(** C10, as amended.  When the summary reply is a JSON object whose
    present keys hold values that [SummaryResponse] accepts, [summarize]
    returns, leaves the service unchanged, and gives the empty string, the
    empty mapping and the empty list for the keys that are missing. *)
Theorem summarize_missing_keys (llm : LLMClient) (sid : string)
  (svc : InterviewService) (s : InterviewSession)
  (d : list (string * pyval)) :
  _sessions svc !! sid = Some s ->
  call_gateway llm (summary_messages s) = inr (PyDict d) ->
  (forall v, Py.get d "overall_summary" = Some v ->
     is_Some (Pydantic.validate_str v)) ->
  (forall v, Py.get d "scorecard" = Some v ->
     exists sc, v = PyDict sc /\ is_Some (Pydantic.validate_dict_str_float sc)) ->
  (forall v, Py.get d "next_steps" = Some v ->
     exists l, v = PyList l /\ is_Some (Pydantic.validate_list_str l)) ->
  exists resp,
    summarize llm sid svc = (inr resp, svc) /\
    sum_transcript resp = transcript s /\
    (Py.get d "overall_summary" = None -> final_summary resp = "") /\
    (Py.get d "scorecard" = None -> overall_scores resp = []) /\
    (Py.get d "next_steps" = None -> recommended_next_steps resp = []).
Proof.
  intros Hs Hgw Hsum Hsc Hns.
  assert (A1 : exists su,
            Pydantic.validate_str
              (default (PyStr "") (Py.get d "overall_summary")) = Some su /\
            (Py.get d "overall_summary" = None -> su = "")).
  { destruct (Py.get d "overall_summary") as [v |]; simpl.
    - destruct (Hsum v eq_refl) as [su Hsu]. by exists su.
    - by exists "". }
  assert (A2 : exists sc,
            match default (PyDict []) (Py.get d "scorecard") with
            | PyDict d0 => Pydantic.validate_dict_str_float d0
            | _ => None
            end = Some sc /\
            (Py.get d "scorecard" = None -> sc = [])).
  { destruct (Py.get d "scorecard") as [v |]; simpl.
    - destruct (Hsc v eq_refl) as (sc & -> & [scv Hscv]). by exists scv.
    - by exists []. }
  assert (A3 : exists ns,
            match default (PyList []) (Py.get d "next_steps") with
            | PyList l => Pydantic.validate_list_str l
            | _ => None
            end = Some ns /\
            (Py.get d "next_steps" = None -> ns = [])).
  { destruct (Py.get d "next_steps") as [v |]; simpl.
    - destruct (Hns v eq_refl) as (l & -> & [ns Hl]). by exists ns.
    - by exists []. }
  destruct A1 as (su & Hsu & Hsu0), A2 as (sc & Hscv & Hsc0),
    A3 as (ns & Hnsv & Hns0).
  unfold summarize, bind, _get_session. rewrite Hs.
  unfold summary_messages in Hgw. cbn [lift_result]. rewrite Hgw.
  cbn [dict_get_default]. unfold build_summary, lift_result.
  rewrite Hsu, Hnsv, Hscv. eexists. split; [reflexivity |]. by repeat split.
Qed.

End SummaryProofs.

Lemma summarize_missing_keys_witness :
  exists resp,
    summarize (H := Example.scripted) (Example.llm_says "no keys") "sid-1"
      Example.service1 = (inr resp, Example.service1) /\
    final_summary resp = "" /\ overall_scores resp = [] /\
    recommended_next_steps resp = [].
Proof.
  destruct service1_session as [s Hs].
  destruct (summarize_missing_keys (H := Example.scripted)
              (Example.llm_says "no keys") "sid-1" Example.service1 s []
              Hs eq_refl)
    as (resp & Hresp & _ & H1 & H2 & H3); try (intros v Hv; discriminate Hv).
  exists resp. split; [done |]. split; [by apply H1 |].
  split; [by apply H2 | by apply H3].
Defined.

(** C10, as stated, fails: a reply that lacks [overall_summary] and
    [next_steps] but carries a text as [scorecard] makes [summarize]
    raise. *)
Lemma summarize_fails_on_bad_scorecard :
  ~ (forall (E : Externals) (llm : LLMClient) (sid : string)
       (svc : InterviewService) (s : InterviewSession)
       (d : list (string * pyval)),
       _sessions svc !! sid = Some s ->
       call_gateway llm (summary_messages s) = inr (PyDict d) ->
       Py.get d "overall_summary" = None \/ Py.get d "scorecard" = None \/
       Py.get d "next_steps" = None ->
       returns (fst (summarize llm sid svc))).
Proof.
  intros Hclaim. destruct service1_session as [s Hs].
  destruct (Hclaim Example.scripted (Example.llm_says "scorecard text") "sid-1"
              Example.service1 s [("scorecard", PyStr "n/a")] Hs eq_refl)
    as [resp Hresp]; [by left |].
  vm_compute in Hresp. discriminate Hresp.
Qed.

(* ===================================================================== *)
(** ** Turn recording and score aggregation *)
(* ===================================================================== *)

(** *** Dicts in insertion order *)

Lemma get_None_keys {V} (d : list (string * V)) k :
  Py.get d k = None <-> k ∉ map fst d.
Proof.
  induction d as [| [k' v'] d IH]; simpl.
  - split; [intros _; apply not_elem_of_nil | done].
  - rewrite not_elem_of_cons. destruct (String.eqb k' k) eqn:Hk.
    + apply String.eqb_eq in Hk. split; [done | intros [Hn _]; by subst].
    + apply String.eqb_neq in Hk. rewrite IH. split; [| tauto].
      intros Hn. split; [congruence | done].
Qed.

Lemma set_keys_in {V} (d : list (string * V)) k v :
  k ∈ map fst d -> map fst (Py.set d k v) = map fst d.
Proof.
  induction d as [| [k' v'] d IH]; simpl.
  - intros Hin. by apply elem_of_nil in Hin.
  - intros Hin. destruct (String.eqb k' k) eqn:Hk; simpl; [done |].
    apply String.eqb_neq in Hk. apply elem_of_cons in Hin as [-> | Hin];
      [done |]. by rewrite IH.
Qed.

Lemma set_keys_notin {V} (d : list (string * V)) k v :
  k ∉ map fst d -> map fst (Py.set d k v) = map fst d ++ [k].
Proof.
  induction d as [| [k' v'] d IH]; simpl; [done |].
  rewrite not_elem_of_cons. intros [Hne Hnin].
  destruct (String.eqb k' k) eqn:Hk; simpl.
  - apply String.eqb_eq in Hk. by subst.
  - by rewrite IH.
Qed.

Lemma set_NoDup {V} (d : list (string * V)) k v :
  NoDup (map fst d) -> NoDup (map fst (Py.set d k v)).
Proof.
  intros Hd. destruct (decide (k ∈ map fst d)) as [Hin | Hnin].
  - by rewrite set_keys_in.
  - rewrite set_keys_notin by done. apply NoDup_app.
    split; [done |]. split; [| apply NoDup_singleton].
    intros x Hx Hk. apply list_elem_of_singleton in Hk. by subst.
Qed.

Lemma dict_of_items_NoDup {V} (items : list (string * V)) :
  NoDup (map fst (Py.dict_of_items items)).
Proof.
  unfold Py.dict_of_items.
  assert (Hgen : forall acc : list (string * V),
            NoDup (map fst acc) ->
            NoDup (map fst
              (fold_left (fun d kv => Py.set d (fst kv) (snd kv)) items acc))).
  { induction items as [| kv items IH]; intros acc Hacc; simpl; [done |].
    apply IH. by apply set_NoDup. }
  apply Hgen. constructor.
Qed.

Section TurnProofs.
Context `{Externals}.

Lemma validate_dict_keys d fl :
  Pydantic.validate_dict_str_float d = Some fl -> map fst fl = map fst d.
Proof.
  revert fl. induction d as [| [k v] d IH]; intros fl; simpl.
  - by intros [= <-].
  - destruct (Pydantic.validate_float v); [| done].
    destruct (Pydantic.validate_dict_str_float d); [| done].
    intros [= <-]. simpl. f_equal. by apply IH.
Qed.



Lemma dict_NoDup v d : dict_ v = inr d -> NoDup (map fst d).
Proof.
  destruct v as [| b | z | f | str | l | d0]; simpl; try done.
  - destruct str; [| done]. intros [= <-]. constructor.
  - destruct (dict_items l); [done |]. destruct (str_keys _); [| done].
    intros [= <-]. apply dict_of_items_NoDup.
  - intros [= <-]. apply dict_of_items_NoDup.
Qed.

Lemma build_evaluation_NoDup e ev :
  build_evaluation e = inr ev -> NoDup (map fst (rubric_scores ev)).
Proof.
  unfold build_evaluation, sum_bind.
  destruct (list_ _); [done |]. destruct (list_ _); [done |].
  destruct (dict_ _) as [| d] eqn:Hd; [done |].
  destruct (Pydantic.validate_str _); [| done].
  destruct (Pydantic.validate_list_str _); [| done].
  destruct (Pydantic.validate_list_str _); [| done].
  destruct (Pydantic.validate_dict_str_float d) as [fl |] eqn:Hfl; [| done].
  destruct (Pydantic.validate_str _); [| done].
  intros [= <-]. simpl. rewrite (validate_dict_keys _ _ Hfl).
  by apply dict_NoDup in Hd.
Qed.

(** *** [record_scores] *)

Lemma record_scores_items_floats fl updated s :
  exists u,
    record_scores_items (as_pyvals fl) updated s = (inr u, apply_scores fl s).
Proof.
  revert updated s. induction fl as [| [k v] fl IH]; intros updated s; simpl.
  - by exists updated.
  - unfold bind, lift_result, modify, get_state. cbn.
    rewrite !lookup_insert_eq. apply IH.
Qed.

Lemma total_of_apply_scores fl s k :
  NoDup (map fst fl) ->
  total_of (apply_scores fl s) k =
  match Py.get fl k with
  | Some v => (total_of s k + v)%float
  | None => total_of s k
  end.
Proof.
  revert s. induction fl as [| [k0 v0] fl IH]; intros s Hnd; simpl; [done |].
  simpl in Hnd. apply NoDup_cons in Hnd as [Hk0 Hnd']. unfold apply_scores in *. simpl.
  rewrite IH by done. destruct (String.eqb k0 k) eqn:Hk.
  - apply String.eqb_eq in Hk. subst k0.
    apply (proj2 (get_None_keys _ _)) in Hk0. rewrite Hk0.
    unfold total_of. cbn. by rewrite lookup_insert_eq.
  - apply String.eqb_neq in Hk.
    assert (Hsame : total_of
              (set_score_counts (insert k0 (count_of s k0 + 1))
                 (set_score_totals
                    (insert k0 (total_of s k0 + v0)%float) s)) k
            = total_of s k).
    { unfold total_of. cbn. by rewrite lookup_insert_ne. }
    by rewrite Hsame.
Qed.

Lemma count_of_apply_scores fl s k :
  NoDup (map fst fl) ->
  count_of (apply_scores fl s) k =
  match Py.get fl k with
  | Some _ => count_of s k + 1
  | None => count_of s k
  end.
Proof.
  revert s. induction fl as [| [k0 v0] fl IH]; intros s Hnd; simpl; [done |].
  simpl in Hnd. apply NoDup_cons in Hnd as [Hk0 Hnd']. unfold apply_scores in *. simpl.
  rewrite IH by done. destruct (String.eqb k0 k) eqn:Hk.
  - apply String.eqb_eq in Hk. subst k0.
    apply (proj2 (get_None_keys _ _)) in Hk0. rewrite Hk0.
    unfold count_of. cbn. by rewrite lookup_insert_eq.
  - apply String.eqb_neq in Hk.
    assert (Hsame : count_of
              (set_score_counts (insert k0 (count_of s k0 + 1))
                 (set_score_totals
                    (insert k0 (total_of s k0 + v0)%float) s)) k
            = count_of s k).
    { unfold count_of. cbn. by rewrite lookup_insert_ne. }
    by rewrite Hsame.
Qed.


Lemma totals_apply_scores_mono fl s k :
  is_Some (score_totals s !! k) \/ k ∈ map fst fl ->
  is_Some (score_totals (apply_scores fl s) !! k).
Proof.
  revert s. induction fl as [| [k0 v0] fl IH]; intros s; simpl.
  - intros [Hs | Hin]; [done | by apply elem_of_nil in Hin].
  - intros Hk. unfold apply_scores in *. simpl. apply IH. cbn.
    destruct (decide (k0 = k)) as [-> | Hne].
    + left. by rewrite lookup_insert_eq.
    + rewrite lookup_insert_ne by done.
      destruct Hk as [Hs | Hin]; [by left |].
      apply elem_of_cons in Hin as [-> | Hin]; [done | by right].
Qed.

Lemma apply_scores_frame fl s :
  messages (apply_scores fl s) = messages s /\
  transcript (apply_scores fl s) = transcript s /\
  artifacts (apply_scores fl s) = artifacts s /\
  session_id (apply_scores fl s) = session_id s.
Proof.
  revert s. induction fl as [| [k0 v0] fl IH]; intros s; [done |].
  unfold apply_scores in *. simpl.
  destruct (IH (set_score_counts (insert k0 (count_of s k0 + 1))
                  (set_score_totals
                     (insert k0 (total_of s k0 + v0)%float) s)))
    as (-> & -> & -> & ->). done.
Qed.

(** *** The seeding loop *)

Lemma total_of_setdefault s k0 k :
  total_of (set_score_counts (setdefault k0 0)
              (set_score_totals (setdefault k0 0%float) s)) k = total_of s k.
Proof.
  unfold total_of, setdefault. cbn.
  destruct (score_totals s !! k0) eqn:Hk0; [done |].
  destruct (decide (k0 = k)) as [<- | Hne].
  - by rewrite lookup_insert_eq, Hk0.
  - by rewrite lookup_insert_ne.
Qed.

Lemma count_of_setdefault s k0 k :
  count_of (set_score_counts (setdefault k0 0)
              (set_score_totals (setdefault k0 0%float) s)) k = count_of s k.
Proof.
  unfold count_of, setdefault. cbn.
  destruct (score_counts s !! k0) eqn:Hk0; [done |].
  destruct (decide (k0 = k)) as [<- | Hne].
  - by rewrite lookup_insert_eq, Hk0.
  - by rewrite lookup_insert_ne.
Qed.

Lemma total_of_seed_rubric s k : total_of (seed_rubric s) k = total_of s k.
Proof.
  unfold seed_rubric, SKILL_RUBRIC. cbn [fold_left].
  by rewrite !total_of_setdefault.
Qed.

Lemma count_of_seed_rubric s k : count_of (seed_rubric s) k = count_of s k.
Proof.
  unfold seed_rubric, SKILL_RUBRIC. cbn [fold_left].
  by rewrite !count_of_setdefault.
Qed.

Lemma seed_rubric_frame s :
  messages (seed_rubric s) = messages s /\
  transcript (seed_rubric s) = transcript s /\
  artifacts (seed_rubric s) = artifacts s.
Proof. done. Qed.

Lemma setdefault_is_Some {V} (k0 k : string) (v : V) (m : gmap string V) :
  is_Some (setdefault k0 v m !! k) <-> k = k0 \/ is_Some (m !! k).
Proof.
  unfold setdefault. destruct (m !! k0) eqn:Hk0.
  - split; [by right |]. intros [-> | Hk]; [by rewrite Hk0 | done].
  - destruct (decide (k0 = k)) as [<- | Hne].
    + rewrite lookup_insert_eq. split; [by left | done].
    + rewrite lookup_insert_ne by done. split; [by right |].
      intros [-> | Hk]; done.
Qed.

Lemma totals_seed_rubric s k :
  is_Some (score_totals (seed_rubric s) !! k) <->
  k ∈ SKILL_RUBRIC \/ is_Some (score_totals s !! k).
Proof.
  unfold seed_rubric, SKILL_RUBRIC. cbn.
  rewrite !setdefault_is_Some. rewrite !elem_of_cons, elem_of_nil. tauto.
Qed.

Lemma counts_seed_rubric s k :
  is_Some (score_counts (seed_rubric s) !! k) <->
  k ∈ SKILL_RUBRIC \/ is_Some (score_counts s !! k).
Proof.
  unfold seed_rubric, SKILL_RUBRIC. cbn.
  rewrite !setdefault_is_Some. rewrite !elem_of_cons, elem_of_nil. tauto.
Qed.


(** *** [_record_ai_turn] *)

Lemma record_ai_turn_cases now content_v cm s :
  match _record_ai_turn now content_v cm s with
  | (inr t, s') =>
      candidate_message t = cm /\ s' = recorded now content_v t s /\
      (forall ev, evaluation t = Some ev -> NoDup (map fst (rubric_scores ev)))
  | (inl e, s') =>
      s' = s \/ exists fl, NoDup (map fst fl) /\ s' = apply_scores fl s
  end.
Proof.
  unfold _record_ai_turn.
  destruct content_v as [| b | z | f | str | l | c];
    try (cbn; by left).
  unfold bind, lift_result, ret, raise, modify. cbn [dict_get_default].
  destruct (Pydantic.validate_str _) as [text |]; [| by left].
  destruct (Py.truthy _).
  - destruct (Py.or_else _ _) as [| b | z | f | str | l | e];
      try by left.
    destruct (build_evaluation e) as [err | ev] eqn:Hev; [by left |].
    apply build_evaluation_NoDup in Hev. unfold record_scores.
    destruct (record_scores_items_floats (rubric_scores ev) ∅ s)
      as [u Hu]. rewrite Hu.
    destruct (Pydantic.validate_opt_str _) as [nba |].
    + split; [done |]. split; [done |]. by intros ev' [= <-].
    + right. by exists (rubric_scores ev).
  - destruct (Pydantic.validate_opt_str _) as [nba |]; [| by left].
    by repeat split.
Qed.


Lemma total_of_recorded now content_v t s k :
  (forall ev, evaluation t = Some ev -> NoDup (map fst (rubric_scores ev))) ->
  total_of (recorded now content_v t s) k =
  match observation k t with
  | Some v => (total_of s k + v)%float
  | None => total_of s k
  end.
Proof.
  intros Hnd. unfold recorded. rewrite total_of_seed_rubric.
  change (total_of (scored t s) k = match observation k t with
                                    | Some v => (total_of s k + v)%float
                                    | None => total_of s k
                                    end).
  unfold scored, observation. destruct (evaluation t) as [ev |]; [| done].
  by apply total_of_apply_scores, Hnd.
Qed.

Lemma count_of_recorded now content_v t s k :
  (forall ev, evaluation t = Some ev -> NoDup (map fst (rubric_scores ev))) ->
  count_of (recorded now content_v t s) k =
  match observation k t with
  | Some _ => count_of s k + 1
  | None => count_of s k
  end.
Proof.
  intros Hnd. unfold recorded. rewrite count_of_seed_rubric.
  change (count_of (scored t s) k = match observation k t with
                                    | Some _ => count_of s k + 1
                                    | None => count_of s k
                                    end).
  unfold scored, observation. destruct (evaluation t) as [ev |]; [| done].
  by apply count_of_apply_scores, Hnd.
Qed.

Lemma recorded_frame now content_v t s :
  transcript (recorded now content_v t s) = transcript s ++ [t] /\
  messages (recorded now content_v t s) =
    messages s ++ [("assistant", json_dumps content_v)] /\
  artifacts (recorded now content_v t s) = artifacts s.
Proof.
  unfold recorded.
  destruct (seed_rubric_frame
              (set_updated_at now
                 (set_messages
                    (fun m => m ++ [("assistant", json_dumps content_v)])
                    (set_transcript (fun tr => tr ++ [t]) (scored t s)))))
    as (-> & -> & ->). cbn.
  unfold scored. destruct (evaluation t) as [ev |]; [| done].
  by destruct (apply_scores_frame (rubric_scores ev) s) as (-> & -> & -> & _).
Qed.

Lemma totals_recorded_mono now content_v t s k :
  is_Some (score_totals s !! k) \/ is_Some (observation k t) ->
  is_Some (score_totals (recorded now content_v t s) !! k).
Proof.
  intros Hk. unfold recorded. apply totals_seed_rubric. right.
  change (is_Some (score_totals (scored t s) !! k)).
  unfold scored, observation in *. destruct (evaluation t) as [ev |].
  - apply totals_apply_scores_mono. destruct Hk as [Hk | Hk]; [by left |].
    right. destruct (decide (k ∈ map fst (rubric_scores ev))); [done |].
    apply get_None_keys in n. rewrite n in Hk. by destruct Hk.
  - destruct Hk as [Hk | Hk]; [done | by destruct Hk].
Qed.

(** *** [chat] *)

Lemma chat_eq llm now sid message svc s :
  _sessions svc !! sid = Some s ->
  let s1 := set_messages (fun m => m ++ [("user", message)]) s in
  chat llm now sid message svc =
  match call_gateway llm (messages s1) with
  | inl e => (inl e, set_sessions (insert sid s1) svc)
  | inr content_v =>
      match _record_ai_turn now content_v
              (Some {| role := "candidate"; content := message;
                       msg_created_at := now |}) s1 with
      | (inr t, s2) =>
          (inr {| turn := t; running_scores_of := running_scores s2;
                  total_turns := length (transcript s2) |},
           set_sessions (insert sid s2) svc)
      | (inl e, s2) => (inl e, set_sessions (insert sid s2) svc)
      end
  end.
Proof.
  intros Hs s1. unfold chat, on_session. rewrite Hs.
  unfold bind, modify, get_state, lift_result, ret. fold s1.
  destruct (call_gateway llm (messages s1)) as [e | content_v]; [done |].
  by destruct (_record_ai_turn _ _ _ s1) as [[e | t] s2].
Qed.

Lemma running_scores_lookup s skill :
  tracked skill s ->
  running_scores s !! skill =
  if decide (0 < count_of s skill)
  then Some (PyNum.truediv_count (total_of s skill) (count_of s skill))
  else None.
Proof.
  unfold tracked, running_scores, total_of, count_of.
  rewrite map_lookup_imap. intros Htr.
  destruct (score_counts s !! skill) as [c |] eqn:Hc; simpl in *.
  - destruct (score_totals s !! skill) as [t |] eqn:Ht; simpl.
    + destruct c; [done |]. cbn [Nat.eqb]. case_decide; [done | lia].
    + case_decide; [| done]. by destruct (Htr ltac:(done)).
  - by destruct (score_totals s !! skill).
Qed.

Lemma chat_step llm now sid message svc s resp skill :
  _sessions svc !! sid = Some s ->
  fst (chat llm now sid message svc) = inr resp ->
  exists s',
    _sessions (snd (chat llm now sid message svc)) !! sid = Some s' /\
    total_of s' skill =
      match observation skill (turn resp) with
      | Some v => (total_of s skill + v)%float
      | None => total_of s skill
      end /\
    count_of s' skill =
      match observation skill (turn resp) with
      | Some _ => count_of s skill + 1
      | None => count_of s skill
      end /\
    (tracked skill s -> tracked skill s') /\
    transcript s' = transcript s ++ [turn resp] /\
    artifacts s' = artifacts s /\
    running_scores_of resp = running_scores s' /\
    total_turns resp = length (transcript s').
Proof.
  intros Hs. rewrite (chat_eq _ _ _ _ _ s Hs). cbv zeta.
  destruct (call_gateway _ _) as [e | content_v]; [done |].
  pose proof (record_ai_turn_cases now content_v
    (Some {| role := "candidate"; content := message; msg_created_at := now |})
    (set_messages (fun m => m ++ [("user", message)]) s)) as Hcases.
  destruct (_record_ai_turn _ _ _ _) as [[e | t] s2]; [done |].
  destruct Hcases as (_ & -> & Hnd). cbn [fst snd]. intros [= <-].
  eexists. cbn [set_sessions _sessions]. rewrite lookup_insert_eq.
  split; [done |]. cbn [turn running_scores_of total_turns].
  rewrite total_of_recorded, count_of_recorded by done.
  destruct (recorded_frame now content_v t
              (set_messages (fun m => m ++ [("user", message)]) s))
    as (Htr & _ & Har).
  repeat split; try done.
  intros Htracked Hpos. apply totals_recorded_mono.
  rewrite count_of_recorded in Hpos by done.
  destruct (observation skill t) as [v |]; [right; by eexists | left].
  by apply Htracked.
Qed.

End TurnProofs.

(* ===================================================================== *)
(** ** Running averages *)
(* ===================================================================== *)

Section AverageProofs.
Context `{Externals}.

Lemma observations_cons skill t ts :
  observations skill (t :: ts) =
  match observation skill t with
  | Some v => v :: observations skill ts
  | None => observations skill ts
  end.
Proof. done. Qed.

Lemma chats_effect sid calls svc s resps skill :
  _sessions svc !! sid = Some s ->
  fst (chats sid calls svc) = map inr resps ->
  exists s',
    _sessions (snd (chats sid calls svc)) !! sid = Some s' /\
    total_of s' skill =
      float_sum (total_of s skill) (observations skill (map turn resps)) /\
    count_of s' skill =
      count_of s skill + length (observations skill (map turn resps)) /\
    (tracked skill s -> tracked skill s') /\
    transcript s' = transcript s ++ map turn resps /\
    (forall r, last resps = Some r ->
       running_scores_of r = running_scores s' /\
       total_turns r = length (transcript s')).
Proof.
  revert svc s resps.
  induction calls as [| [[llm now] message] calls IH]; intros svc s resps Hs.
  - simpl. destruct resps; [| done]. intros _. exists s. simpl.
    rewrite app_nil_r, Nat.add_0_r. by repeat split.
  - simpl.
    pose proof (chat_step llm now sid message svc s) as Hstep.
    destruct (chat llm now sid message svc) as [r svc1].
    specialize (IH svc1).
    destruct (chats sid calls svc1) as [rs svc2] eqn:Hch. cbn [fst snd] in *.
    destruct resps as [| resp resps]; [done |]. cbn [map].
    intros [= -> Hrs].
    destruct (Hstep resp skill Hs eq_refl)
      as (s1 & Hs1 & Htot1 & Hcnt1 & Htrk1 & Htr1 & _ & Hrun1 & Hturns1).
    destruct (IH s1 resps Hs1 Hrs)
      as (s2 & Hs2 & Htot2 & Hcnt2 & Htrk2 & Htr2 & Hlast2).
    exists s2. split; [done |]. rewrite observations_cons.
    split; [| split; [| split; [| split]]].
    + rewrite Htot2, Htot1. by destruct (observation skill (turn resp)).
    + rewrite Hcnt2, Hcnt1.
      destruct (observation skill (turn resp)); cbn [length]; lia.
    + auto.
    + rewrite Htr2, Htr1, <- app_assoc. done.
    + intros r0 Hr0. destruct resps as [| resp' resps].
      * simpl in Hr0. injection Hr0 as <-. simpl in Hrs. subst rs.
        destruct calls as [| [[llm' now'] message'] calls].
        -- simpl in Hch. injection Hch as <-.
           rewrite Hs1 in Hs2. injection Hs2 as <-. done.
        -- simpl in Hch.
           destruct (chat llm' now' sid message' svc1) as [r' svc'].
           destruct (chats sid calls svc') as [rs' svc'']. done.
      * apply Hlast2. done.
Qed.

(** C2, as amended.  After a sequence of [chat] calls that all returned,
    on a session where [skill] had not been scored, the running average
    reported for [skill] by the last call is the floating-point sum of the
    [k] observed values, accumulated from [0.0] in the order of arrival,
    divided by [k]; with no observation the skill is not reported. *)
Theorem running_average_is_float_sum (sid : string)
  (calls : list (LLMClient * Z * string)) (svc : InterviewService)
  (s : InterviewSession) (resps : list ChatResponse) (r : ChatResponse)
  (skill : string) :
  _sessions svc !! sid = Some s ->
  count_of s skill = 0 ->
  total_of s skill = 0%float ->
  fst (chats sid calls svc) = map inr resps ->
  last resps = Some r ->
  let obs := observations skill (map turn resps) in
  running_scores_of r !! skill =
  match obs with
  | [] => None
  | _ :: _ =>
      Some (PyNum.truediv_count (float_sum 0%float obs) (length obs))
  end.
Proof.
  intros Hs Hc0 Ht0 Hres Hlast obs.
  destruct (chats_effect sid calls svc s resps skill Hs Hres)
    as (s' & _ & Htot & Hcnt & Htrk & _ & Hr).
  destruct (Hr r Hlast) as [-> _]. fold obs in Htot, Hcnt.
  rewrite running_scores_lookup.
  - rewrite Htot, Hcnt, Hc0, Ht0. rewrite Nat.add_0_l.
    destruct obs as [| v obs']; [done |].
    case_decide; [done |]. cbn [length] in *. lia.
  - apply Htrk. unfold tracked. lia.
Qed.

End AverageProofs.

Lemma running_average_is_float_sum_witness :
  exists r,
    last (Example.returned (fst (chats (H := Example.scripted) "sid-1" Example.calls_3_5
                           Example.service1))) = Some r /\
    running_scores_of r !! "data_analysis" =
      Some (PyNum.truediv_count
              (float_sum 0%float [0x1.8p+1%float; 0x1.4p+2%float]) 2).
Proof.
  destruct service1_session as [s Hs].
  destruct (is_Some_true
              (last (Example.returned (fst (chats (H := Example.scripted) "sid-1"
                                      Example.calls_3_5 Example.service1)))))
    as [r Hr]; [by vm_compute |].
  exists r. split; [done |].
  rewrite (running_average_is_float_sum (H := Example.scripted) "sid-1"
             Example.calls_3_5 Example.service1 s
             (Example.returned (fst (chats (H := Example.scripted) "sid-1" Example.calls_3_5
                               Example.service1))) r "data_analysis" Hs).
  - vm_compute. reflexivity.
  - apply (session_fact (fun s => count_of s "data_analysis") _ _ _ _ Hs).
    vm_compute. reflexivity.
  - apply (session_fact (fun s => total_of s "data_analysis") _ _ _ _ Hs).
    vm_compute. reflexivity.
  - vm_compute. reflexivity.
  - done.
Defined.

(** C2, as stated, fails: the scores 1.0, 1.2, 1.6 and the same scores
    in reverse order give running averages that differ in the last bit. *)
Lemma running_average_depends_on_order :
  ~ (forall (E : Externals) (sid : string)
       (calls1 calls2 : list (LLMClient * Z * string))
       (svc : InterviewService) (s : InterviewSession)
       (resps1 resps2 : list ChatResponse) (r1 r2 : ChatResponse)
       (skill : string),
       _sessions svc !! sid = Some s ->
       count_of s skill = 0 ->
       total_of s skill = 0%float ->
       fst (chats sid calls1 svc) = map inr resps1 ->
       fst (chats sid calls2 svc) = map inr resps2 ->
       last resps1 = Some r1 ->
       last resps2 = Some r2 ->
       Permutation (observations skill (map turn resps1))
                   (observations skill (map turn resps2)) ->
       running_scores_of r1 !! skill = running_scores_of r2 !! skill).
Proof.
  intros Hclaim.
  destruct service1_session as [s Hs].
  set (resps1 := Example.returned (fst (chats (H := Example.scripted) "sid-1"
                                  Example.calls_up Example.service1))).
  set (resps2 := Example.returned (fst (chats (H := Example.scripted) "sid-1"
                                  Example.calls_down Example.service1))).
  destruct (is_Some_true (last resps1)) as [r1 Hr1]; [by vm_compute |].
  destruct (is_Some_true (last resps2)) as [r2 Hr2]; [by vm_compute |].
  assert (Heq : running_scores_of r1 !! "data_analysis" =
                running_scores_of r2 !! "data_analysis").
  { apply (Hclaim Example.scripted "sid-1" Example.calls_up Example.calls_down
             Example.service1 s resps1 resps2 r1 r2 "data_analysis" Hs
             (session_fact (fun s => count_of s "data_analysis") _ _ _ 0 Hs
                ltac:(vm_compute; reflexivity))
             (session_fact (fun s => total_of s "data_analysis") _ _ _
                0%float Hs ltac:(vm_compute; reflexivity))
             ltac:(vm_compute; reflexivity) ltac:(vm_compute; reflexivity)
             Hr1 Hr2).
    replace (observations "data_analysis" (map turn resps2))
      with (rev (observations "data_analysis" (map turn resps1)))
      by (vm_compute; reflexivity).
    apply Permutation_rev. }
  assert (H1 : running_scores_of r1 !! "data_analysis" =
               Some 0x1.4444444444445p+0%float).
  { apply (last_fact (fun r => running_scores_of r !! "data_analysis")
             resps1 r1 _ Hr1). vm_compute. reflexivity. }
  assert (H2 : running_scores_of r2 !! "data_analysis" =
               Some 0x1.4444444444444p+0%float).
  { apply (last_fact (fun r => running_scores_of r !! "data_analysis")
             resps2 r2 _ Hr2). vm_compute. reflexivity. }
  rewrite H1, H2 in Heq.
  apply (f_equal (fun o => match o with
                           | Some x => PrimFloat.eqb x 0x1.4444444444445p+0
                           | None => false
                           end)) in Heq.
  vm_compute in Heq. discriminate Heq.
Qed.

(** C3, as amended.  In the scenario of the spec the first [chat] call
    shows the running scores [{data_analysis: 3.0}] and the second
    [{data_analysis: 4.0}], with [total_turns] 2 and then 3, since
    [create_session] has recorded the first turn; so it is whether the
    score 3 comes with the first answer or with the session's creation. *)
Theorem concrete_scenario_scores_and_turns :
  (Example.shown Example.first_chat = Some ([("data_analysis", 0x1.8p+1%float)], 2) /\
   Example.shown Example.second_chat = Some ([("data_analysis", 0x1p+2%float)], 3)) /\
  (Example.shown Example.first_chat' = Some ([("data_analysis", 0x1.8p+1%float)], 2) /\
   Example.shown Example.second_chat' = Some ([("data_analysis", 0x1p+2%float)], 3)).
Proof. vm_compute. by repeat split. Qed.

(** C3, as stated, fails: the second [chat] call does not report
    [total_turns] 2. *)
Lemma concrete_scenario_total_turns_not_2 :
  Example.shown Example.second_chat <> Some ([("data_analysis", 0x1p+2%float)], 2) /\
  Example.shown Example.second_chat' <> Some ([("data_analysis", 0x1p+2%float)], 2).
Proof. vm_compute. split; intros Heq; discriminate Heq. Qed.

(* ===================================================================== *)
(** ** Scores that are not numbers *)
(* ===================================================================== *)

Section ScoreProofs.
Context `{Externals}.





(** [record_scores] passes over the entries that are neither [int] nor
    [float]. *)
Lemma record_scores_items_skip skill v rest updated :
  Py.isinstance_int_float v = false ->
  record_scores_items ((skill, v) :: rest) updated =
  record_scores_items rest updated.
Proof. intros Hv. simpl. by rewrite Hv. Qed.



End ScoreProofs.



(* ===================================================================== *)
(** ** The rubric is seeded *)
(* ===================================================================== *)

Section InvariantProofs.
Context `{Externals}.

Lemma wf_scores_ext s s' :
  score_totals s' = score_totals s -> score_counts s' = score_counts s ->
  wf_scores s -> wf_scores s'.
Proof. intros Ht Hc Hwf k. rewrite Ht, Hc. apply Hwf. Qed.

Lemma seeded_ext s s' :
  score_totals s' = score_totals s -> score_counts s' = score_counts s ->
  seeded s -> seeded s'.
Proof. intros Ht Hc Hs k. rewrite Ht, Hc. apply Hs. Qed.

Lemma good_session_ext s s' :
  score_totals s' = score_totals s -> score_counts s' = score_counts s ->
  transcript s' = transcript s ->
  good_session s -> good_session s'.
Proof.
  intros Ht Hc Htr (Hs & Hwf & Hne). split; [by apply (seeded_ext s) |].
  split; [by apply (wf_scores_ext s) | by rewrite Htr].
Qed.

Lemma wf_scores_step s k v :
  wf_scores s ->
  wf_scores (set_score_counts (insert k (count_of s k + 1))
               (set_score_totals (insert k (total_of s k + v)%float) s)).
Proof.
  intros Hwf k'. cbn. destruct (decide (k = k')) as [<- | Hne].
  - rewrite !lookup_insert_eq. lia.
  - rewrite !lookup_insert_ne by done. apply Hwf.
Qed.

Lemma seeded_step s k v :
  seeded s ->
  seeded (set_score_counts (insert k (count_of s k + 1))
            (set_score_totals (insert k (total_of s k + v)%float) s)).
Proof.
  intros Hs k' Hk'. cbn. destruct (decide (k = k')) as [<- | Hne].
  - by rewrite !lookup_insert_eq.
  - rewrite !lookup_insert_ne by done. by apply Hs.
Qed.

Lemma wf_scores_apply fl s : wf_scores s -> wf_scores (apply_scores fl s).
Proof.
  revert s. induction fl as [| [k v] fl IH]; intros s Hwf; [done |].
  unfold apply_scores in *. simpl. apply IH. by apply wf_scores_step.
Qed.

Lemma seeded_apply fl s : seeded s -> seeded (apply_scores fl s).
Proof.
  revert s. induction fl as [| [k v] fl IH]; intros s Hs; [done |].
  unfold apply_scores in *. simpl. apply IH. by apply seeded_step.
Qed.

Lemma wf_scores_setdefault s k :
  wf_scores s ->
  wf_scores (set_score_counts (setdefault k 0)
               (set_score_totals (setdefault k 0%float) s)).
Proof.
  intros Hwf k'. cbn. unfold setdefault.
  pose proof (Hwf k) as Hk. pose proof (Hwf k') as Hk'.
  destruct (score_totals s !! k) as [t |] eqn:Ht,
           (score_counts s !! k) as [c |] eqn:Hc; try done.
  destruct (decide (k = k')) as [<- | Hne].
  - by rewrite !lookup_insert_eq.
  - by rewrite !lookup_insert_ne.
Qed.

Lemma wf_scores_seed s : wf_scores s -> wf_scores (seed_rubric s).
Proof.
  intros Hwf. unfold seed_rubric, SKILL_RUBRIC. cbn [fold_left].
  by repeat apply wf_scores_setdefault.
Qed.

Lemma seeded_seed s : seeded (seed_rubric s).
Proof.
  intros k Hk. split.
  - apply totals_seed_rubric. by left.
  - apply counts_seed_rubric. by left.
Qed.

Lemma good_session_recorded now content_v t s :
  wf_scores s -> good_session (recorded now content_v t s).
Proof.
  intros Hwf. split; [apply seeded_seed |]. split.
  - unfold recorded. apply wf_scores_seed.
    apply (wf_scores_ext (scored t s)); [done | done |].
    unfold scored. destruct (evaluation t); [by apply wf_scores_apply | done].
  - destruct (recorded_frame now content_v t s) as (-> & _).
    by destruct (transcript s).
Qed.

Lemma good_session_apply fl s :
  good_session s -> good_session (apply_scores fl s).
Proof.
  intros (Hs & Hwf & Hne). split; [by apply seeded_apply |].
  split; [by apply wf_scores_apply |].
  by destruct (apply_scores_frame fl s) as (_ & -> & _).
Qed.

Lemma preserves_good_record_ai_turn now content_v cm :
  preserves good_session (_record_ai_turn now content_v cm).
Proof.
  intros s Hgood.
  pose proof (record_ai_turn_cases now content_v cm s) as Hcases.
  destruct (_record_ai_turn now content_v cm s) as [[e | t] s']; simpl.
  - destruct Hcases as [-> | (fl & _ & ->)]; [done |].
    by apply good_session_apply.
  - destruct Hcases as (_ & -> & _). apply good_session_recorded, Hgood.
Qed.

Lemma preserves_good_on_session {A} sid (m : Meth InterviewSession A) :
  preserves good_session m -> preserves good_service (on_session sid m).
Proof.
  intros Hm svc Hsvc. unfold on_session.
  destruct (_sessions svc !! sid) as [s |] eqn:Hs; [| done].
  pose proof (Hm s (Hsvc sid s Hs)) as Hs'.
  destruct (m s) as [r s']. intros k s0 Hk. cbn in Hk, Hs'.
  destruct (decide (sid = k)) as [<- | Hne].
  - rewrite lookup_insert_eq in Hk. by injection Hk as <-.
  - rewrite lookup_insert_ne in Hk by done. by apply (Hsvc k).
Qed.

Lemma preserves_good_chat llm now sid message :
  preserves good_service (chat llm now sid message).
Proof.
  unfold chat. apply preserves_good_on_session.
  apply preserves_bind.
  { apply preserves_modify. intros s. by apply good_session_ext. }
  intros _. apply preserves_bind; [apply preserves_get_state |]. intros s.
  apply preserves_bind; [apply preserves_lift_result |]. intros c.
  apply preserves_bind; [apply preserves_good_record_ai_turn |]. intros t.
  apply preserves_bind; [apply preserves_get_state |]. intros s'.
  apply preserves_ret.
Qed.

Lemma preserves_good_read_only {A} (m : Meth InterviewService A) :
  read_only m -> preserves good_service m.
Proof. intros Hm svc Hsvc. by rewrite Hm. Qed.

Lemma preserves_good_set_disk f : preserves good_service (modify (set_disk f)).
Proof. by intros svc Hsvc. Qed.

Lemma preserves_good_store_file uuid now sid fn ct data de :
  preserves good_service (store_file_artifact uuid now sid fn ct data de).
Proof.
  unfold store_file_artifact.
  apply preserves_bind; [apply preserves_get_session |]. intros _.
  destruct (negb _); [apply preserves_raise |].
  apply preserves_bind; [apply preserves_get_state |]. intros svc.
  destruct (_ >? _)%Z; [apply preserves_raise |].
  apply preserves_bind; [apply preserves_good_set_disk |]. intros _.
  apply preserves_bind.
  { apply preserves_good_on_session, preserves_modify.
    intros s. by apply good_session_ext. }
  intros _. apply preserves_bind; [| intros _; apply preserves_ret].
  apply preserves_good_on_session, preserves_modify.
  intros s. by apply good_session_ext.
Qed.

Lemma preserves_good_store_link uuid now sid u de :
  preserves good_service (store_link_artifact uuid now sid u de).
Proof.
  unfold store_link_artifact.
  apply preserves_bind; [apply preserves_get_session |]. intros _.
  destruct (_ || _); [apply preserves_raise |].
  apply preserves_bind.
  { apply preserves_good_on_session, preserves_modify.
    intros s. by apply good_session_ext. }
  intros _. apply preserves_bind; [| intros _; apply preserves_ret].
  apply preserves_good_on_session, preserves_modify.
  intros s. by apply good_session_ext.
Qed.

Lemma create_session_eq llm uuid now payload svc :
  create_session llm uuid now payload svc =
  match call_gateway llm (messages (bootstrap_session uuid now payload)) with
  | inl e => (inl e, svc)
  | inr content_v =>
      match _record_ai_turn now content_v None
              (bootstrap_session uuid now payload) with
      | (inr t, s2) =>
          (inr {| resp_session_id := uuid; first_turn := t |},
           set_sessions (insert uuid s2) svc)
      | (inl e, _) => (inl e, svc)
      end
  end.
Proof.
  unfold create_session, bind, modify, get_state, lift_result.
  fold (bootstrap_session uuid now payload).
  destruct (call_gateway llm _) as [e | content_v]; [done |].
  by destruct (_record_ai_turn _ _ _ _) as [[e | t] s2].
Qed.

Lemma preserves_good_create llm uuid now payload :
  preserves good_service (create_session llm uuid now payload).
Proof.
  intros svc Hsvc. rewrite create_session_eq.
  destruct (call_gateway llm _) as [e | content_v]; [done |].
  pose proof (record_ai_turn_cases now content_v None
                (bootstrap_session uuid now payload)) as Hcases.
  destruct (_record_ai_turn _ _ _ _) as [[e | t] s']; [done |].
  destruct Hcases as (_ & -> & _). intros k s0 Hk. cbn in Hk.
  destruct (decide (uuid = k)) as [<- | Hne].
  - rewrite lookup_insert_eq in Hk. injection Hk as <-.
    apply good_session_recorded. intros k'. cbn. by rewrite !lookup_empty.
  - rewrite lookup_insert_ne in Hk by done. by apply (Hsvc k).
Qed.

Lemma preserves_good_exec o : preserves good_service (exec o).
Proof.
  destruct o; simpl; apply preserves_map_result.
  - apply preserves_good_create.
  - apply preserves_good_chat.
  - apply preserves_good_read_only, read_only_summarize.
  - apply preserves_good_read_only, read_only_list_artifacts.
  - apply preserves_good_store_file.
  - apply preserves_good_store_link.
  - apply preserves_good_read_only, read_only_get_artifact.
Qed.

Lemma good_service_run ops svc :
  good_service svc -> good_service (snd (run ops svc)).
Proof.
  revert svc. induction ops as [| o ops IH]; intros svc Hsvc; [done |].
  simpl. pose proof (preserves_good_exec o svc Hsvc) as Ho.
  destruct (exec o svc) as [r svc1]. specialize (IH svc1 Ho).
  by destruct (run ops svc1) as [rs svc2].
Qed.

Lemma wf_scores_tracked s skill : wf_scores s -> tracked skill s.
Proof.
  intros Hwf Hpos. specialize (Hwf skill). unfold count_of in Hpos.
  destruct (score_totals s !! skill); [done |].
  destruct (score_counts s !! skill); [done |]. simpl in Hpos. lia.
Qed.

End InvariantProofs.


(* ===================================================================== *)
(** ** The life of a session *)
(* ===================================================================== *)

Section LifecycleProofs.
Context `{Externals}.

Lemma apply_scores_candidate fl s :
  candidate (apply_scores fl s) = candidate s.
Proof.
  revert s. induction fl as [| [k v] fl IH]; intros s; [done |].
  unfold apply_scores in *. simpl. by rewrite IH.
Qed.

Lemma create_session_outcome llm uuid now payload svc :
  let r := create_session llm uuid now payload svc in
  match fst r with
  | inl _ => snd r = svc
  | inr resp =>
      resp_session_id resp = uuid /\
      candidate_message (first_turn resp) = None /\
      exists s content_v,
        call_gateway llm (messages (bootstrap_session uuid now payload))
          = inr content_v /\
        snd r = set_sessions (insert uuid s) svc /\
        transcript s = [first_turn resp] /\
        messages s =
          messages (bootstrap_session uuid now payload) ++
          [("assistant", json_dumps content_v)] /\
        artifacts s = [] /\ session_id s = uuid /\
        candidate s = req_candidate payload
  end.
Proof.
  intros r. unfold r. rewrite create_session_eq.
  destruct (call_gateway llm _) as [e | content_v] eqn:Hgw; [done |].
  pose proof (record_ai_turn_cases now content_v None
                (bootstrap_session uuid now payload)) as Hcases.
  destruct (_record_ai_turn _ _ _ _) as [[e | t] s']; [done |].
  destruct Hcases as (Hcm & -> & _). cbn [fst snd resp_session_id first_turn].
  split; [done |]. split; [done |].
  eexists _, content_v. split; [done |]. split; [done |].
  destruct (recorded_frame now content_v t
              (bootstrap_session uuid now payload)) as (-> & -> & ->).
  repeat split.
  - unfold recorded. cbn. unfold scored.
    destruct (evaluation t) as [ev |]; [| done].
    by destruct (apply_scores_frame (rubric_scores ev)
                   (bootstrap_session uuid now payload)) as (_ & _ & _ & ->).
  - unfold recorded. cbn. unfold scored.
    destruct (evaluation t) as [ev |]; [| done].
    by rewrite apply_scores_candidate.
Qed.

(** X1.  [create_session] registers the session only once its first turn
    is recorded: when it raises, the service is as before; when it
    returns, the response carries the new id and the store holds under
    that id a session with one turn, which has no candidate message, the
    three messages system, user and assistant, and no artifact, every
    other session and the stored files being as before. *)
Theorem create_session_registers_after_first_turn (llm : LLMClient)
  (uuid : string) (now : Z) (payload : SessionCreateRequest)
  (svc : InterviewService) :
  let r := create_session llm uuid now payload svc in
  match fst r with
  | inl _ => snd r = svc
  | inr resp =>
      resp_session_id resp = uuid /\
      candidate_message (first_turn resp) = None /\
      (exists s content_v,
         call_gateway llm
           [("system", build_interview_system_prompt);
            ("user", build_session_bootstrap_prompt (req_candidate payload)
                       (req_scenario payload)
                       (cand_focus_areas (req_candidate payload))
                       (req_workbook_platform payload))] = inr content_v /\
         _sessions (snd r) !! uuid = Some s /\
         transcript s = [first_turn resp] /\
         messages s =
           [("system", build_interview_system_prompt);
            ("user", build_session_bootstrap_prompt (req_candidate payload)
                       (req_scenario payload)
                       (cand_focus_areas (req_candidate payload))
                       (req_workbook_platform payload));
            ("assistant", json_dumps content_v)] /\
         artifacts s = [] /\ session_id s = uuid /\
         candidate s = req_candidate payload) /\
      (forall sid, sid <> uuid ->
         _sessions (snd r) !! sid = _sessions svc !! sid) /\
      disk (snd r) = disk svc
  end.
Proof.
  intros r. pose proof (create_session_outcome llm uuid now payload svc) as Hout.
  cbv zeta in Hout. fold r in Hout.
  destruct (fst r) as [e | resp]; [done |].
  destruct Hout as (Hid & Hcm & s & content_v & Hgw & Hsvc & Htr & Hms & Har
                    & Hsid & Hcand).
  split; [done |]. split; [done |]. rewrite Hsvc. split; [| split; [| done]].
  - exists s, content_v. cbn [set_sessions _sessions].
    rewrite lookup_insert_eq. by repeat split.
  - intros sid Hne. cbn. by rewrite lookup_insert_ne.
Qed.

(** How [_record_ai_turn] can fail: before it touches the session, or at
    the [ChatTurn] model, once the scores of the evaluation are folded
    in. *)
Lemma record_ai_turn_failure now content_v cm s e s' :
  _record_ai_turn now content_v cm s = (inl e, s') ->
  s' = s \/
  (e = PydanticValidationError "ChatTurn" /\
   exists c ev,
     content_v = PyDict c /\
     Py.or_else (default PyNone (Py.get c "evaluation")) (PyDict []) = PyDict ev /\
     exists snap, build_evaluation ev = inr snap /\
                  s' = apply_scores (rubric_scores snap) s).
Proof.
  unfold _record_ai_turn.
  destruct content_v as [| b | z | f | str | l | c];
    try (cbn; intros [= _ <-]; by left).
  unfold bind, lift_result, ret, raise, modify. cbn [dict_get_default].
  destruct (Pydantic.validate_str _) as [text |]; [| intros [= _ <-]; by left].
  destruct (Py.truthy _).
  - destruct (Py.or_else _ _) as [| b | z | f | str | l | ev] eqn:Hor;
      try (intros [= _ <-]; by left).
    destruct (build_evaluation ev) as [err | snap] eqn:Hev;
      [intros [= _ <-]; by left |].
    unfold record_scores.
    destruct (record_scores_items_floats (rubric_scores snap) ∅ s)
      as [u Hu]. rewrite Hu.
    destruct (Pydantic.validate_opt_str _) as [nba |]; [done |].
    intros [= <- <-]. right. split; [done |]. exists c, ev.
    split; [done |]. split; [done |]. by exists snap.
  - destruct (Pydantic.validate_opt_str _) as [nba |]; [done |].
    intros [= _ <-]. by left.
Qed.

(** X2.  A [chat] call that raises, whatever the reason, records no
    turn: the session keeps its transcript and artifacts, its history is
    the old one with the candidate's message appended, the other sessions
    are as before; unless the failure is the validation of the [ChatTurn]
    model, the score totals and counts are unchanged too. *)
Theorem chat_failure_records_no_turn (llm : LLMClient) (now : Z)
  (sid message : string) (svc : InterviewService) (s : InterviewSession)
  (e : exn) :
  _sessions svc !! sid = Some s ->
  fst (chat llm now sid message svc) = inl e ->
  let svc' := snd (chat llm now sid message svc) in
  (exists s', _sessions svc' !! sid = Some s' /\
     messages s' = messages s ++ [("user", message)] /\
     transcript s' = transcript s /\
     artifacts s' = artifacts s /\
     (e <> PydanticValidationError "ChatTurn" ->
      score_totals s' = score_totals s /\ score_counts s' = score_counts s)) /\
  (forall sid', sid' <> sid -> _sessions svc' !! sid' = _sessions svc !! sid') /\
  disk svc' = disk svc.
Proof.
  intros Hs. rewrite (chat_eq _ _ _ _ _ s Hs). cbv zeta.
  destruct (call_gateway _ _) as [e0 | content_v].
  - cbn. intros [= ->]. split; [| split; [| done]].
    + eexists. rewrite lookup_insert_eq. by repeat split.
    + intros sid' Hne. by rewrite lookup_insert_ne.
  - destruct (_record_ai_turn _ _ _ _) as [[e0 | t] s2] eqn:Hrec; [| done].
    cbn. intros [= ->]. split; [| split; [| done]].
    + eexists. rewrite lookup_insert_eq. split; [done |].
      destruct (record_ai_turn_failure _ _ _ _ _ _ Hrec)
        as [-> | (-> & c & ev & _ & _ & snap & _ & ->)].
      * by repeat split.
      * destruct (apply_scores_frame (rubric_scores snap)
                    (set_messages (fun m => m ++ [("user", message)]) s))
          as (-> & -> & -> & _).
        by repeat split.
    + intros sid' Hne. by rewrite lookup_insert_ne.
Qed.

(** What a recorded turn holds of the reply. *)
Lemma record_ai_turn_success now content_v cm s t s' :
  _record_ai_turn now content_v cm s = (inr t, s') ->
  exists c text,
    content_v = PyDict c /\
    Pydantic.validate_str
      (default (PyStr "") (Py.get c "interviewer_message")) = Some text /\
    interviewer_message t =
      {| role := "interviewer"; content := text; msg_created_at := now |} /\
    candidate_message t = cm /\
    Pydantic.validate_opt_str
      (default PyNone (Py.get c "next_best_action"))
      = Some (next_best_action t) /\
    (match evaluation t with
     | Some snap =>
         exists ev,
           Py.or_else (default PyNone (Py.get c "evaluation")) (PyDict [])
             = PyDict ev /\ ev <> [] /\ build_evaluation ev = inr snap
     | None =>
         Py.truthy (default PyNone (Py.get c "evaluation")) = false
     end) /\
    s' = recorded now content_v t s.
Proof.
  pose proof (record_ai_turn_cases now content_v cm s) as Hcases.
  intros Hrec. rewrite Hrec in Hcases. destruct Hcases as (_ & -> & _).
  revert Hrec. unfold _record_ai_turn.
  destruct content_v as [| b | z | f | str | l | c]; try (cbn; done).
  unfold bind, lift_result, ret, raise, modify. cbn [dict_get_default].
  destruct (Pydantic.validate_str _) as [text |] eqn:Htext; [| done].
  exists c, text. split; [done |]. split; [done |].
  revert Hrec. unfold Py.or_else at 1 2.
  destruct (Py.truthy (default PyNone (Py.get c "evaluation"))) eqn:Htruthy.
  - rewrite Htruthy.
    destruct (default PyNone (Py.get c "evaluation"))
      as [| b | z | f | str | l | ev] eqn:Hevp; try done.
    destruct (build_evaluation ev) as [err | snap] eqn:Hev; [done |].
    unfold record_scores.
    destruct (record_scores_items_floats (rubric_scores snap) ∅ s)
      as [u Hu]. rewrite Hu.
    destruct (Pydantic.validate_opt_str _) as [nba |]; [| done].
    intros [= <- _]. cbn. repeat split; try done.
    exists ev. unfold Py.or_else. rewrite Htruthy.
    split; [done |]. split; [| done]. intros ->. done.
  - cbn [Py.truthy].
    destruct (Pydantic.validate_opt_str _) as [nba |]; [| done].
    intros [= <- _]. by cbn.
Qed.

(** X3.  A [chat] call that returns has recorded one turn: it pairs the
    candidate's message, stamped with the time of the call, with the
    interviewer's message; the history gains the candidate's message and
    the reply as dumped, the transcript gains the turn, [total_turns] is
    its new length; the artifacts, the other sessions and the stored
    files are as before. *)
Theorem chat_success_records_turn (llm : LLMClient) (now : Z)
  (sid message : string) (svc : InterviewService) (s : InterviewSession)
  (resp : ChatResponse) :
  _sessions svc !! sid = Some s ->
  fst (chat llm now sid message svc) = inr resp ->
  let svc' := snd (chat llm now sid message svc) in
  candidate_message (turn resp) =
    Some {| role := "candidate"; content := message; msg_created_at := now |} /\
  role (interviewer_message (turn resp)) = "interviewer" /\
  msg_created_at (interviewer_message (turn resp)) = now /\
  (exists s' content_v,
     call_gateway llm (messages s ++ [("user", message)]) = inr content_v /\
     _sessions svc' !! sid = Some s' /\
     messages s' = messages s ++
       [("user", message); ("assistant", json_dumps content_v)] /\
     transcript s' = transcript s ++ [turn resp] /\
     artifacts s' = artifacts s /\
     updated_at s' = now /\
     running_scores_of resp = running_scores s') /\
  total_turns resp = S (length (transcript s)) /\
  (forall sid', sid' <> sid -> _sessions svc' !! sid' = _sessions svc !! sid') /\
  disk svc' = disk svc.
Proof.
  intros Hs. rewrite (chat_eq _ _ _ _ _ s Hs). cbv zeta.
  destruct (call_gateway _ _) as [e0 | content_v] eqn:Hgw; [done |].
  destruct (_record_ai_turn _ _ _ _) as [[e0 | t] s2] eqn:Hrec; [done |].
  cbn [fst snd]. intros [= <-]. cbn [turn running_scores_of total_turns].
  destruct (record_ai_turn_success _ _ _ _ _ _ Hrec)
    as (c & text & -> & _ & Him & Hcm & _ & _ & ->).
  destruct (recorded_frame now (PyDict c) t
              (set_messages (fun m => m ++ [("user", message)]) s))
    as (Htr & Hms & Har).
  split; [done |]. rewrite Him. split; [done |]. split; [done |].
  split; [| split; [| split; [| done]]].
  - eexists _, (PyDict c). cbn [set_sessions _sessions].
    rewrite lookup_insert_eq. split; [done |]. split; [done |].
    rewrite Htr, Hms, Har. cbn [set_messages messages].
    rewrite <- app_assoc. by repeat split.
  - rewrite Htr. cbn. rewrite length_app. simpl. lia.
  - intros sid' Hne. cbn. by rewrite lookup_insert_ne.
Qed.

(** X4.  When the reply's evaluation is accepted but its
    [next_best_action] is neither a string nor null, [chat] raises at the
    [ChatTurn] model, after [record_scores] has run: no turn is recorded,
    yet the totals and counts of the scored skills have moved. *)
Theorem chat_turn_refused_after_scoring (llm : LLMClient) (now : Z)
  (sid message : string) (svc : InterviewService) (s : InterviewSession)
  (c ev : list (string * pyval)) (snap : EvaluationSnapshot) :
  _sessions svc !! sid = Some s ->
  call_gateway llm (messages s ++ [("user", message)]) = inr (PyDict c) ->
  is_Some (Pydantic.validate_str
             (default (PyStr "") (Py.get c "interviewer_message"))) ->
  Py.get c "evaluation" = Some (PyDict ev) ->
  ev <> [] ->
  build_evaluation ev = inr snap ->
  Pydantic.validate_opt_str (default PyNone (Py.get c "next_best_action"))
    = None ->
  let r := chat llm now sid message svc in
  fst r = inl (PydanticValidationError "ChatTurn") /\
  exists s',
    _sessions (snd r) !! sid = Some s' /\
    transcript s' = transcript s /\
    forall skill,
      total_of s' skill =
        match Py.get (rubric_scores snap) skill with
        | Some v => (total_of s skill + v)%float
        | None => total_of s skill
        end /\
      count_of s' skill =
        match Py.get (rubric_scores snap) skill with
        | Some _ => count_of s skill + 1
        | None => count_of s skill
        end.
Proof.
  intros Hs Hgw [text Htext] Hev Hne Hsnap Hnba r. unfold r.
  rewrite (chat_eq _ _ _ _ _ s Hs). cbv zeta. cbn [set_messages messages].
  rewrite Hgw. unfold _record_ai_turn.
  unfold bind, lift_result, ret, raise, modify. cbn [dict_get_default].
  rewrite Htext, Hev. cbn [default from_option id]. unfold Py.or_else.
  assert (Htruthy : Py.truthy (PyDict ev) = true) by (by destruct ev).
  rewrite !Htruthy, Hsnap. unfold record_scores.
  match goal with
  | |- context [record_scores_items _ ∅ ?s1] =>
      destruct (record_scores_items_floats (rubric_scores snap) ∅ s1)
        as [u Hu]; rewrite Hu
  end.
  rewrite Hnba. cbn [fst snd]. split; [done |].
  eexists. cbn [set_sessions _sessions]. rewrite lookup_insert_eq.
  split; [done |]. split.
  - by destruct (apply_scores_frame (rubric_scores snap)
                   (set_messages (fun m => m ++ [("user", message)]) s))
      as (_ & -> & _).
  - intros skill.
    rewrite total_of_apply_scores, count_of_apply_scores
      by (by apply (build_evaluation_NoDup ev)).
    done.
Qed.

Lemma chat_outcome llm now sid message svc s :
  _sessions svc !! sid = Some s ->
  exists s',
    snd (chat llm now sid message svc) = set_sessions (insert sid s') svc /\
    artifacts s' = artifacts s /\
    match fst (chat llm now sid message svc) with
    | inr resp =>
        transcript s' = transcript s ++ [turn resp] /\
        total_turns resp = S (length (transcript s))
    | inl _ => transcript s' = transcript s
    end.
Proof.
  intros Hs. rewrite (chat_eq _ _ _ _ _ s Hs). cbv zeta.
  destruct (call_gateway _ _) as [e0 | content_v]; [by eexists |].
  destruct (_record_ai_turn _ _ _ _) as [[e0 | t] s2] eqn:Hrec.
  - exists s2. split; [done |].
    destruct (record_ai_turn_failure _ _ _ _ _ _ Hrec)
      as [-> | (_ & c & ev & _ & _ & snap & _ & ->)]; [done |].
    by destruct (apply_scores_frame (rubric_scores snap)
                   (set_messages (fun m => m ++ [("user", message)]) s))
      as (_ & -> & -> & _).
  - exists s2. split; [done |].
    destruct (record_ai_turn_success _ _ _ _ _ _ Hrec)
      as (c & text & -> & _ & _ & _ & _ & _ & ->).
    destruct (recorded_frame now (PyDict c) t
                (set_messages (fun m => m ++ [("user", message)]) s))
      as (Htr & _ & Har).
    cbn [fst turn total_turns]. rewrite Htr, Har. cbn.
    split; [done |]. split; [done |]. rewrite length_app. simpl. lia.
Qed.

(** X5.  Over any sequence of [chat] calls on a session, failed calls
    included, the transcript grows by one turn per call that returned
    and by nothing else, and every response's [total_turns] is the
    length the transcript had before the calls plus the number of calls
    that had returned by then, itself included. *)
Theorem total_turns_counts_returned_chats (sid : string)
  (calls : list (LLMClient * Z * string)) (svc : InterviewService)
  (s : InterviewSession) :
  _sessions svc !! sid = Some s ->
  let rs := fst (chats sid calls svc) in
  length rs = length calls /\
  (exists s',
     _sessions (snd (chats sid calls svc)) !! sid = Some s' /\
     length (transcript s') = length (transcript s) + successes rs /\
     artifacts s' = artifacts s) /\
  (forall i resp, rs !! i = Some (inr resp) ->
     total_turns resp = length (transcript s) + successes (take (S i) rs)).
Proof.
  revert svc s.
  induction calls as [| [[llm now] message] calls IH]; intros svc s Hs.
  - simpl. split; [done |]. split; [| done]. exists s.
    by rewrite Nat.add_0_r.
  - simpl.
    destruct (chat_outcome llm now sid message svc s Hs)
      as (s1 & Hsvc1 & Har1 & Hout).
    destruct (chat llm now sid message svc) as [r svc1].
    cbn [fst snd] in Hsvc1, Hout.
    assert (Hs1 : _sessions svc1 !! sid = Some s1).
    { rewrite Hsvc1. cbn. by rewrite lookup_insert_eq. }
    destruct (IH svc1 s1 Hs1) as (Hlen & (s2 & Hs2 & Htr2 & Har2) & Htt).
    destruct (chats sid calls svc1) as [rs svc2]. cbn [fst snd] in *.
    split; [cbn; by rewrite Hlen |]. split.
    + exists s2. split; [done |]. rewrite Har2, Har1. split; [| done].
      rewrite Htr2. destruct r as [e | resp]; cbn [successes].
      * by rewrite Hout.
      * destruct Hout as [-> _]. rewrite length_app. simpl. lia.
    + intros [| i] resp0 Hi.
      * simpl in Hi. injection Hi as ->. destruct Hout as [_ ->].
        cbn. rewrite take_0. cbn. lia.
      * simpl in Hi. rewrite (Htt i resp0 Hi).
        change (take (S (S i)) (r :: rs)) with (r :: take (S i) rs).
        destruct r as [e | resp]; cbn [successes].
        -- by rewrite Hout.
        -- destruct Hout as [-> _]. rewrite length_app. simpl. lia.
Qed.

(** X6.  A recorded turn mirrors the reply: the interviewer's message
    is the reply's [interviewer_message], or the empty string when the key
    is missing; [next_best_action] is the reply's, or none when it is
    missing or null; the turn has an evaluation exactly when the reply's
    [evaluation] is a non-empty object, and without one the score totals
    and counts are as before.  A reply with none of the three keys is
    accepted. *)
Theorem recorded_turn_mirrors_reply (now : Z) (c : list (string * pyval))
  (cm : option ChatMessage) (s : InterviewSession) :
  let r := _record_ai_turn now (PyDict c) cm s in
  (forall t, fst r = inr t ->
     (Py.get c "interviewer_message" = None ->
        content (interviewer_message t) = "") /\
     (forall text, Py.get c "interviewer_message" = Some (PyStr text) ->
        content (interviewer_message t) = text) /\
     (Py.get c "next_best_action" = None \/
      Py.get c "next_best_action" = Some PyNone ->
        next_best_action t = None) /\
     (forall action, Py.get c "next_best_action" = Some (PyStr action) ->
        next_best_action t = Some action) /\
     (evaluation t = None <->
        Py.truthy (default PyNone (Py.get c "evaluation")) = false) /\
     (evaluation t = None ->
        forall skill, total_of (snd r) skill = total_of s skill /\
                      count_of (snd r) skill = count_of s skill)) /\
  (Py.get c "interviewer_message" = None ->
   Py.get c "evaluation" = None ->
   Py.get c "next_best_action" = None ->
   exists t, fst r = inr t).
Proof.
  intros r. split.
  - intros t Ht. unfold r in *.
    destruct (_record_ai_turn now (PyDict c) cm s) as [r0 s'] eqn:Hrec.
    cbn [fst snd] in *. subst r0.
    destruct (record_ai_turn_success _ _ _ _ _ _ Hrec)
      as (c0 & text & [= <-] & Htext & Him & _ & Hnba & Hev & ->).
    rewrite Him. cbn [content].
    split; [| split; [| split; [| split; [| split]]]].
    + intros Hnone. rewrite Hnone in Htext. by injection Htext as <-.
    + intros text0 Hsome. rewrite Hsome in Htext. by injection Htext as <-.
    + intros [Hnone | Hnone]; rewrite Hnone in Hnba; by injection Hnba as <-.
    + intros action Hsome. rewrite Hsome in Hnba. by injection Hnba as <-.
    + destruct (evaluation t) as [snap |].
      * destruct Hev as (ev & Hor & Hne & _). split; [done |].
        intros Hfalsy. unfold Py.or_else in Hor. rewrite Hfalsy in Hor.
        by injection Hor as <-.
      * done.
    + intros Hnoev skill.
      rewrite total_of_recorded, count_of_recorded
        by (intros ev0 Hev0; by rewrite Hnoev in Hev0).
      unfold observation. by rewrite Hnoev.
  - intros H1 H2 H3. unfold r, _record_ai_turn.
    unfold bind, lift_result, ret, raise, modify. cbn [dict_get_default].
    rewrite H1, H2, H3. cbn. by eexists.
Qed.

End LifecycleProofs.


(* ===================================================================== *)
(** ** What [record_scores] returns *)
(* ===================================================================== *)

Lemma record_scores_items_averages items updated s u s' :
  averages_of updated s ->
  record_scores_items items updated s = (inr u, s') ->
  averages_of u s' /\
  (forall k, is_Some (u !! k) <->
             is_Some (updated !! k) \/ numeric_skill items k).
Proof.
  revert updated s.
  induction items as [| [skill value] items IH]; intros updated s Hinv.
  - simpl. intros [= <- <-]. split; [done |]. intros k. split; [by left |].
    intros [Hk | (v & [] & _)]. done.
  - simpl. destruct (Py.isinstance_int_float value) eqn:Hnum; simpl.
    + unfold bind, lift_result, modify, get_state.
      destruct (Py.float_ value) as [e | fv]; [done |]. cbn.
      rewrite !lookup_insert_eq. intros Hrec.
      apply IH in Hrec as [Havg Hdom].
      * split; [done |]. intros k. rewrite Hdom. split.
        -- intros [Hk | (v & Hin & Hv)].
           ++ destruct (decide (skill = k)) as [<- | Hne].
              ** right. exists value. split; [by left | done].
              ** left. by rewrite lookup_insert_ne in Hk.
           ++ right. exists v. split; [by right | done].
        -- intros [Hk | (v & [[= <- <-] | Hin] & Hv)].
           ++ left. destruct (decide (skill = k)) as [<- | Hne].
              ** by rewrite lookup_insert_eq.
              ** by rewrite lookup_insert_ne.
           ++ left. by rewrite lookup_insert_eq.
           ++ right. by exists v.
      * intros k avg Hk. cbn.
        destruct (decide (skill = k)) as [<- | Hne].
        -- rewrite lookup_insert_eq in Hk. injection Hk as <-.
           rewrite !lookup_insert_eq. eexists _, _.
           split; [done |]. split; [done |]. split; [lia | done].
        -- rewrite lookup_insert_ne in Hk by done.
           rewrite !lookup_insert_ne by done. by apply Hinv.
    + intros Hrec. apply IH in Hrec as [Havg Hdom]; [| done].
      split; [done |]. intros k. rewrite Hdom. split.
      * intros [Hk | (v & Hin & Hv)]; [by left |].
        right. exists v. split; [by right | done].
      * intros [Hk | (v & [[= <- <-] | Hin] & Hv)]; [by left | |].
        -- rewrite Hnum in Hv. done.
        -- right. by exists v.
Qed.

Lemma record_scores_items_raises items updated s e :
  fst (record_scores_items items updated s) = inl e -> e = OverflowError.
Proof.
  revert updated s.
  induction items as [| [skill value] items IH]; intros updated s; [done |].
  simpl. destruct (Py.isinstance_int_float value) eqn:Hnum; simpl; [| apply IH].
  unfold bind, lift_result, modify, get_state.
  destruct (Py.float_ value) as [e0 | fv] eqn:Hf.
  - cbn. intros [= <-]. destruct value; simpl in Hf, Hnum; try done.
    destruct (PyNum.float_of_int z); [done |]. by injection Hf as <-.
  - cbn. rewrite !lookup_insert_eq. apply IH.
Qed.

(** X7.  When [record_scores] returns, the dict it returns has exactly
    the skills whose score is an [int] or a [float], each with the average
    that [running_scores] then reports for it; and the only exception it
    lets out is the [OverflowError] of an [int] too large for a float. *)
Theorem record_scores_returns_running_averages
  (scores : list (string * pyval)) (s : InterviewSession) :
  let r := record_scores scores s in
  (forall updated, fst r = inr updated ->
     (forall skill, is_Some (updated !! skill) <-> numeric_skill scores skill) /\
     (forall skill avg, updated !! skill = Some avg ->
        running_scores (snd r) !! skill = Some avg)) /\
  (forall e, fst r = inl e -> e = OverflowError).
Proof.
  intros r. split; [| apply record_scores_items_raises].
  intros updated Hr. unfold r, record_scores in *.
  destruct (record_scores_items scores ∅ s) as [r0 s'] eqn:Hrec.
  cbn [fst snd] in *. subst r0.
  apply record_scores_items_averages in Hrec as [Havg Hdom].
  - split.
    + intros skill. rewrite Hdom. rewrite lookup_empty. split.
      * intros [[x Hx] | Hn]; done.
      * by right.
    + intros skill avg Hk. destruct (Havg skill avg Hk)
        as (t & c & Ht & Hc & Hpos & ->).
      unfold running_scores. rewrite map_lookup_imap, Ht. simpl. rewrite Hc.
      destruct c; [lia | done].
  - intros k avg Hk. by rewrite lookup_empty in Hk.
Qed.


(* ===================================================================== *)
(** ** Strings and paths *)
(* ===================================================================== *)

Lemma lstrip_fixed s :
  PyStr.lstrip s = s <->
  match s with String c _ => PyStr.isspace c = false | EmptyString => True end.
Proof.
  destruct s as [| c s]; simpl; [done |].
  destruct (PyStr.isspace c) eqn:Hc; [| done].
  split; [| done]. intros Heq. exfalso.
  assert (Hlen : forall t, String.length (PyStr.lstrip t) <= String.length t).
  { induction t as [| c' t IH]; simpl; [done |].
    destruct (PyStr.isspace c'); simpl; lia. }
  specialize (Hlen s). rewrite Heq in Hlen. simpl in Hlen. lia.
Qed.

Lemma lstrip_idem s : PyStr.lstrip (PyStr.lstrip s) = PyStr.lstrip s.
Proof.
  induction s as [| c s IH]; simpl; [done |].
  destruct (PyStr.isspace c) eqn:Hc; [done |]. simpl. by rewrite Hc.
Qed.

Lemma rstrip_idem s : PyStr.rstrip (PyStr.rstrip s) = PyStr.rstrip s.
Proof.
  induction s as [| c s IH]; simpl; [done |].
  destruct (PyStr.rstrip s) as [| c' r] eqn:Hr.
  - destruct (PyStr.isspace c) eqn:Hc; simpl; [done |]. by rewrite Hc.
  - simpl in *. by rewrite IH.
Qed.

Lemma lstrip_rstrip s :
  PyStr.lstrip s = s -> PyStr.lstrip (PyStr.rstrip s) = PyStr.rstrip s.
Proof.
  intros Hs. apply lstrip_fixed in Hs. apply lstrip_fixed.
  destruct s as [| c s]; simpl; [done |].
  destruct (PyStr.rstrip s); [by rewrite Hs |]. done.
Qed.

Lemma strip_idem s : PyStr.strip (PyStr.strip s) = PyStr.strip s.
Proof.
  unfold PyStr.strip.
  rewrite (lstrip_rstrip (PyStr.lstrip s)) by apply lstrip_idem.
  apply rstrip_idem.
Qed.

Lemma split_slash_nonempty s : PyStr.split_slash s <> [].
Proof.
  destruct s as [| c s]; simpl; [done |].
  destruct (PyStr.split_slash s); [done |]. by destruct (Ascii.eqb c "/").
Qed.

Lemma split_slash_no_slash s w :
  In w (PyStr.split_slash s) -> contains_char "/" w = false.
Proof.
  revert w. induction s as [| c s IH]; simpl; intros w.
  - by intros [<- | []].
  - destruct (PyStr.split_slash s) as [| w0 ws]; [by intros [<- | []] |].
    destruct (Ascii.eqb c "/") eqn:Hc.
    + intros [<- | Hin]; [done |]. by apply IH.
    + intros [<- | Hin]; [| apply IH; by right].
      simpl. rewrite Hc. apply IH. by left.
Qed.

Lemma split_slash_whole s :
  contains_char "/" s = false -> PyStr.split_slash s = [s].
Proof.
  induction s as [| c s IH]; simpl; [done |].
  intros Hs. apply orb_false_iff in Hs as [Hc Hs].
  by rewrite (IH Hs), Hc.
Qed.

Lemma last_In_nonempty {A} (l : list A) (d : A) : l <> [] -> In (List.last l d) l.
Proof.
  induction l as [| x l IH]; [done |]. intros _.
  destruct l as [| y l]; [by left |]. right. by apply IH.
Qed.

Lemma name_cases p :
  Pathlib.name p = "" \/
  (In (Pathlib.name p) (PyStr.split_slash p) /\ Pathlib.name p <> "" /\
   Pathlib.name p <> ".").
Proof.
  unfold Pathlib.name, Pathlib.parts.
  destruct (List.filter _ (PyStr.split_slash p)) as [| w ws] eqn:Hf;
    [by left |].
  right. pose proof (last_In_nonempty (w :: ws) "" ltac:(done)) as Hin.
  rewrite <- Hf in Hin at 2. apply filter_In in Hin as [Hin Hok].
  split; [done |]. apply negb_true_iff, orb_false_iff in Hok as [H1 H2].
  by split; apply String.eqb_neq.
Qed.

Lemma name_no_slash p : contains_char "/" (Pathlib.name p) = false.
Proof.
  destruct (name_cases p) as [-> | (Hin & _)]; [done |].
  by apply (split_slash_no_slash p).
Qed.

Lemma name_idem p : Pathlib.name (Pathlib.name p) = Pathlib.name p.
Proof.
  destruct (name_cases p) as [Heq | (Hin & Hne & Hdot)].
  - rewrite Heq. done.
  - unfold Pathlib.name at 1. unfold Pathlib.parts.
    rewrite (split_slash_whole _ (name_no_slash p)). simpl.
    apply String.eqb_neq in Hne, Hdot. by rewrite Hne, Hdot.
Qed.

Lemma suffix_name p : Pathlib.suffix (Pathlib.name p) = Pathlib.suffix p.
Proof. unfold Pathlib.suffix. by rewrite name_idem. Qed.

(* ===================================================================== *)
(** ** The artifacts of a session *)
(* ===================================================================== *)

Lemma insert_newest_first_perm a l :
  Permutation (insert_newest_first a l) (a :: l).
Proof.
  induction l as [| b l IH]; simpl; [done |].
  destruct (uploaded_at b >? uploaded_at a)%Z; [| done].
  rewrite IH. apply perm_swap.
Qed.

Lemma insert_newest_first_sorted a l :
  newest_first l -> newest_first (insert_newest_first a l).
Proof.
  unfold newest_first. induction l as [| b l IH]; simpl; intros Hl.
  - by repeat constructor.
  - apply StronglySorted_inv in Hl as [Hl Hb].
    destruct (uploaded_at b >? uploaded_at a)%Z eqn:Hgt.
    + constructor; [by apply IH |].
      rewrite List.Forall_forall. intros x Hx.
      apply (Permutation_in _ (insert_newest_first_perm a l)) in Hx
        as [<- | Hx]; [lia |].
      rewrite List.Forall_forall in Hb. by apply Hb.
    + constructor; [by constructor |].
      constructor; [lia |]. rewrite !List.Forall_forall in *.
      intros x Hx. specialize (Hb x Hx). lia.
Qed.

Lemma insert_newest_first_stable t a l :
  uploaded_exactly_at t (insert_newest_first a l) =
  uploaded_exactly_at t (a :: l).
Proof.
  unfold uploaded_exactly_at. induction l as [| b l IH]; simpl; [done |].
  destruct (uploaded_at b >? uploaded_at a)%Z eqn:Hgt; [| done].
  simpl in *. rewrite IH.
  destruct (uploaded_at a =? t)%Z eqn:Ha; [| done].
  destruct (uploaded_at b =? t)%Z eqn:Hb; [lia | done].
Qed.

Lemma sorted_newest_first_spec l :
  Permutation (sorted_newest_first l) l /\
  newest_first (sorted_newest_first l) /\
  forall t, uploaded_exactly_at t (sorted_newest_first l) =
            uploaded_exactly_at t l.
Proof.
  unfold sorted_newest_first. induction l as [| a l (IH1 & IH2 & IH3)]; simpl.
  - split; [done |]. split; [constructor | done].
  - split; [by rewrite insert_newest_first_perm, IH1 |].
    split; [by apply insert_newest_first_sorted |].
    intros t. rewrite insert_newest_first_stable.
    unfold uploaded_exactly_at in *. simpl. by rewrite IH3.
Qed.

(** X8.  [list_artifacts] returns every artifact of the session exactly
    once, newest upload first, artifacts uploaded at the same instant
    keeping the order in which they were stored; it changes nothing. *)
Theorem list_artifacts_newest_first (sid : string) (svc : InterviewService)
  (s : InterviewSession) :
  _sessions svc !! sid = Some s ->
  exists l,
    list_artifacts sid svc = (inr l, svc) /\
    Permutation l (map snd (artifacts s)) /\
    newest_first l /\
    forall t, uploaded_exactly_at t l =
              uploaded_exactly_at t (map snd (artifacts s)).
Proof.
  intros Hs. unfold list_artifacts, bind, _get_session. rewrite Hs.
  eexists. split; [done |]. apply sorted_newest_first_spec.
Qed.

Lemma store_file_artifact_eq uuid now sid fn ct data de svc s :
  _sessions svc !! sid = Some s ->
  let ext := PyStr.lower (Pathlib.suffix fn) in
  let path := (_storage_dir svc ++ "/" ++ sid ++ "/" ++ uuid ++ ext)%string in
  let a := {| art_id := uuid; source := SourceFile;
              filename := Some (Pathlib.name fn); content_type := ct;
              size_bytes := Some (length data); uploaded_at := now;
              description := clean_description de; url := None;
              storage_path := Some path |} in
  str_in ext ALLOWED_FILE_EXTENSIONS = true ->
  (Z.of_nat (length data) >? _max_upload_bytes svc)%Z = false ->
  fst (store_file_artifact uuid now sid fn ct data de svc) = inr a /\
  let svc' := snd (store_file_artifact uuid now sid fn ct data de svc) in
  _sessions svc' = <[sid := with_artifact a now s]> (_sessions svc) /\
  disk svc' = <[path := data]> (disk svc) /\
  _storage_dir svc' = _storage_dir svc /\
  _max_upload_bytes svc' = _max_upload_bytes svc.
Proof.
  intros Hs ext path a Hext Hsize.
  unfold store_file_artifact, bind, _get_session. rewrite Hs. fold ext.
  rewrite Hext. cbn [negb get_state]. rewrite Hsize.
  unfold modify, on_session. cbn. rewrite Hs. cbn.
  rewrite lookup_insert_eq. cbn. split; [done |].
  split; [| done]. by rewrite insert_insert_eq.
Qed.

Lemma store_link_artifact_eq uuid now sid u de svc s :
  _sessions svc !! sid = Some s ->
  let cleaned := PyStr.strip u in
  let a := {| art_id := uuid; source := SourceLink; filename := None;
              content_type := None; size_bytes := None; uploaded_at := now;
              description := clean_description de; url := Some cleaned;
              storage_path := None |} in
  (String.eqb cleaned ""
   || negb (PyStr.startswith_any (PyStr.lower cleaned) ["http://"; "https://"]))
    = false ->
  fst (store_link_artifact uuid now sid u de svc) = inr a /\
  let svc' := snd (store_link_artifact uuid now sid u de svc) in
  _sessions svc' = <[sid := with_artifact a now s]> (_sessions svc) /\
  disk svc' = disk svc /\
  _storage_dir svc' = _storage_dir svc /\
  _max_upload_bytes svc' = _max_upload_bytes svc.
Proof.
  intros Hs cleaned a Hok.
  unfold store_link_artifact, bind, _get_session. rewrite Hs. fold cleaned.
  rewrite Hok. unfold modify, on_session. cbn. rewrite Hs. cbn.
  rewrite lookup_insert_eq. cbn. split; [done |].
  split; [| done]. by rewrite insert_insert_eq.
Qed.

Lemma store_file_artifact_returned uuid now sid fn ct data de svc s a :
  _sessions svc !! sid = Some s ->
  fst (store_file_artifact uuid now sid fn ct data de svc) = inr a ->
  str_in (PyStr.lower (Pathlib.suffix fn)) ALLOWED_FILE_EXTENSIONS = true /\
  (Z.of_nat (length data) >? _max_upload_bytes svc)%Z = false.
Proof.
  intros Hs Ha.
  pose proof (store_file_artifact_cases uuid now sid fn ct data de svc s Hs)
    as Hcases. cbv zeta in Hcases.
  destruct (str_in _ _); cbn [negb] in Hcases.
  - destruct (_ >? _)%Z; [| done].
    destruct Hcases as [[msg Hmsg] _]. rewrite Hmsg in Ha. done.
  - destruct Hcases as [[msg Hmsg] _]. rewrite Hmsg in Ha. done.
Qed.

Lemma store_link_artifact_returned uuid now sid u de svc s a :
  _sessions svc !! sid = Some s ->
  fst (store_link_artifact uuid now sid u de svc) = inr a ->
  (String.eqb (PyStr.strip u) ""
   || negb (PyStr.startswith_any (PyStr.lower (PyStr.strip u))
              ["http://"; "https://"])) = false.
Proof.
  intros Hs Ha.
  pose proof (store_link_artifact_cases uuid now sid u de svc s Hs)
    as Hcases. cbv zeta in Hcases.
  destruct (_ || _); [| done].
  destruct Hcases as [[msg Hmsg] _]. rewrite Hmsg in Ha. done.
Qed.

(** What holds of a service [svc'] in which artifact [a] has just been
    stored for session [sid] of [svc]. *)
Lemma artifact_stored_lookup a now sid svc svc' s :
  _sessions svc' = <[sid := with_artifact a now s]> (_sessions svc) ->
  get_artifact sid (art_id a) svc' = (inr a, svc') /\
  (exists l, list_artifacts sid svc' = (inr l, svc') /\ In a l) /\
  (forall aid, aid <> art_id a ->
     Py.get (artifacts s) aid = None ->
     get_artifact sid aid svc' =
       (inl (KeyError ("Unknown artifact id " ++ aid)), svc')) /\
  (forall aid b, aid <> art_id a ->
     Py.get (artifacts s) aid = Some b ->
     get_artifact sid aid svc' = (inr b, svc')).
Proof.
  intros Hsvc'.
  assert (Hs' : _sessions svc' !! sid = Some (with_artifact a now s))
    by (by rewrite Hsvc', lookup_insert_eq).
  unfold get_artifact, list_artifacts, bind, _get_session. rewrite Hs'.
  cbn [with_artifact set_updated_at set_artifacts artifacts].
  rewrite get_set_eq. split; [done |]. split; [| split].
  - eexists. split; [done |].
    destruct (sorted_newest_first_spec
                (map snd (Py.set (artifacts s) (art_id a) a))) as (Hp & _).
    apply (Permutation_in _ (Permutation_sym Hp)).
    apply in_map_iff. exists (art_id a, a). split; [done |].
    clear. induction (artifacts s) as [| [k v] d IH]; simpl; [by left |].
    destruct (String.eqb k (art_id a)) eqn:Hk.
    + apply String.eqb_eq in Hk. subst. by left.
    + by right.
  - intros aid Hne Hnone. rewrite get_set_ne by done. by rewrite Hnone.
  - intros aid b Hne Hsome. rewrite get_set_ne by done. by rewrite Hsome.
Qed.

(** X9.  An artifact that [store_file_artifact] or [store_link_artifact]
    has returned is the one [get_artifact] gives back for its id, and it
    is among those [list_artifacts] returns; the session's other artifact
    ids answer as before. *)
Theorem stored_artifact_is_retrievable (uuid : string) (now : Z)
  (sid fn u : string) (ct : option string) (data : list byte)
  (de : option string) (svc : InterviewService) (s : InterviewSession) :
  _sessions svc !! sid = Some s ->
  retrievable sid uuid svc
    (store_file_artifact uuid now sid fn ct data de svc) /\
  retrievable sid uuid svc (store_link_artifact uuid now sid u de svc).
Proof.
  intros Hs. unfold retrievable.
  assert (Hold : forall aid svc' a,
            art_id a = uuid -> aid <> uuid ->
            _sessions svc' = <[sid := with_artifact a now s]> (_sessions svc) ->
            fst (get_artifact sid aid svc') = fst (get_artifact sid aid svc)).
  { intros aid svc' a Hid Hne Hsvc'.
    destruct (artifact_stored_lookup a now sid svc svc' s Hsvc')
      as (_ & _ & Hnone & Hsome). rewrite Hid in Hnone, Hsome.
    unfold get_artifact at 2. unfold bind, _get_session. rewrite Hs.
    destruct (Py.get (artifacts s) aid) as [b |] eqn:Hb.
    - by rewrite (Hsome aid b Hne Hb).
    - by rewrite (Hnone aid Hne Hb). }
  split; intros a Ha.
  - destruct (store_file_artifact_returned _ _ _ _ _ _ _ _ _ _ Hs Ha)
      as [Hext Hsize].
    destruct (store_file_artifact_eq uuid now sid fn ct data de svc s Hs
                Hext Hsize) as (Ha' & Hsvc' & _).
    rewrite Ha' in Ha. injection Ha as <-.
    destruct (artifact_stored_lookup _ now sid svc _ s Hsvc')
      as (Hget & Hlist & _).
    split; [done |]. split; [done |]. split; [done |].
    intros aid Hne.
    eapply (Hold aid); [| exact Hne | exact Hsvc']; reflexivity.
  - pose proof (store_link_artifact_returned _ _ _ _ _ _ _ _ Hs Ha) as Hok.
    destruct (store_link_artifact_eq uuid now sid u de svc s Hs Hok)
      as (Ha' & Hsvc' & _).
    rewrite Ha' in Ha. injection Ha as <-.
    destruct (artifact_stored_lookup _ now sid svc _ s Hsvc')
      as (Hget & Hlist & _).
    split; [done |]. split; [done |]. split; [done |].
    intros aid Hne.
    eapply (Hold aid); [| exact Hne | exact Hsvc']; reflexivity.
Qed.

(** X10.  A stored upload is written under the storage directory, the
    session id and the artifact id followed by the lower-cased, allowed
    extension, and nowhere else; the client's file name is kept only as
    its last path component, which holds no [/] and carries that
    extension; the recorded size is the number of bytes written. *)
Theorem stored_file_name_is_sanitised (uuid : string) (now : Z)
  (sid fn : string) (ct : option string) (data : list byte)
  (de : option string) (svc : InterviewService) (s : InterviewSession)
  (a : SubmissionArtifact) :
  _sessions svc !! sid = Some s ->
  fst (store_file_artifact uuid now sid fn ct data de svc) = inr a ->
  let svc' := snd (store_file_artifact uuid now sid fn ct data de svc) in
  exists name ext path,
    filename a = Some name /\ name = Pathlib.name fn /\
    contains_char "/" name = false /\
    ext = PyStr.lower (Pathlib.suffix name) /\
    In ext ALLOWED_FILE_EXTENSIONS /\
    storage_path a = Some path /\
    path = (_storage_dir svc ++ "/" ++ sid ++ "/" ++ uuid ++ ext)%string /\
    disk svc' !! path = Some data /\
    (forall p, p <> path -> disk svc' !! p = disk svc !! p) /\
    size_bytes a = Some (length data) /\
    source a = SourceFile /\ url a = None /\ content_type a = ct.
Proof.
  intros Hs Ha svc'.
  destruct (store_file_artifact_returned _ _ _ _ _ _ _ _ _ _ Hs Ha)
    as [Hext Hsize].
  destruct (store_file_artifact_eq uuid now sid fn ct data de svc s Hs
              Hext Hsize) as (Ha' & _ & Hdisk & _).
  rewrite Ha' in Ha. injection Ha as <-. fold svc' in Hdisk.
  eexists _, _, _. cbn [filename storage_path size_bytes source url
                          content_type].
  split; [done |]. split; [done |]. split; [apply name_no_slash |].
  split; [done |]. rewrite suffix_name.
  split; [by apply str_in_In |]. split; [done |]. split; [done |].
  rewrite Hdisk. split; [by rewrite lookup_insert_eq |].
  split; [| done]. intros p Hne. by rewrite lookup_insert_ne.
Qed.

(** X11.  Storing an artifact, whether it succeeds or is refused, leaves
    the conversation alone: the session keeps its message history,
    transcript, score totals and counts, hence its running scores, and
    every artifact id it already had; the other sessions are untouched. *)
Theorem store_artifact_leaves_conversation (uuid : string) (now : Z)
  (sid fn u : string) (ct : option string) (data : list byte)
  (de : option string) (svc : InterviewService) (s : InterviewSession) :
  _sessions svc !! sid = Some s ->
  conversation_kept sid svc s
    (store_file_artifact uuid now sid fn ct data de svc) /\
  conversation_kept sid svc s (store_link_artifact uuid now sid u de svc).
Proof.
  intros Hs. set (kept := conversation_kept sid svc s).
  assert (Hsame : forall r : (exn + SubmissionArtifact) * InterviewService,
            snd r = svc -> kept r).
  { intros r Hr. unfold kept, conversation_kept. rewrite Hr. split; [| done]. exists s.
    by repeat split. }
  assert (Hstored : forall (r : (exn + SubmissionArtifact) * InterviewService) a,
            _sessions (snd r) = <[sid := with_artifact a now s]> (_sessions svc) ->
            kept r).
  { intros r a Hr. unfold kept, conversation_kept. split.
    - exists (with_artifact a now s). rewrite Hr, lookup_insert_eq.
      split; [done |]. repeat split; try done.
      intros aid Haid. cbn.
      destruct (decide (art_id a = aid)) as [<- | Hne].
      + by rewrite get_set_eq.
      + by rewrite get_set_ne.
    - intros sid' Hne. by rewrite Hr, lookup_insert_ne. }
  split.
  - pose proof (store_file_artifact_cases uuid now sid fn ct data de svc s Hs)
      as Hcases. cbv zeta in Hcases.
    destruct (str_in (PyStr.lower (Pathlib.suffix fn)) ALLOWED_FILE_EXTENSIONS)
      eqn:Hext; cbn [negb] in Hcases; [| by apply Hsame, Hcases].
    destruct (Z.of_nat (length data) >? _max_upload_bytes svc)%Z eqn:Hsize;
      [by apply Hsame, Hcases |].
    destruct (store_file_artifact_eq uuid now sid fn ct data de svc s Hs
                Hext Hsize) as (_ & Hsvc' & _).
    by eapply Hstored.
  - pose proof (store_link_artifact_cases uuid now sid u de svc s Hs)
      as Hcases. cbv zeta in Hcases.
    destruct (String.eqb (PyStr.strip u) "" || _) eqn:Hbad;
      [by apply Hsame, Hcases |].
    destruct (store_link_artifact_eq uuid now sid u de svc s Hs Hbad)
      as (_ & Hsvc' & _).
    by eapply Hstored.
Qed.


(* ===================================================================== *)
(** ** What the store holds is valid *)
(* ===================================================================== *)

Section ArtifactInvariant.
Context `{Externals}.

Lemma artifacts_valid_insert max svc svc' sid s s' :
  _sessions svc !! sid = Some s ->
  _sessions svc' = <[sid := s']> (_sessions svc) ->
  _max_upload_bytes svc' = _max_upload_bytes svc ->
  (forall key a, Py.get (artifacts s') key = Some a ->
     Py.get (artifacts s) key = Some a \/ valid_artifact max key a) ->
  artifacts_valid max svc -> artifacts_valid max svc'.
Proof.
  intros Hs Hsvc' Hmax Hnew [Hm Hall]. split; [by rewrite Hmax |].
  intros sid0 s0 key a Hs0 Hget. rewrite Hsvc' in Hs0.
  destruct (decide (sid = sid0)) as [<- | Hne].
  - rewrite lookup_insert_eq in Hs0. injection Hs0 as <-.
    destruct (Hnew key a Hget) as [Hold | Hv]; [| done].
    by apply (Hall sid s).
  - rewrite lookup_insert_ne in Hs0 by done. by apply (Hall sid0 s0).
Qed.

Lemma artifacts_valid_chat max llm now sid message svc :
  artifacts_valid max svc ->
  artifacts_valid max (snd (chat llm now sid message svc)).
Proof.
  intros Hv. destruct (_sessions svc !! sid) as [s |] eqn:Hs.
  - destruct (chat_outcome llm now sid message svc s Hs)
      as (s' & Hsvc' & Har & _).
    rewrite Hsvc'. apply (artifacts_valid_insert max svc _ sid s s'); try done.
    intros key a. rewrite Har. by left.
  - by destruct (unknown_session_raises svc sid llm now message "" Hs)
      as (-> & _).
Qed.

Lemma artifacts_valid_create max llm uuid now payload svc :
  artifacts_valid max svc ->
  artifacts_valid max (snd (create_session llm uuid now payload svc)).
Proof.
  intros [Hm Hall].
  pose proof (create_session_outcome llm uuid now payload svc) as Hout.
  cbv zeta in Hout.
  destruct (fst (create_session llm uuid now payload svc)) as [e | resp];
    [by rewrite Hout |].
  destruct Hout as (_ & _ & s & c & _ & -> & _ & _ & Har & _).
  split; [done |]. intros sid0 s0 key a Hs0 Hget. cbn in Hs0.
  destruct (decide (uuid = sid0)) as [<- | Hne].
  - rewrite lookup_insert_eq in Hs0. injection Hs0 as <-.
    by rewrite Har in Hget.
  - rewrite lookup_insert_ne in Hs0 by done. by apply (Hall sid0 s0).
Qed.

Lemma artifacts_valid_store_file max uuid now sid fn ct data de svc :
  artifacts_valid max svc ->
  artifacts_valid max (snd (store_file_artifact uuid now sid fn ct data de svc)).
Proof.
  intros Hv. destruct (_sessions svc !! sid) as [s |] eqn:Hs.
  - pose proof (store_file_artifact_cases uuid now sid fn ct data de svc s Hs)
      as Hcases. cbv zeta in Hcases.
    destruct (str_in (PyStr.lower (Pathlib.suffix fn)) ALLOWED_FILE_EXTENSIONS)
      eqn:Hext; cbn [negb] in Hcases;
      [| by destruct Hcases as [_ ->]].
    destruct (Z.of_nat (length data) >? _max_upload_bytes svc)%Z eqn:Hsize;
      [by destruct Hcases as [_ ->] |].
    destruct (store_file_artifact_eq uuid now sid fn ct data de svc s Hs
                Hext Hsize) as (_ & Hsvc' & _ & _ & Hmax).
    eapply (artifacts_valid_insert max svc _ sid s); try done.
    intros key a. cbn [with_artifact set_updated_at set_artifacts artifacts
                       art_id].
    destruct (decide (uuid = key)) as [<- | Hne].
    + rewrite get_set_eq. intros [= <-]. right.
      split; [done |]. split; [apply strip_idem |].
      cbn [source url storage_path size_bytes filename].
      split; [done |]. split; [done |]. split.
      * eexists. split; [done |]. destruct Hv as [<- _]. lia.
      * eexists. split; [done |]. split; [apply name_no_slash |].
        rewrite suffix_name. by apply str_in_In.
    + rewrite get_set_ne by done. by left.
  - unfold store_file_artifact, bind, _get_session. by rewrite Hs.
Qed.

Lemma artifacts_valid_store_link max uuid now sid u de svc :
  artifacts_valid max svc ->
  artifacts_valid max (snd (store_link_artifact uuid now sid u de svc)).
Proof.
  intros Hv. destruct (_sessions svc !! sid) as [s |] eqn:Hs.
  - pose proof (store_link_artifact_cases uuid now sid u de svc s Hs)
      as Hcases. cbv zeta in Hcases.
    destruct (String.eqb (PyStr.strip u) "" || _) eqn:Hbad;
      [by destruct Hcases as [_ ->] |].
    destruct (store_link_artifact_eq uuid now sid u de svc s Hs Hbad)
      as (_ & Hsvc' & _ & _ & Hmax).
    eapply (artifacts_valid_insert max svc _ sid s); try done.
    intros key a. cbn [with_artifact set_updated_at set_artifacts artifacts
                       art_id].
    destruct (decide (uuid = key)) as [<- | Hne].
    + rewrite get_set_eq. intros [= <-]. right.
      split; [done |]. split; [apply strip_idem |].
      cbn [source url storage_path size_bytes filename content_type].
      repeat (split; [done |]). eexists. split; [done |].
      apply orb_false_iff in Hbad as [Hne Hsch].
      split; [by apply String.eqb_neq |]. split; [apply strip_idem |].
      by apply negb_false_iff in Hsch.
    + rewrite get_set_ne by done. by left.
  - unfold store_link_artifact, bind, _get_session. by rewrite Hs.
Qed.

Lemma artifacts_valid_exec max o svc :
  artifacts_valid max svc -> artifacts_valid max (snd (exec o svc)).
Proof.
  intros Hv.
  assert (Hmap : forall A (f : A -> response) (m : Meth InterviewService A),
            snd (map_result f m svc) = snd (m svc)).
  { intros A f m. unfold map_result, bind. by destruct (m svc) as [[e | a] s']. }
  destruct o; simpl; rewrite Hmap.
  - by apply artifacts_valid_create.
  - by apply artifacts_valid_chat.
  - by rewrite read_only_summarize.
  - by rewrite read_only_list_artifacts.
  - by apply artifacts_valid_store_file.
  - by apply artifacts_valid_store_link.
  - by rewrite read_only_get_artifact.
Qed.

Lemma artifacts_valid_run max ops svc :
  artifacts_valid max svc -> artifacts_valid max (snd (run ops svc)).
Proof.
  revert svc. induction ops as [| o ops IH]; intros svc Hv; [done |].
  simpl. pose proof (artifacts_valid_exec max o svc Hv) as Ho.
  destruct (exec o svc) as [r svc1]. specialize (IH svc1 Ho).
  by destruct (run ops svc1) as [rs svc2].
Qed.

(** X12.  After any run of a service created with the upload limit
    [max], every artifact a session holds is stored under its own id and
    has a stripped description; a file artifact records a size of at most
    [max] bytes, a file name without [/] whose lower-cased extension is
    allowed, and a storage path; a link artifact records a non-empty,
    stripped URL that starts with [http://] or [https://] in any letter
    case, and no file. *)
Theorem stored_artifacts_stay_valid (ops : list op) (dir : string) (max : Z)
  (sid key : string) (s : InterviewSession) (a : SubmissionArtifact) :
  _sessions (snd (run ops (new_service dir max))) !! sid = Some s ->
  Py.get (artifacts s) key = Some a ->
  valid_artifact max key a.
Proof.
  intros Hs Hget.
  destruct (artifacts_valid_run max ops (new_service dir max)) as [_ Hall].
  - split; [done |]. intros sid0 s0 k0 a0 Hs0. cbn in Hs0.
    by rewrite lookup_empty in Hs0.
  - by apply (Hall sid s).
Qed.

End ArtifactInvariant.


(* ===================================================================== *)
(** ** Sessions over time *)
(* ===================================================================== *)

Section HistoryProofs.
Context `{Externals}.

Lemma grows_refl s : grows s s.
Proof. by repeat split. Qed.

Lemma grows_trans s1 s2 s3 : grows s1 s2 -> grows s2 s3 -> grows s1 s3.
Proof.
  intros (Hm1 & Ht1 & Hc1 & Ha1 & Hi1 & Hd1 & Hr1)
         (Hm2 & Ht2 & Hc2 & Ha2 & Hi2 & Hd2 & Hr2).
  split; [by etrans |]. split; [by etrans |].
  split; [intros k; specialize (Hc1 k); specialize (Hc2 k); lia |].
  split; [auto |]. split; [congruence |]. split; congruence.
Qed.

Lemma apply_scores_grows fl s :
  NoDup (map fst fl) -> grows s (apply_scores fl s).
Proof.
  intros Hnd.
  destruct (apply_scores_frame fl s) as (Hm & Ht & Ha & Hi).
  split; [by rewrite Hm |]. split; [by rewrite Ht |]. split.
  { intros k. rewrite count_of_apply_scores by done.
    destruct (Py.get fl k); lia. }
  split; [by rewrite Ha |]. split; [done |].
  split; [apply apply_scores_candidate |].
  clear. revert s. induction fl as [| [k v] fl IH]; intros s; [done |].
  unfold apply_scores in *. simpl. by rewrite IH.
Qed.

Lemma recorded_grows now content_v t s :
  (forall ev, evaluation t = Some ev -> NoDup (map fst (rubric_scores ev))) ->
  grows s (recorded now content_v t s).
Proof.
  intros Hnd. destruct (recorded_frame now content_v t s) as (Ht & Hm & Ha).
  split; [rewrite Hm; by apply prefix_app_r |].
  split; [rewrite Ht; by apply prefix_app_r |]. split.
  { intros k. rewrite count_of_recorded by done.
    destruct (observation k t); lia. }
  split; [by rewrite Ha |].
  unfold recorded. cbn. unfold scored.
  destruct (evaluation t) as [ev |] eqn:Hev; [| done].
  by destruct (apply_scores_grows (rubric_scores ev) s (Hnd ev eq_refl))
    as (_ & _ & _ & _ & -> & -> & ->).
Qed.

Lemma chat_grows llm now sid message svc s :
  _sessions svc !! sid = Some s ->
  exists s',
    snd (chat llm now sid message svc) = set_sessions (insert sid s') svc /\
    grows s s'.
Proof.
  intros Hs. rewrite (chat_eq _ _ _ _ _ s Hs). cbv zeta.
  set (s1 := set_messages (fun m => m ++ [("user", message)]) s).
  assert (H1 : grows s s1).
  { split; [by apply prefix_app_r |]. by repeat split. }
  destruct (call_gateway _ _) as [e0 | content_v]; [by exists s1 |].
  pose proof (record_ai_turn_cases now content_v
    (Some {| role := "candidate"; content := message; msg_created_at := now |})
    s1) as Hcases.
  destruct (_record_ai_turn _ _ _ _) as [[e0 | t] s2]; exists s2;
    (split; [done |]); apply (grows_trans _ s1); try done.
  - destruct Hcases as [-> | (fl & Hnd & ->)];
      [apply grows_refl | by apply apply_scores_grows].
  - destruct Hcases as (_ & -> & Hnd). by apply recorded_grows.
Qed.

Lemma with_artifact_grows a now s : grows s (with_artifact a now s).
Proof.
  split; [done |]. split; [done |]. split; [done |].
  split; [| done]. intros aid Haid. cbn.
  destruct (decide (art_id a = aid)) as [<- | Hne].
  - by rewrite get_set_eq.
  - by rewrite get_set_ne.
Qed.

Lemma exec_grows o svc sid s :
  _sessions svc !! sid = Some s ->
  never_redrawn sid [o] ->
  exists s', _sessions (snd (exec o svc)) !! sid = Some s' /\ grows s s'.
Proof.
  intros Hs Hfresh.
  assert (Hmap : forall A (f : A -> response) (m : Meth InterviewService A),
            snd (map_result f m svc) = snd (m svc)).
  { intros A f m. unfold map_result, bind. by destruct (m svc) as [[e | a] s']. }
  assert (Hsame : forall svc', svc' = svc ->
            exists s', _sessions svc' !! sid = Some s' /\ grows s s').
  { intros svc' ->. exists s. split; [done | apply grows_refl]. }
  assert (Hins : forall svc' sid0 s0 s0',
            _sessions svc !! sid0 = Some s0 ->
            _sessions svc' = <[sid0 := s0']> (_sessions svc) ->
            grows s0 s0' ->
            exists s', _sessions svc' !! sid = Some s' /\ grows s s').
  { intros svc' sid0 s0 s0' Hs0 Hsvc' Hg. rewrite Hsvc'.
    destruct (decide (sid0 = sid)) as [-> | Hne].
    - rewrite lookup_insert_eq. exists s0'. split; [done |].
      rewrite Hs in Hs0. by injection Hs0 as <-.
    - rewrite lookup_insert_ne by done. exists s.
      split; [done | apply grows_refl]. }
  destruct o as [llm uuid now payload | llm now sid0 msg | llm sid0 | sid0
                | uuid now sid0 fn ct data de | uuid now sid0 u de | sid0 aid];
    simpl exec; rewrite Hmap.
  - pose proof (create_session_outcome llm uuid now payload svc) as Hout.
    cbv zeta in Hout.
    destruct (fst (create_session llm uuid now payload svc)) as [e | resp];
      [by apply Hsame |].
    destruct Hout as (_ & _ & s0 & c & _ & -> & _).
    cbn. rewrite lookup_insert_ne.
    + exists s. split; [done | apply grows_refl].
    + apply (Hfresh llm uuid now payload). by left.
  - destruct (_sessions svc !! sid0) as [s0 |] eqn:Hs0.
    + destruct (chat_grows llm now sid0 msg svc s0 Hs0) as (s0' & Hsvc' & Hg).
      apply (Hins _ sid0 s0 s0'); [done | by rewrite Hsvc' | done].
    + apply Hsame.
      by destruct (unknown_session_raises svc sid0 llm now msg "" Hs0)
        as (-> & _).
  - apply Hsame, read_only_summarize.
  - apply Hsame, read_only_list_artifacts.
  - destruct (_sessions svc !! sid0) as [s0 |] eqn:Hs0.
    + pose proof (store_file_artifact_cases uuid now sid0 fn ct data de svc s0
                    Hs0) as Hcases. cbv zeta in Hcases.
      destruct (str_in (PyStr.lower (Pathlib.suffix fn))
                  ALLOWED_FILE_EXTENSIONS) eqn:Hext; cbn [negb] in Hcases;
        [| by apply Hsame, Hcases].
      destruct (Z.of_nat (length data) >? _max_upload_bytes svc)%Z eqn:Hsize;
        [by apply Hsame, Hcases |].
      destruct (store_file_artifact_eq uuid now sid0 fn ct data de svc s0 Hs0
                  Hext Hsize) as (_ & Hsvc' & _).
      eapply (Hins _ sid0 s0); [done | exact Hsvc' | apply with_artifact_grows].
    + apply Hsame. unfold store_file_artifact, bind, _get_session.
      by rewrite Hs0.
  - destruct (_sessions svc !! sid0) as [s0 |] eqn:Hs0.
    + pose proof (store_link_artifact_cases uuid now sid0 u de svc s0 Hs0)
        as Hcases. cbv zeta in Hcases.
      destruct (String.eqb (PyStr.strip u) "" || _) eqn:Hbad;
        [by apply Hsame, Hcases |].
      destruct (store_link_artifact_eq uuid now sid0 u de svc s0 Hs0 Hbad)
        as (_ & Hsvc' & _).
      eapply (Hins _ sid0 s0); [done | exact Hsvc' | apply with_artifact_grows].
    + apply Hsame. unfold store_link_artifact, bind, _get_session.
      by rewrite Hs0.
  - apply Hsame, read_only_get_artifact.
Qed.

(** X13.  A stored session is never lost and its history is
    append-only: over any run in which [create_session] does not draw its
    id again, the session stays in the store, its earlier message history
    and transcript are prefixes of the later ones, no skill's count goes
    down, every artifact id it had is still held, and its id, candidate
    and creation time are the same. *)
Theorem session_history_is_append_only (ops : list op)
  (svc : InterviewService) (sid : string) (s : InterviewSession) :
  _sessions svc !! sid = Some s ->
  never_redrawn sid ops ->
  exists s', _sessions (snd (run ops svc)) !! sid = Some s' /\ grows s s'.
Proof.
  revert svc s. induction ops as [| o ops IH]; intros svc s Hs Hfresh.
  - exists s. split; [done | apply grows_refl].
  - simpl.
    destruct (exec_grows o svc sid s Hs) as (s1 & Hs1 & Hg1).
    { intros llm uuid now payload [Ho | []].
      apply (Hfresh llm uuid now payload). by left. }
    destruct (exec o svc) as [r svc1]. cbn [snd] in Hs1.
    destruct (IH svc1 s1 Hs1) as (s2 & Hs2 & Hg2).
    { intros llm uuid now payload Hin. apply (Hfresh llm uuid now payload).
      by right. }
    destruct (run ops svc1) as [rs svc2]. cbn [snd] in *.
    exists s2. split; [done |]. by apply (grows_trans _ s1).
Qed.

(** X14.  A session that [create_session] has just returned holds no
    artifact: [list_artifacts] gives the empty list for it and
    [get_artifact] raises the [KeyError] of an unknown artifact, whatever
    the id asked for, both leaving the service as it is. *)
Theorem new_session_has_no_artifacts (llm : LLMClient) (uuid : string)
  (now : Z) (payload : SessionCreateRequest) (svc : InterviewService)
  (resp : SessionCreateResponse) (aid : string) :
  fst (create_session llm uuid now payload svc) = inr resp ->
  let svc' := snd (create_session llm uuid now payload svc) in
  list_artifacts (resp_session_id resp) svc' = (inr [], svc') /\
  get_artifact (resp_session_id resp) aid svc' =
    (inl (KeyError ("Unknown artifact id " ++ aid)), svc').
Proof.
  intros Hresp svc'.
  pose proof (create_session_outcome llm uuid now payload svc) as Hout.
  cbv zeta in Hout. rewrite Hresp in Hout.
  destruct Hout as (-> & _ & s & c & _ & Hsvc' & _ & _ & Har & _).
  fold svc' in Hsvc'.
  assert (Hs : _sessions svc' !! uuid = Some s).
  { rewrite Hsvc'. cbn. by rewrite lookup_insert_eq. }
  unfold list_artifacts, get_artifact, bind, _get_session.
  by rewrite Hs, Har.
Qed.

End HistoryProofs.


(* ===================================================================== *)
(** ** Invariants of the stored sessions *)
(* ===================================================================== *)

Section SessionInvariant.
Context `{Externals}.
Variable I : InterviewSession -> Prop.
Hypothesis I_user : forall s msg,
  I s -> I (set_messages (fun m => m ++ [("user", msg)]) s).
Hypothesis I_scores : forall s fl, I s -> I (apply_scores fl s).
Hypothesis I_recorded : forall s now c t, I s -> I (recorded now c t s).
Hypothesis I_artifact : forall s a now, I s -> I (with_artifact a now s).
Hypothesis I_created : forall uuid now payload,
  I (bootstrap_session uuid now payload).

Lemma all_sessions_insert svc svc' sid s s' :
  _sessions svc !! sid = Some s ->
  _sessions svc' = <[sid := s']> (_sessions svc) ->
  (I s -> I s') ->
  all_sessions I svc -> all_sessions I svc'.
Proof.
  intros Hs Hsvc' Hstep Hall sid0 s0 Hs0. rewrite Hsvc' in Hs0.
  destruct (decide (sid = sid0)) as [<- | Hne].
  - rewrite lookup_insert_eq in Hs0. injection Hs0 as <-.
    by apply Hstep, (Hall sid).
  - rewrite lookup_insert_ne in Hs0 by done. by apply (Hall sid0).
Qed.

Lemma all_sessions_exec o svc :
  all_sessions I svc -> all_sessions I (snd (exec o svc)).
Proof.
  intros Hall.
  assert (Hmap : forall A (f : A -> response) (m : Meth InterviewService A),
            snd (map_result f m svc) = snd (m svc)).
  { intros A f m. unfold map_result, bind. by destruct (m svc) as [[e | a] s']. }
  destruct o as [llm uuid now payload | llm now sid msg | llm sid | sid
                | uuid now sid fn ct data de | uuid now sid u de | sid aid];
    simpl exec; rewrite Hmap.
  - rewrite create_session_eq.
    destruct (call_gateway llm _) as [e | content_v]; [done |].
    pose proof (record_ai_turn_cases now content_v None
                  (bootstrap_session uuid now payload)) as Hcases.
    destruct (_record_ai_turn _ _ _ _) as [[e | t] s']; [done |].
    destruct Hcases as (_ & -> & _). intros sid0 s0 Hs0. cbn in Hs0.
    destruct (decide (uuid = sid0)) as [<- | Hne].
    + rewrite lookup_insert_eq in Hs0. injection Hs0 as <-.
      apply I_recorded, I_created.
    + rewrite lookup_insert_ne in Hs0 by done. by apply (Hall sid0).
  - destruct (_sessions svc !! sid) as [s |] eqn:Hs.
    + rewrite (chat_eq _ _ _ _ _ s Hs). cbv zeta.
      set (s1 := set_messages (fun m => m ++ [("user", msg)]) s).
      destruct (call_gateway _ _) as [e0 | content_v].
      { apply (all_sessions_insert svc _ sid s s1); try done. apply I_user. }
      pose proof (record_ai_turn_cases now content_v
        (Some {| role := "candidate"; content := msg; msg_created_at := now |})
        s1) as Hcases.
      destruct (_record_ai_turn _ _ _ _) as [[e0 | t] s2];
        apply (all_sessions_insert svc _ sid s s2); try done; intros Hi.
      * destruct Hcases as [-> | (fl & _ & ->)];
          [by apply I_user | by apply I_scores, I_user].
      * destruct Hcases as (_ & -> & _). by apply I_recorded, I_user.
    + by destruct (unknown_session_raises svc sid llm now msg "" Hs)
        as (-> & _).
  - by rewrite read_only_summarize.
  - by rewrite read_only_list_artifacts.
  - destruct (_sessions svc !! sid) as [s |] eqn:Hs.
    + pose proof (store_file_artifact_cases uuid now sid fn ct data de svc s
                    Hs) as Hcases. cbv zeta in Hcases.
      destruct (str_in (PyStr.lower (Pathlib.suffix fn))
                  ALLOWED_FILE_EXTENSIONS) eqn:Hext; cbn [negb] in Hcases;
        [| by destruct Hcases as [_ ->]].
      destruct (Z.of_nat (length data) >? _max_upload_bytes svc)%Z eqn:Hsize;
        [by destruct Hcases as [_ ->] |].
      destruct (store_file_artifact_eq uuid now sid fn ct data de svc s Hs
                  Hext Hsize) as (_ & Hsvc' & _).
      eapply (all_sessions_insert svc _ sid s); try done. apply I_artifact.
    + unfold store_file_artifact, bind, _get_session. by rewrite Hs.
  - destruct (_sessions svc !! sid) as [s |] eqn:Hs.
    + pose proof (store_link_artifact_cases uuid now sid u de svc s Hs)
        as Hcases. cbv zeta in Hcases.
      destruct (String.eqb (PyStr.strip u) "" || _) eqn:Hbad;
        [by destruct Hcases as [_ ->] |].
      destruct (store_link_artifact_eq uuid now sid u de svc s Hs Hbad)
        as (_ & Hsvc' & _).
      eapply (all_sessions_insert svc _ sid s); try done. apply I_artifact.
    + unfold store_link_artifact, bind, _get_session. by rewrite Hs.
  - by rewrite read_only_get_artifact.
Qed.

Lemma all_sessions_run ops svc :
  all_sessions I svc -> all_sessions I (snd (run ops svc)).
Proof.
  revert svc. induction ops as [| o ops IH]; intros svc Hall; [done |].
  simpl. pose proof (all_sessions_exec o svc Hall) as Ho.
  destruct (exec o svc) as [r svc1]. specialize (IH svc1 Ho).
  by destruct (run ops svc1) as [rs svc2].
Qed.

Lemma all_sessions_new dir max ops sid s :
  _sessions (snd (run ops (new_service dir max))) !! sid = Some s -> I s.
Proof.
  apply (all_sessions_run ops (new_service dir max)).
  intros sid0 s0 Hs0. cbn in Hs0. by rewrite lookup_empty in Hs0.
Qed.

End SessionInvariant.

(* ===================================================================== *)
(** ** Seeding and the scores of the transcript *)
(* ===================================================================== *)

Section AcceptedTurns.
Context `{Externals}.
Variable I : InterviewSession -> Prop.
Hypothesis I_user : forall s msg,
  I s -> I (set_messages (fun m => m ++ [("user", msg)]) s).
Hypothesis I_recorded : forall s now c t,
  (forall ev, evaluation t = Some ev -> NoDup (map fst (rubric_scores ev))) ->
  I s -> I (recorded now c t s).
Hypothesis I_artifact : forall s a now, I s -> I (with_artifact a now s).
Hypothesis I_created : forall uuid now payload,
  I (bootstrap_session uuid now payload).




End AcceptedTurns.

Section SeededProofs.
Context `{Externals}.





End SeededProofs.


Section IndexProofs.
Context `{Externals}.

Lemma set_In {V} (d : list (string * V)) k v k' v' :
  In (k', v') (Py.set d k v) -> (k' = k /\ v' = v) \/ In (k', v') d.
Proof.
  induction d as [| [k0 v0] d IH]; simpl.
  - intros [[= <- <-] | []]. by left.
  - destruct (String.eqb k0 k) eqn:Hk.
    + apply String.eqb_eq in Hk. subst k0.
      intros [[= <- <-] | Hin]; [by left | right; by right].
    + intros [Heq | Hin]; [right; by left |].
      destruct (IH Hin) as [Hl | Hr]; [by left | right; by right].
Qed.

Lemma artifacts_keyed_run dir max ops sid s :
  _sessions (snd (run ops (new_service dir max))) !! sid = Some s ->
  artifacts_keyed s.
Proof.
  apply (all_sessions_new artifacts_keyed); try done.
  - intros s0 fl H0. unfold artifacts_keyed.
    by destruct (apply_scores_frame fl s0) as (_ & _ & -> & _).
  - intros s0 now c t H0. unfold artifacts_keyed.
    by destruct (recorded_frame now c t s0) as (_ & _ & ->).
  - intros s0 a now [Hnd Hkey]. split; cbn.
    + by apply set_NoDup.
    + intros key b Hin. apply set_In in Hin as [[-> ->] | Hin]; [done |].
      by apply Hkey.
  - intros uuid now payload. split; [constructor | by intros key a []].
Qed.

Lemma get_In {V} (d : list (string * V)) k v :
  NoDup (map fst d) -> (Py.get d k = Some v <-> In (k, v) d).
Proof.
  induction d as [| [k0 v0] d IH]; simpl; [done |].
  intros Hnd. apply NoDup_cons in Hnd as [Hk0 Hnd].
  destruct (String.eqb k0 k) eqn:Hk.
  - apply String.eqb_eq in Hk. subst k0. split.
    + intros [= ->]. by left.
    + intros [[= ->] | Hin]; [done |]. exfalso. apply Hk0.
      apply list_elem_of_In, in_map_iff. by exists (k, v).
  - apply String.eqb_neq in Hk. rewrite (IH Hnd). split; [by right |].
    intros [[= -> ->] | Hin]; done.
Qed.

(** X15.  After any run of the service from its creation,
    [list_artifacts] and [get_artifact] agree: the ids of the listed
    artifacts are all different, and an artifact is listed exactly when
    [get_artifact] returns it for its id. *)
Theorem listed_artifacts_are_fetchable (ops : list op) (dir : string)
  (max : Z) (sid : string) (s : InterviewSession) :
  let svc := snd (run ops (new_service dir max)) in
  _sessions svc !! sid = Some s ->
  exists l,
    list_artifacts sid svc = (inr l, svc) /\
    NoDup (map art_id l) /\
    forall a, In a l <-> get_artifact sid (art_id a) svc = (inr a, svc).
Proof.
  intros svc Hs. destruct (artifacts_keyed_run dir max ops sid s Hs)
    as [Hnd Hkey].
  unfold list_artifacts, get_artifact, bind, _get_session. rewrite Hs.
  eexists. split; [done |].
  destruct (sorted_newest_first_spec (map snd (artifacts s))) as (Hp & _).
  assert (Hids : map art_id (map snd (artifacts s)) = map fst (artifacts s)).
  { rewrite map_map. apply map_ext_in. intros [k a] Hin. by apply Hkey. }
  split.
  - rewrite Hp, Hids. done.
  - intros a. split.
    + intros Hin. apply (Permutation_in _ Hp) in Hin.
      apply in_map_iff in Hin as ([k b] & Hb & Hin). simpl in Hb. subst b.
      rewrite (Hkey k a Hin). apply (get_In _ _ _ Hnd) in Hin.
      by rewrite Hin.
    + destruct (Py.get (artifacts s) (art_id a)) as [b |] eqn:Hget; [| done].
      intros [= ->]. apply (get_In _ _ _ Hnd) in Hget.
      apply (Permutation_in _ (Permutation_sym Hp)).
      apply in_map_iff. by exists (art_id a, a).
Qed.

Lemma count_role_app r l1 l2 :
  count_role r (l1 ++ l2) = count_role r l1 + count_role r l2.
Proof. unfold count_role. by rewrite List.filter_app, length_app. Qed.

Lemma in_step_append s s' m :
  messages s' = messages s ++ [m] ->
  transcript s' = transcript s ->
  fst m = "user" ->
  in_step s -> in_step s'.
Proof.
  intros Hm Ht Hrole [(rest & Hms & Hall) Hcount]. split.
  - exists (rest ++ [m]). rewrite Hm, Hms. split; [done |].
    intros m0 Hin. apply in_app_or in Hin as [Hin | [<- | []]]; [auto |].
    by left.
  - rewrite Hm, Ht, count_role_app, Hcount. unfold count_role. simpl.
    rewrite Hrole. simpl. lia.
Qed.

Lemma in_step_same s s' :
  messages s' = messages s -> transcript s' = transcript s ->
  in_step s -> in_step s'.
Proof. unfold in_step. by intros -> ->. Qed.

(** X16.  After any run of the service from its creation, the message
    history and the transcript of every stored session are in step: the
    history opens with the system prompt, every later message is a user
    or an assistant message, and there is one assistant message per
    recorded turn, failed [chat] calls having added user messages only. *)
Theorem history_and_transcript_in_step (ops : list op) (dir : string)
  (max : Z) (sid : string) (s : InterviewSession) :
  _sessions (snd (run ops (new_service dir max))) !! sid = Some s ->
  in_step s.
Proof.
  apply (all_sessions_new in_step).
  - intros s0 msg. by apply (in_step_append s0 _ ("user", msg)).
  - intros s0 fl. destruct (apply_scores_frame fl s0) as (Hm & Ht & _).
    by apply in_step_same.
  - intros s0 now c t [(rest & Hms & Hall) Hcount].
    destruct (recorded_frame now c t s0) as (Ht & Hm & _). split.
    + exists (rest ++ [("assistant", json_dumps c)]). rewrite Hm, Hms.
      split; [done |]. intros m0 Hin.
      apply in_app_or in Hin as [Hin | [<- | []]]; [auto | by right].
    + rewrite Hm, Ht, count_role_app, Hcount, length_app. done.
  - intros s0 a now. by apply in_step_same.
  - intros uuid now payload. split; [| done]. eexists. split; [done |].
    intros m [<- | []]. by left.
Qed.

End IndexProofs.


(* ===================================================================== *)
(** ** Reading the gateway's payload *)
(* ===================================================================== *)

Section GatewayProofs.
Context `{Externals}.

Lemma extract_content_cases (payload : pyval) :
  match extract_content payload with
  | inr v => exists text, json_loads text = inr v
  | inl e =>
      caught e = false /\
      (e = unparsable \/ e = TypeError \/ e = AttributeError \/
       exists text, json_loads text = inl e)
  end.
Proof.
  unfold extract_content, extract_content_try, sum_bind.
  destruct (subscript_key payload "choices") as [e | choices] eqn:H1.
  { destruct payload; simpl in H1; try (injection H1 as <-; auto).
    destruct (Py.get d "choices"); [done |]. injection H1 as <-. auto. }
  destruct (subscript_0 choices) as [e | choice] eqn:H2.
  { destruct choices as [| | | | [| c0 s0] | [| v l] | d]; simpl in H2;
      try done; injection H2 as <-; auto. }
  destruct (subscript_key choice "message") as [e | message] eqn:H3.
  { destruct choice; simpl in H3; try (injection H3 as <-; auto).
    destruct (Py.get d "message"); [done |]. injection H3 as <-. auto. }
  destruct (dict_get_default message "content" (PyStr "{}"))
    as [e | content_v] eqn:H4.
  { destruct message; simpl in H4; try done; injection H4 as <-; auto. }
  destruct (loads content_v) as [e | v] eqn:H5.
  - destruct content_v; simpl in H5; try (injection H5 as <-; auto).
    destruct e; (split; [done |]); eauto 6.
  - destruct content_v; simpl in H5; try done. by exists s.
Qed.

(** X17.  [extract_content] lets no [KeyError], [IndexError] or
    [JSONDecodeError] out, wherever in its [try] it arose: it returns
    what [json.loads] gives for a string, or raises its own [ValueError],
    or the [TypeError] or [AttributeError] of a payload of the wrong
    shape, or lets through what [json.loads] raised when that is none of
    the three, as the [ValueError] of an integer over the digit limit and
    the [RecursionError] of a deep nesting are. *)
Theorem extract_content_outcomes (payload : pyval) :
  match extract_content payload with
  | inr v => exists text, json_loads text = inr v
  | inl e =>
      caught e = false /\
      (e = unparsable \/ e = TypeError \/ e = AttributeError \/
       exists text, json_loads text = inl e)
  end.
Proof. apply extract_content_cases. Qed.

(** X18.  On a completion payload, [extract_content] reads the first
    choice only: it decodes the string under [content] of its message,
    decodes [{}] when the message has no [content], raises its
    [ValueError] when the string is not JSON, lets through what
    [json.loads] raises otherwise, and lets the [TypeError] of
    [json.loads] through when the content is not a string; a payload
    without [choices], with no choice, or whose first choice has no
    [message] gets the [ValueError]. *)
Theorem extract_content_reads_first_choice
  (m d : list (string * pyval)) (others : list pyval)
  (more : list (string * pyval)) :
  (forall text, Py.get m "content" = Some (PyStr text) ->
     extract_content (completion (PyDict m) others more) =
       match json_loads text with
       | inr v => inr v
       | inl e => inl (if caught e then unparsable else e)
       end) /\
  (Py.get m "content" = None ->
     extract_content (completion (PyDict m) others more) =
       match json_loads "{}" with
       | inr v => inr v
       | inl e => inl (if caught e then unparsable else e)
       end) /\
  (forall v, Py.get m "content" = Some v ->
     (forall text, v <> PyStr text) ->
     extract_content (completion (PyDict m) others more) = inl TypeError) /\
  (Py.get d "choices" = None -> extract_content (PyDict d) = inl unparsable) /\
  (Py.get d "choices" = Some (PyList []) ->
     extract_content (PyDict d) = inl unparsable) /\
  (forall c, Py.get d "choices" = Some (PyList (PyDict c :: others)) ->
     Py.get c "message" = None ->
     extract_content (PyDict d) = inl unparsable).
Proof.
  unfold extract_content, extract_content_try, sum_bind, completion.
  cbn [subscript_key subscript_0 Py.get String.eqb Ascii.eqb Bool.eqb
       dict_get_default].
  repeat split.
  - intros text ->. cbn. by destruct (json_loads text) as [[] |].
  - intros ->. cbn. by destruct (json_loads "{}") as [[] |].
  - intros v -> Hv. cbn. destruct v; try done. by destruct (Hv s).
  - by intros ->.
  - by intros ->.
  - intros c -> Hc. cbn. by rewrite Hc.
Qed.

End GatewayProofs.


(* ===================================================================== *)
(** ** Configuration *)
(* ===================================================================== *)

Lemma split_on_no_sep sep s w :
  In w (Config.split_on sep s) -> contains_char sep w = false.
Proof.
  revert w. induction s as [| c s IH]; simpl; intros w.
  - by intros [<- | []].
  - destruct (Config.split_on sep s) as [| w0 ws]; [by intros [<- | []] |].
    destruct (Ascii.eqb c sep) eqn:Hc.
    + intros [<- | Hin]; [done |]. by apply IH.
    + intros [<- | Hin]; [| apply IH; by right].
      simpl. rewrite Hc. apply IH. by left.
Qed.

Lemma contains_char_lstrip c s :
  contains_char c (PyStr.lstrip s) = true -> contains_char c s = true.
Proof.
  induction s as [| c' s IH]; simpl; [done |].
  destruct (PyStr.isspace c'); [| done].
  intros Hc. rewrite (IH Hc). apply orb_true_r.
Qed.

Lemma contains_char_rstrip c s :
  contains_char c (PyStr.rstrip s) = true -> contains_char c s = true.
Proof.
  induction s as [| c' s IH]; simpl; [done |].
  destruct (PyStr.rstrip s) as [| c0 r].
  - destruct (PyStr.isspace c'); [done |]. simpl.
    rewrite orb_false_r. intros ->. done.
  - simpl in *. destruct (Ascii.eqb c' c); [done |]. simpl. apply IH.
Qed.

Lemma contains_char_strip c s :
  contains_char c s = false -> contains_char c (PyStr.strip s) = false.
Proof.
  intros Hs. destruct (contains_char c (PyStr.strip s)) eqn:Hc; [| done].
  apply contains_char_rstrip, contains_char_lstrip in Hc. congruence.
Qed.

Lemma split_on_whole sep x :
  contains_char sep x = false -> Config.split_on sep x = [x].
Proof.
  induction x as [| c x IH]; simpl; [done |].
  intros Hx. apply orb_false_iff in Hx as [Hc Hx]. by rewrite (IH Hx), Hc.
Qed.

Lemma split_on_app sep x rest :
  contains_char sep x = false ->
  Config.split_on sep (x ++ String sep rest)%string =
  x :: Config.split_on sep rest.
Proof.
  induction x as [| c x IH].
  - intros _. change ("" ++ String sep rest)%string with (String sep rest).
    simpl. rewrite Ascii.eqb_refl.
    destruct (Config.split_on sep rest) eqn:Hr; [| done].
    destruct rest; simpl in Hr; [done |].
    destruct (Config.split_on sep rest); [done |].
    by destruct (Ascii.eqb a sep).
  - change (String c x ++ String sep rest)%string
      with (String c (x ++ String sep rest)%string).
    simpl. intros Hx. apply orb_false_iff in Hx as [Hc Hx].
    by rewrite (IH Hx), Hc.
Qed.

Lemma split_on_concat sep items :
  items <> [] ->
  (forall item, In item items -> contains_char sep item = false) ->
  Config.split_on sep (String.concat (String sep "") items) = items.
Proof.
  induction items as [| x items IH]; [done |]. intros _ Hclean.
  assert (Hx : contains_char sep x = false) by (apply Hclean; by left).
  destruct items as [| y items]; [by apply split_on_whole |].
  change (String.concat (String sep "") (x :: y :: items))
    with (x ++ String sep (String.concat (String sep "") (y :: items)))%string.
  rewrite split_on_app by done. rewrite IH; [done | done |].
  intros item Hin. apply Hclean. by right.
Qed.

(** X19.  [_parse_list] gives the wildcard list for a missing or empty
    setting; otherwise every item it returns is non-empty, has no blank
    at either end and holds no comma; a non-empty setting made of commas
    and blanks only gives the empty list, not the wildcard. *)
Theorem parse_list_items_are_clean (raw : option string) :
  (Config.unset raw = true -> Config._parse_list raw = ["*"]) /\
  (Config.unset raw = false ->
     forall item, In item (Config._parse_list raw) ->
       clean_item item /\ contains_char "," item = false) /\
  (forall r, raw = Some r -> r <> "" ->
     (forall piece, In piece (Config.split_on "," r) ->
        PyStr.strip piece = "") ->
     Config._parse_list raw = []).
Proof.
  split; [| split].
  - destruct raw as [r |]; simpl; [| done]. by intros ->.
  - destruct raw as [r |]; simpl; [| done]. intros ->.
    intros item Hin. apply in_map_iff in Hin as (piece & <- & Hin).
    apply filter_In in Hin as [Hin Hne].
    apply negb_true_iff, String.eqb_neq in Hne.
    split; [split; [done | apply strip_idem] |].
    apply contains_char_strip. by apply (split_on_no_sep _ r).
  - intros r -> Hr Hblank. simpl. apply String.eqb_neq in Hr. rewrite Hr.
    induction (Config.split_on "," r) as [| piece l IH]; [done |].
    simpl. rewrite (Hblank piece) by (by left). simpl.
    apply IH. intros p Hp. apply Hblank. by right.
Qed.

Lemma concat_nonempty sep x l : x <> "" -> String.concat sep (x :: l) <> "".
Proof.
  intros Hx. destruct x as [| c x]; [done |]. by destruct l.
Qed.

(** X20.  Joining clean items that hold no comma with commas and parsing
    the result gives the items back. *)
Theorem parse_list_round_trip (items : list string) :
  items <> [] ->
  (forall item, In item items ->
     clean_item item /\ contains_char "," item = false) ->
  Config._parse_list (Some (String.concat "," items)) = items.
Proof.
  intros Hne Hclean. unfold Config._parse_list.
  destruct items as [| x items]; [done |].
  assert (Hraw : String.concat "," (x :: items) <> "").
  { apply concat_nonempty. apply (Hclean x). by left. }
  apply String.eqb_neq in Hraw. rewrite Hraw.
  rewrite split_on_concat; [| done | intros item Hin; by apply Hclean].
  clear Hraw Hne. induction (x :: items) as [| y l IH]; [done |].
  destruct (Hclean y ltac:(by left)) as [[Hy Hs] _].
  simpl. rewrite Hs. apply String.eqb_neq in Hy. rewrite Hy. simpl.
  rewrite Hs. f_equal. apply IH. intros item Hin. apply Hclean. by right.
Qed.

(** X21.  [require_azure_config] returns exactly when the endpoint, the
    API key and the deployment are all set to non-empty values; otherwise
    it raises a [RuntimeError] whose message lists, in that order and
    separated by commas, the variables that are unset or empty, and only
    those. *)
Theorem require_azure_config_reports_missing (st : Config.Settings) :
  match Config.require_azure_config st with
  | inr _ =>
      Config.unset (Config.azure_openai_endpoint st) = false /\
      Config.unset (Config.azure_openai_api_key st) = false /\
      Config.unset (Config.azure_openai_deployment st) = false
  | inl (Config.RuntimeError msg) =>
      msg = ("Missing Azure OpenAI configuration. Please set the following environment variables: "
             ++ String.concat ", " (Config.missing st) ++ ".")%string /\
      Config.missing st <> [] /\
      (forall name, In name (Config.missing st) <->
         (name = "AZURE_OPENAI_ENDPOINT" /\
          Config.unset (Config.azure_openai_endpoint st) = true) \/
         (name = "AZURE_OPENAI_API_KEY" /\
          Config.unset (Config.azure_openai_api_key st) = true) \/
         (name = "AZURE_OPENAI_DEPLOYMENT" /\
          Config.unset (Config.azure_openai_deployment st) = true)) /\
      sublist (Config.missing st)
        ["AZURE_OPENAI_ENDPOINT"; "AZURE_OPENAI_API_KEY";
         "AZURE_OPENAI_DEPLOYMENT"]
  end.
Proof.
  unfold Config.require_azure_config, Config.missing. simpl.
  destruct (Config.unset (Config.azure_openai_endpoint st)),
           (Config.unset (Config.azure_openai_api_key st)),
           (Config.unset (Config.azure_openai_deployment st)); simpl;
    try done;
    (split; [done |]); (split; [done |]);
    (split;
     [ intros name; split;
       [ intros Hin; repeat destruct Hin as [<- | Hin]; try done; tauto
       | intros [[-> Hu] | [[-> Hu] | [-> Hu]]]; try done; tauto ]
     | repeat first [apply sublist_nil | apply sublist_skip
                    | apply sublist_cons] ]).
Qed.


(* ===================================================================== *)
(** ** The HTTP handlers *)
(* ===================================================================== *)

Lemma store_file_artifact_refused uuid now sid fn ct data de svc s :
  _sessions svc !! sid = Some s ->
  let ext := PyStr.lower (Pathlib.suffix fn) in
  (str_in ext ALLOWED_FILE_EXTENSIONS = false ->
   store_file_artifact uuid now sid fn ct data de svc =
     (inl (ValueError
        "Unsupported file type. Upload Excel workbooks, CSV/TSV extracts, or OpenDocument spreadsheets."),
      svc)) /\
  (str_in ext ALLOWED_FILE_EXTENSIONS = true ->
   (Z.of_nat (length data) >? _max_upload_bytes svc)%Z = true ->
   store_file_artifact uuid now sid fn ct data de svc =
     (inl (ValueError "File exceeds the maximum allowed size of 10 MB."),
      svc)).
Proof.
  intros Hs ext. unfold store_file_artifact, bind, _get_session.
  rewrite Hs. fold ext. split.
  - by intros ->.
  - intros -> Hsize. cbn [negb get_state]. by rewrite Hsize.
Qed.

Lemma store_link_artifact_refused uuid now sid u de svc s :
  _sessions svc !! sid = Some s ->
  (String.eqb (PyStr.strip u) ""
   || negb (PyStr.startswith_any (PyStr.lower (PyStr.strip u))
              ["http://"; "https://"])) = true ->
  store_link_artifact uuid now sid u de svc =
    (inl (ValueError
       "Provide a valid shareable link starting with http:// or https://"),
     svc).
Proof.
  intros Hs Hbad. unfold store_link_artifact, bind, _get_session.
  rewrite Hs. by rewrite Hbad.
Qed.

Lemma suffix_of_no_name p : Pathlib.name p = "" -> Pathlib.suffix p = "".
Proof. unfold Pathlib.suffix. by intros ->. Qed.

Lemma allowed_extension_named fn :
  In (PyStr.lower (Pathlib.suffix fn)) ALLOWED_FILE_EXTENSIONS ->
  Pathlib.name fn <> "".
Proof.
  intros Hin Hname. rewrite (suffix_of_no_name fn Hname) in Hin.
  simpl in Hin. repeat destruct Hin as [Hin | Hin]; done.
Qed.

Section HandlerProofs.
Context `{Externals}.

(** X22.  For a session id the store does not hold, the chat, summary,
    artifact list, upload and link handlers all answer 404 with the
    detail [Session not found], the upload before any look at the file;
    the download handler answers 404 with [Artifact not found]; none of
    them changes the service. *)
Theorem unknown_session_is_404 (svc : InterviewService) (sid : string)
  (llm : LLMClient) (now : Z) (message uuid : string)
  (file_filename file_content_type : option string) (data : list byte)
  (description_ url_ aid : string) :
  _sessions svc !! sid = None ->
  Main.chat llm now sid message svc = (Main.session_not_found, svc) /\
  Main.summary llm sid svc = (Main.session_not_found, svc) /\
  Main.list_artifacts sid svc = (Main.session_not_found, svc) /\
  Main.upload_artifact uuid now sid file_filename file_content_type data
    description_ svc = (Main.session_not_found, svc) /\
  Main.link_artifact uuid now sid url_ description_ svc
    = (Main.session_not_found, svc) /\
  Main.download_artifact sid aid svc =
    (Main.http 404 (Main.Detail "Artifact not found"), svc).
Proof.
  intros Hs.
  destruct (unknown_session_raises svc sid llm now message aid Hs)
    as (Hchat & Hsum & Hlist & Hget).
  unfold Main.chat, Main.summary, Main.list_artifacts, Main.download_artifact.
  rewrite Hchat, Hsum, Hlist, Hget.
  unfold Main.upload_artifact, Main.link_artifact, store_file_artifact,
    store_link_artifact, bind, _get_session. rewrite Hs. done.
Qed.

Lemma list_raises v e : list_ v = inl e -> e = TypeError.
Proof. destruct v; simpl; congruence. Qed.

Lemma dict_items_raises l e :
  dict_items l = inl e -> Main.is_KeyError e = false.
Proof.
  induction l as [| v l IH]; simpl; [done |].
  destruct (dict_item v) as [e0 | kv] eqn:Hv.
  - intros [= <-]. unfold dict_item in Hv.
    repeat (match type of Hv with
            | context [match ?x with _ => _ end] => destruct x
            end; try done); by injection Hv as <-.
  - destruct (dict_items l); [| done]. intros [= <-]. by apply IH.
Qed.

Lemma build_evaluation_raises ev e :
  build_evaluation ev = inl e -> Main.is_KeyError e = false.
Proof.
  unfold build_evaluation, sum_bind.
  destruct (list_ (Py.or_else (default (PyList []) (Py.get ev "strengths")) _))
    as [e0 | l1] eqn:H1;
    [intros [= <-]; by rewrite (list_raises _ _ H1) |].
  destruct (list_ (Py.or_else (default (PyList []) (Py.get ev "gaps")) _))
    as [e0 | l2] eqn:H2;
    [intros [= <-]; by rewrite (list_raises _ _ H2) |].
  destruct (dict_ _) as [e0 | d] eqn:H3.
  { intros [= <-]. unfold dict_ in H3.
    destruct (Py.or_else (default (PyDict []) _) _)
      as [| b | z | f | str | l | dd]; try done;
      try (by injection H3 as <-).
    - destruct str; [done |]. by injection H3 as <-.
    - destruct (dict_items l) eqn:Hl.
      + injection H3 as <-. by apply (dict_items_raises l).
      + destruct (str_keys _); [done |]. by injection H3 as <-. }
  repeat (match goal with
          | |- context [match ?x with _ => _ end] => destruct x
          end; try done); by intros [= <-].
Qed.

Lemma record_ai_turn_raises now content_v cm s e :
  fst (_record_ai_turn now content_v cm s) = inl e ->
  Main.is_KeyError e = false.
Proof.
  destruct (_record_ai_turn now content_v cm s) as [[e0 | t] s'] eqn:Hrec;
    [| done].
  cbn. intros [= ->]. revert Hrec. unfold _record_ai_turn.
  destruct content_v as [| b | z | f | str | l | c];
    try (cbn; by intros [= <- _]).
  unfold bind, lift_result, ret, raise, modify. cbn [dict_get_default].
  destruct (Pydantic.validate_str _) as [text |]; [| by intros [= <- _]].
  destruct (Py.truthy _).
  - destruct (Py.or_else _ _) as [| b | z | f | str | l | ev];
      try by intros [= <- _].
    destruct (build_evaluation ev) as [err | snap] eqn:Hev.
    { intros [= <- _]. by apply (build_evaluation_raises ev). }
    unfold record_scores.
    destruct (record_scores_items_floats (rubric_scores snap) ∅ s)
      as [u Hu]. rewrite Hu.
    destruct (Pydantic.validate_opt_str _) as [nba |]; [done |].
    by intros [= <- _].
  - destruct (Pydantic.validate_opt_str _) as [nba |]; [done |].
    by intros [= <- _].
Qed.

Lemma extract_content_raises payload e :
  extract_content payload = inl e -> Main.is_KeyError e = false.
Proof.
  intros He. pose proof (extract_content_cases payload) as Hout.
  rewrite He in Hout. destruct Hout as [Hc _]. by destruct e.
Qed.

Lemma call_gateway_KeyError llm msgs e :
  call_gateway llm msgs = inl e -> Main.is_KeyError e = true ->
  llm msgs = inl e.
Proof.
  unfold call_gateway, sum_bind. destruct (llm msgs) as [e0 | payload].
  - by intros [= ->].
  - intros He Hk. by rewrite (extract_content_raises payload e He) in Hk.
Qed.

(** X23.  For a session the store holds, the chat and summary handlers
    never let an exception through: they return, or answer 500 with the
    text of the exception; they answer 404 [Session not found] only when
    the gateway client itself raised a [KeyError]. *)
Theorem existing_session_404_only_from_gateway (llm : LLMClient) (now : Z)
  (sid message : string) (svc : InterviewService) (s : InterviewSession) :
  _sessions svc !! sid = Some s ->
  Main.answered llm (messages s ++ [("user", message)])
    (fst (Main.chat llm now sid message svc)) /\
  Main.answered llm (summary_messages s) (fst (Main.summary llm sid svc)).
Proof.
  intros Hs. unfold Main.answered. split.
  - unfold Main.chat. rewrite (chat_eq _ _ _ _ _ s Hs). cbv zeta.
    cbn [set_messages messages].
    destruct (call_gateway _ _) as [e | content_v] eqn:Hgw.
    + destruct (Main.is_KeyError e) eqn:Hk; cbn.
      * right. split; [done |].
        pose proof (call_gateway_KeyError _ _ _ Hgw Hk) as Hllm.
        destruct e; try done. by eexists.
      * left. by exists e.
    + pose proof (record_ai_turn_raises now content_v
        (Some {| role := "candidate"; content := message;
                 msg_created_at := now |})
        (set_messages (fun m => m ++ [("user", message)]) s)) as Hrec.
      destruct (_record_ai_turn _ _ _ _) as [[e | t] s2]; [| done].
      rewrite (Hrec e eq_refl). cbn. left. exists e. split; [done |].
      by apply Hrec.
  - unfold Main.summary, summarize, bind, _get_session. rewrite Hs.
    fold (summary_messages s). cbn [lift_result].
    destruct (call_gateway _ _) as [e | content_v] eqn:Hgw.
    + destruct (Main.is_KeyError e) eqn:Hk; cbn.
      * right. split; [done |].
        pose proof (call_gateway_KeyError _ _ _ Hgw Hk) as Hllm.
        destruct e; try done. by eexists.
      * left. by exists e.
    + destruct content_v as [| b | z | f | str | l | d]; cbn;
        try (left; by eexists).
      match goal with
      | |- context [build_summary ?a ?b ?c ?d ?e] =>
          assert (Hr : forall exc, build_summary a b c d e = inl exc ->
                         exc = PydanticValidationError "SummaryResponse");
          [| destruct (build_summary a b c d e) as [exc | resp];
             [| done] ]
      end.
      * intros exc. unfold build_summary.
        repeat (match goal with
                | |- context [match ?x with _ => _ end] => destruct x
                end; try done); by intros [= <-].
      * rewrite (Hr exc eq_refl). cbn. left. by eexists.
Qed.

(** X24.  For a session the store holds, the upload handler answers 400
    with the text of the [ValueError] when the extension is not allowed or
    the data is longer than the limit, the size message naming 10 MB
    whatever the limit of the service, and leaves the service unchanged;
    otherwise it returns the artifact, whose file name is the last
    component of the name sent and whose description is the stripped
    form field.  An upload that carries no file name is taken as
    [submission.xlsx], whose extension is allowed. *)
Theorem upload_handler_statuses (uuid : string) (now : Z) (sid : string)
  (file_filename file_content_type : option string) (data : list byte)
  (description_ : string) (svc : InterviewService) (s : InterviewSession) :
  _sessions svc !! sid = Some s ->
  let fn := Main.or_str file_filename "submission.xlsx" in
  let ext := PyStr.lower (Pathlib.suffix fn) in
  let size := Z.of_nat (length data) in
  let r := Main.upload_artifact uuid now sid file_filename file_content_type
             data description_ svc in
  (~ In ext ALLOWED_FILE_EXTENSIONS ->
     r = (Main.http 400 (Main.StrOf (ValueError
            "Unsupported file type. Upload Excel workbooks, CSV/TSV extracts, or OpenDocument spreadsheets.")),
          svc)) /\
  (In ext ALLOWED_FILE_EXTENSIONS -> (size > _max_upload_bytes svc)%Z ->
     r = (Main.http 400 (Main.StrOf (ValueError
            "File exceeds the maximum allowed size of 10 MB.")),
          svc)) /\
  (In ext ALLOWED_FILE_EXTENSIONS -> (size <= _max_upload_bytes svc)%Z ->
     exists a, fst r = Main.Returned a /\ art_id a = uuid /\
       filename a = Some (Pathlib.name fn) /\
       description a = PyStr.strip description_ /\
       content_type a = file_content_type /\
       size_bytes a = Some (length data)) /\
  ((file_filename = None \/ file_filename = Some "") ->
     fn = "submission.xlsx" /\ In ext ALLOWED_FILE_EXTENSIONS).
Proof.
  intros Hs fn ext size r.
  destruct (store_file_artifact_refused uuid now sid fn file_content_type data
              (Some description_) svc s Hs) as [Hbad Hbig].
  fold ext in Hbad, Hbig. unfold r, Main.upload_artifact. fold fn.
  split; [| split; [| split]].
  - intros Hext. apply str_in_not_In in Hext. by rewrite (Hbad Hext).
  - intros Hext Hsize. apply str_in_In in Hext.
    rewrite (Hbig Hext); [done |]. unfold size in Hsize. lia.
  - intros Hext Hsize. apply str_in_In in Hext.
    destruct (store_file_artifact_eq uuid now sid fn file_content_type data
                (Some description_) svc s Hs Hext) as (Ha & _).
    { unfold size in Hsize. lia. }
    destruct (store_file_artifact _ _ _ _ _ _ _ _) as [r0 svc'].
    cbn [fst] in Ha. subst r0. cbn [fst]. eexists. by repeat split.
  - intros Hname. assert (Hfn : fn = "submission.xlsx").
    { unfold fn. by destruct Hname as [-> | ->]. }
    split; [done |]. unfold ext. rewrite Hfn. vm_compute. tauto.
Qed.

(** X25.  For a session the store holds, the link handler strips the URL
    before the service strips it again, which changes nothing: it returns
    the link artifact with the stripped URL when that is non-empty and
    starts with [http://] or [https://] in any letter case, and answers
    400 with the text of the [ValueError] otherwise, the service being
    unchanged; it never lets an exception through. *)
Theorem link_handler_statuses (uuid : string) (now : Z) (sid : string)
  (payload_url payload_description : string) (svc : InterviewService)
  (s : InterviewSession) :
  _sessions svc !! sid = Some s ->
  let cleaned := PyStr.strip payload_url in
  let r := Main.link_artifact uuid now sid payload_url payload_description
             svc in
  store_link_artifact uuid now sid cleaned (Some payload_description) svc =
    store_link_artifact uuid now sid payload_url (Some payload_description)
      svc /\
  match fst r with
  | Main.Returned a =>
      cleaned <> "" /\ http_scheme cleaned /\ source a = SourceLink /\
      url a = Some cleaned /\ art_id a = uuid /\
      description a = PyStr.strip payload_description
  | Main.Raised e =>
      (cleaned = "" \/ ~ http_scheme cleaned) /\ snd r = svc /\
      e = {| Main.status_code := 400;
             Main.detail := Main.StrOf (ValueError
               "Provide a valid shareable link starting with http:// or https://") |}
  | Main.Unhandled _ => False
  end.
Proof.
  intros Hs cleaned r. split.
  - unfold store_link_artifact. unfold cleaned. by rewrite strip_idem.
  - unfold r, Main.link_artifact. fold cleaned.
    destruct (String.eqb (PyStr.strip cleaned) ""
              || negb (PyStr.startswith_any (PyStr.lower (PyStr.strip cleaned))
                         ["http://"; "https://"])) eqn:Hbad.
    + rewrite (store_link_artifact_refused _ _ _ _ _ _ s Hs Hbad). cbn.
      unfold cleaned in Hbad. rewrite strip_idem in Hbad. fold cleaned in Hbad.
      split; [| done]. apply orb_true_iff in Hbad as [Hempty | Hsch].
      * left. by apply String.eqb_eq.
      * right. unfold http_scheme. apply negb_true_iff in Hsch.
        by rewrite Hsch.
    + destruct (store_link_artifact_eq uuid now sid cleaned
                  (Some payload_description) svc s Hs Hbad) as (Ha & _).
      destruct (store_link_artifact _ _ _ _ _ _) as [r0 svc'].
      cbn [fst] in Ha. subst r0. cbn [fst].
      unfold cleaned in Hbad |- *. rewrite strip_idem in Hbad |- *.
      apply orb_false_iff in Hbad as [Hne Hsch].
      split; [by apply String.eqb_neq |].
      split; [by apply negb_false_iff in Hsch |]. done.
Qed.

(** X26.  What was stored can be fetched as it was stored: after an
    upload that returned, the download handler returns a response for the
    artifact's storage path, where the uploaded bytes are, with the
    content type sent, or [application/octet-stream] when none or an
    empty one was, and the recorded file name; after a link that
    returned, it answers 400, a link not being a download. *)
Theorem download_after_store (uuid : string) (now : Z) (sid : string)
  (file_filename file_content_type : option string) (data : list byte)
  (description_ payload_url : string) (svc : InterviewService)
  (s : InterviewSession) :
  _sessions svc !! sid = Some s ->
  (forall a,
     fst (Main.upload_artifact uuid now sid file_filename file_content_type
            data description_ svc) = Main.Returned a ->
     let svc' := snd (Main.upload_artifact uuid now sid file_filename
                        file_content_type data description_ svc) in
     exists p name,
       storage_path a = Some p /\ filename a = Some name /\
       disk svc' !! p = Some data /\
       Main.download_artifact sid (art_id a) svc' =
         (Main.Returned
            {| Main.path := p;
               Main.media_type :=
                 Main.or_str file_content_type "application/octet-stream";
               Main.download_name := name |},
          svc')) /\
  (forall a,
     fst (Main.link_artifact uuid now sid payload_url description_ svc)
       = Main.Returned a ->
     let svc' := snd (Main.link_artifact uuid now sid payload_url description_
                        svc) in
     Main.download_artifact sid (art_id a) svc' =
       (Main.http 400 (Main.Detail "Artifact is not available for download"),
        svc')).
Proof.
  intros Hs. split.
  - intros a. unfold Main.upload_artifact.
    set (fn := Main.or_str file_filename "submission.xlsx").
    destruct (store_file_artifact uuid now sid fn file_content_type data
                (Some description_) svc) as [[e | a0] svc'] eqn:Hstore.
    { by destruct (Main.is_KeyError e), (Main.is_ValueError e). }
    cbn [fst snd]. intros [= <-].
    assert (Ha0 : fst (store_file_artifact uuid now sid fn file_content_type
                         data (Some description_) svc) = inr a0)
      by (by rewrite Hstore).
    destruct (store_file_artifact_returned _ _ _ _ _ _ _ _ _ _ Hs Ha0)
      as [Hext Hsize].
    destruct (store_file_artifact_eq uuid now sid fn file_content_type data
                (Some description_) svc s Hs Hext Hsize)
      as (Ha & Hsvc' & Hdisk & _).
    rewrite Hstore in Ha, Hsvc', Hdisk. cbn [fst snd] in Ha, Hsvc', Hdisk.
    injection Ha as ->.
    destruct (artifact_stored_lookup _ now sid svc svc' s Hsvc')
      as (Hget & _).
    eexists _, _. cbn [storage_path filename art_id] in *.
    split; [done |]. split; [done |].
    rewrite Hdisk. split; [by rewrite lookup_insert_eq |].
    unfold Main.download_artifact. rewrite Hget.
    cbn [source storage_path content_type filename].
    rewrite Hdisk, lookup_insert_eq.
    replace (String.eqb (_storage_dir svc ++ "/" ++ sid ++ "/" ++ uuid ++
                         PyStr.lower (Pathlib.suffix fn))%string "")
      with false.
    + do 3 f_equal. unfold Main.or_str.
      apply str_in_In, allowed_extension_named, String.eqb_neq in Hext.
      by rewrite Hext.
    + symmetry. apply String.eqb_neq. by destruct (_storage_dir svc).
  - intros a. unfold Main.link_artifact.
    destruct (store_link_artifact uuid now sid (PyStr.strip payload_url)
                (Some description_) svc) as [[e | a0] svc'] eqn:Hstore.
    { by destruct (Main.is_KeyError e), (Main.is_ValueError e). }
    cbn [fst snd]. intros [= <-].
    assert (Ha0 : fst (store_link_artifact uuid now sid
                         (PyStr.strip payload_url) (Some description_) svc)
                  = inr a0) by (by rewrite Hstore).
    pose proof (store_link_artifact_returned _ _ _ _ _ _ _ _ Hs Ha0) as Hok.
    destruct (store_link_artifact_eq uuid now sid (PyStr.strip payload_url)
                (Some description_) svc s Hs Hok) as (Ha & Hsvc' & _).
    rewrite Hstore in Ha, Hsvc'. cbn [fst snd] in Ha, Hsvc'.
    injection Ha as ->.
    destruct (artifact_stored_lookup _ now sid svc svc' s Hsvc')
      as (Hget & _).
    cbn [art_id] in *. unfold Main.download_artifact. by rewrite Hget.
Qed.

(** X27.  The session handler returns the response of
    [create_session], whose id is the one drawn, or answers 500 with the
    text of the exception, the service being as before; it answers
    nothing else. *)
Theorem create_session_handler_statuses (llm : LLMClient) (uuid : string)
  (now : Z) (payload : SessionCreateRequest) (svc : InterviewService) :
  let r := Main.create_session llm uuid now payload svc in
  match fst r with
  | Main.Returned resp =>
      resp_session_id resp = uuid /\
      fst (create_session llm uuid now payload svc) = inr resp /\
      is_Some (_sessions (snd r) !! uuid)
  | Main.Raised e =>
      snd r = svc /\
      exists exc, e = {| Main.status_code := 500;
                         Main.detail := Main.StrOf exc |} /\
                  fst (create_session llm uuid now payload svc) = inl exc
  | Main.Unhandled _ => False
  end.
Proof.
  intros r. unfold r, Main.create_session.
  pose proof (create_session_outcome llm uuid now payload svc) as Hout.
  cbv zeta in Hout.
  destruct (create_session llm uuid now payload svc) as [[e | resp] svc'].
  - cbn in *. split; [done |]. by exists e.
  - cbn in *. destruct Hout as (-> & _ & s & c & _ & -> & _).
    split; [done |]. split; [done |]. cbn. by rewrite lookup_insert_eq.
Qed.

End HandlerProofs.


(* ===================================================================== *)
(** ** The store and what was created *)
(* ===================================================================== *)

Section DomainProofs.
Context `{Externals}.

Lemma preserves_has_on_session {A} k sid (m : Meth InterviewSession A) :
  preserves (has_session k) (on_session sid m).
Proof.
  intros svc Hk. unfold on_session, has_session in *.
  destruct (_sessions svc !! sid) as [s |] eqn:Hs; [| done].
  destruct (m s) as [r s']. cbn.
  destruct (decide (sid = k)) as [<- | Hne].
  - by rewrite lookup_insert_eq.
  - by rewrite lookup_insert_ne.
Qed.

Ltac keeps_session :=
  first
    [ apply preserves_ret | apply preserves_raise | apply preserves_get_state
    | apply preserves_lift_result | apply preserves_get_session
    | apply preserves_has_on_session
    | apply preserves_map_result
    | apply preserves_modify; by intros ?
    | apply preserves_bind; [| intros ?]
    | match goal with
      | |- preserves _ (if ?b then _ else _) => destruct b
      | |- preserves _ (match ?x with _ => _ end) => destruct x
      end ].

Lemma preserves_has_create k llm uuid now payload :
  preserves (has_session k) (create_session llm uuid now payload).
Proof.
  intros svc Hk. unfold has_session in *.
  pose proof (create_session_outcome llm uuid now payload svc) as Hout.
  cbv zeta in Hout.
  destruct (fst (create_session llm uuid now payload svc)) as [e | resp];
    [by rewrite Hout |].
  destruct Hout as (_ & _ & s & c & _ & -> & _). cbn.
  destruct (decide (uuid = k)) as [<- | Hne].
  - by rewrite lookup_insert_eq.
  - by rewrite lookup_insert_ne.
Qed.

Lemma preserves_has_exec k o : preserves (has_session k) (exec o).
Proof.
  destruct o; simpl; apply preserves_map_result.
  - apply preserves_has_create.
  - unfold chat. apply preserves_has_on_session.
  - intros svc Hk. by rewrite read_only_summarize.
  - intros svc Hk. by rewrite read_only_list_artifacts.
  - unfold store_file_artifact. repeat keeps_session.
  - unfold store_link_artifact. repeat keeps_session.
  - intros svc Hk. by rewrite read_only_get_artifact.
Qed.

Lemma exec_registers o svc k :
  In k (returned_session_ids [fst (exec o svc)]) ->
  has_session k (snd (exec o svc)).
Proof.
  unfold returned_session_ids. simpl. rewrite app_nil_r.
  destruct o as [llm uuid now payload | llm now sid msg | llm sid | sid
                | uuid now sid fn ct data de | uuid now sid u de | sid aid];
    simpl exec; unfold map_result, bind;
    match goal with
    | |- context [match ?m svc with _ => _ end] =>
        destruct (m svc) as [[e | a] svc'] eqn:Hm
    end; cbn; try done.
  intros [<- | []].
  pose proof (create_session_outcome llm uuid now payload svc) as Hout.
  cbv zeta in Hout. rewrite Hm in Hout. cbn in Hout.
  destruct Hout as (-> & _ & s & c & _ & -> & _). unfold has_session. cbn.
  by rewrite lookup_insert_eq.
Qed.

Lemma run_keeps_sessions ops svc k :
  has_session k svc -> has_session k (snd (run ops svc)).
Proof.
  revert svc. induction ops as [| o ops IH]; intros svc Hk; [done |].
  simpl. pose proof (preserves_has_exec k o svc Hk) as Ho.
  destruct (exec o svc) as [r svc1]. specialize (IH svc1 Ho).
  by destruct (run ops svc1) as [rs svc2].
Qed.

Lemma run_registers ops svc k :
  In k (returned_session_ids (fst (run ops svc))) ->
  has_session k (snd (run ops svc)).
Proof.
  revert svc. induction ops as [| o ops IH]; intros svc; [done |].
  simpl. pose proof (exec_registers o svc k) as Ho.
  destruct (exec o svc) as [r svc1] eqn:Hexec. specialize (IH svc1).
  pose proof (run_keeps_sessions ops svc1 k) as Hkeep.
  destruct (run ops svc1) as [rs svc2]. cbn [fst snd] in *.
  unfold returned_session_ids in *. simpl. rewrite in_app_iff.
  intros [Hin | Hin].
  - apply Hkeep, Ho. simpl. by rewrite app_nil_r.
  - by apply IH.
Qed.

(** X28.  After any run of the service from its creation, the session
    ids the store holds are exactly the ids that [create_session]
    returned during the run: no operation removes a session, and none
    but a [create_session] that returned adds one. *)
Theorem store_holds_exactly_the_created (ops : list op) (dir : string)
  (max : Z) (sid : string) :
  let r := run ops (new_service dir max) in
  is_Some (_sessions (snd r) !! sid) <-> In sid (returned_session_ids (fst r)).
Proof.
  intros r. split.
  - intros Hk. destruct (run_sessions_dom ops (new_service dir max) sid Hk)
      as [H0 | H0]; [| done].
    cbn in H0. rewrite lookup_empty in H0. by destruct H0.
  - apply run_registers.
Qed.

Lemma count_of_apply_scores_ge fl s k :
  count_of s k + (if Py.get fl k is Some _ then 1 else 0)
  <= count_of (apply_scores fl s) k.
Proof.
  revert s. induction fl as [| [k0 v0] fl IH]; intros s; simpl; [lia |].
  unfold apply_scores in *. simpl.
  match goal with
  | |- context [fold_left ?f fl ?s1] => specialize (IH s1)
  end.
  assert (Hstep : count_of s k + (if String.eqb k0 k then 1 else 0) <=
                  count_of (set_score_counts (insert k0 (count_of s k0 + 1))
                              (set_score_totals
                                 (insert k0 (total_of s k0 + v0)%float) s)) k).
  { unfold count_of. cbn [set_score_counts set_score_totals score_counts].
    destruct (String.eqb k0 k) eqn:Hk.
    - apply String.eqb_eq in Hk. subst k0. rewrite lookup_insert_eq. simpl.
      lia.
    - apply String.eqb_neq in Hk. rewrite lookup_insert_ne by done. lia. }
  destruct (String.eqb k0 k); destruct (Py.get fl k); lia.
Qed.

Lemma scores_counted_run dir max ops sid s :
  _sessions (snd (run ops (new_service dir max))) !! sid = Some s ->
  scores_counted s.
Proof.
  apply (all_sessions_new scores_counted).
  - by intros s0 msg H0.
  - intros s0 fl H0 skill.
    destruct (apply_scores_frame fl s0) as (_ & -> & _).
    pose proof (count_of_apply_scores_ge fl s0 skill). specialize (H0 skill).
    lia.
  - intros s0 now c t H0 skill.
    destruct (recorded_frame now c t s0) as (-> & _).
    unfold observations in *. rewrite omap_app, length_app. simpl.
    pose proof (H0 skill) as H1. clear H0. rename H1 into H0. unfold recorded.
    rewrite count_of_seed_rubric.
    change (length (omap (observation skill) (transcript s0)) +
            length (from_option (fun y => [y]) [] (observation skill t))
            <= count_of (scored t s0) skill).
    unfold observations in H0.
    remember (length (omap (observation skill) (transcript s0))) as n.
    unfold scored, observation. destruct (evaluation t) as [ev |]; [| simpl; lia].
    pose proof (count_of_apply_scores_ge (rubric_scores ev) s0 skill).
    destruct (Py.get (rubric_scores ev) skill); simpl; lia.
  - by intros s0 a now H0.
  - intros uuid now payload skill. cbn. lia.
Qed.

(** X29.  After any run of the service from its creation, every score
    in a session's transcript has been counted: for each skill, the
    number of recorded turns whose evaluation scores it is at most the
    skill's count, so a skill that some recorded turn scored is reported
    by [running_scores]. *)
Theorem transcript_scores_are_counted (ops : list op) (dir : string)
  (max : Z) (sid : string) (s : InterviewSession) :
  _sessions (snd (run ops (new_service dir max))) !! sid = Some s ->
  forall skill,
    length (observations skill (transcript s)) <= count_of s skill /\
    (forall t, In t (transcript s) -> is_Some (observation skill t) ->
       is_Some (running_scores s !! skill)).
Proof.
  intros Hs skill.
  pose proof (scores_counted_run dir max ops sid s Hs skill) as Hle.
  split; [done |]. intros t Hin Hobs.
  assert (Hpos : 0 < count_of s skill).
  { assert (0 < length (observations skill (transcript s))); [| lia].
    clear Hle. induction (transcript s) as [| t0 ts IH]; [done |].
    rewrite observations_cons. destruct Hin as [-> | Hin].
    - destruct Hobs as [v ->]. simpl. lia.
    - specialize (IH Hin). destruct (observation skill t0); simpl; lia. }
  assert (Hgood : good_session s).
  { apply (good_service_run ops (new_service dir max)) with sid; [| done].
    intros k s0 Hk. cbn in Hk. by rewrite lookup_empty in Hk. }
  destruct Hgood as (_ & Hwf & _).
  rewrite (running_scores_lookup s skill (wf_scores_tracked s skill Hwf)).
  by case_decide.
Qed.

End DomainProofs.


(* ===================================================================== *)
(** ** Worked examples *)
(* ===================================================================== *)

Lemma returned_true {A} (r : exn + A) :
  (if r is inr _ then true else false) = true -> exists a, r = inr a.
Proof. destruct r; [done | by eexists]. Qed.

Lemma option_bind_fact {A B} (m : option A) (f : A -> option B) (a : A) :
  m = Some a -> is_Some (m ≫= f) -> is_Some (f a).
Proof. by intros ->. Qed.

Lemma returned_fact {A B} (f : A -> B) (r : exn + A) (a : A) (b : B) :
  r = inr a -> (if r is inr x then Some (f x) else None) = Some b -> f a = b.
Proof. intros ->. by intros [= <-]. Qed.

Lemma service3_session :
  exists s, _sessions Example.service3 !! "sid-1" = Some s.
Proof. apply is_Some_true. by vm_compute. Qed.

Lemma chat_failure_records_no_turn_witness :
  exists s',
    _sessions (snd (chat (H := Example.scripted) Example.llm_down 1 "sid-1"
                      "hello" Example.service1)) !! "sid-1" = Some s' /\
    exists s, _sessions Example.service1 !! "sid-1" = Some s /\
              transcript s' = transcript s.
Proof.
  destruct service1_session as [s Hs].
  destruct (chat_failure_records_no_turn (H := Example.scripted)
              Example.llm_down 1 "sid-1" "hello" Example.service1 s
              (TransportError "timeout") Hs)
    as ((s' & Hs' & _ & Htr & _) & _).
  - rewrite (chat_gateway_failure (H := Example.scripted) Example.llm_down 1
               "sid-1" "hello" Example.service1 s (TransportError "timeout")
               Hs eq_refl). done.
  - exists s'. split; [done |]. by exists s.
Defined.

Lemma chat_success_records_turn_witness :
  exists resp,
    fst (chat (H := Example.scripted) (Example.llm_says "data_analysis 3") 1
           "sid-1" "First answer" Example.service1) = inr resp /\
    candidate_message (turn resp) =
      Some {| role := "candidate"; content := "First answer";
              msg_created_at := 1 |}.
Proof.
  destruct service1_session as [s Hs].
  destruct (returned_true
              (fst (chat (H := Example.scripted)
                      (Example.llm_says "data_analysis 3") 1 "sid-1"
                      "First answer" Example.service1)))
    as [resp Hresp]; [by vm_compute |].
  exists resp. split; [done |].
  exact (proj1 (chat_success_records_turn (H := Example.scripted)
                  (Example.llm_says "data_analysis 3") 1 "sid-1"
                  "First answer" Example.service1 s resp Hs Hresp)).
Defined.

Lemma chat_turn_refused_after_scoring_witness :
  fst (chat (H := Edge.scripted) (Example.llm_says "action 7") 1 "sid-1"
         "An answer" Example.service1)
    = inl (PydanticValidationError "ChatTurn").
Proof.
  destruct service1_session as [s Hs].
  refine (proj1 (chat_turn_refused_after_scoring (H := Edge.scripted)
                   (Example.llm_says "action 7") 1 "sid-1" "An answer"
                   Example.service1 s _ _
                   {| summary := "ok"; strengths := []; gaps := [];
                      rubric_scores := [("automation", 0x1p+2%float)];
                      recommendation := "continue" |}
                   Hs eq_refl _ eq_refl _ _ eq_refl)).
  - by eexists.
  - done.
  - vm_compute. reflexivity.
Defined.

Lemma total_turns_counts_returned_chats_witness :
  length (fst (chats (H := Example.scripted) "sid-1" Example.calls_3_5
                 Example.service1)) = 2.
Proof.
  destruct service1_session as [s Hs].
  exact (proj1 (total_turns_counts_returned_chats (H := Example.scripted)
                  "sid-1" Example.calls_3_5 Example.service1 s Hs)).
Defined.

Lemma list_artifacts_newest_first_witness :
  exists l,
    list_artifacts "sid-1" Example.service3 = (inr l, Example.service3) /\
    map art_id l = ["artifact-2"; "artifact-1"; "artifact-3"] /\
    newest_first l /\
    map art_id (uploaded_exactly_at 5 l) = ["artifact-1"; "artifact-3"].
Proof.
  destruct service3_session as [s Hs].
  destruct (list_artifacts_newest_first "sid-1" Example.service3 s Hs)
    as (l & Hl & _ & Hsorted & Hstable).
  exists l. split; [done |]. split; [| split; [done |]].
  - apply (returned_fact (map art_id)
             (fst (list_artifacts "sid-1" Example.service3))).
    + exact (f_equal fst Hl).
    + by vm_compute.
  - rewrite Hstable.
    apply (session_fact
             (fun s => map art_id
                         (uploaded_exactly_at 5 (map snd (artifacts s))))
             _ "sid-1" s _ Hs).
    by vm_compute.
Defined.

Lemma stored_artifact_is_retrievable_witness :
  exists a,
    fst (store_link_artifact "artifact-2" 6 "sid-1" " https://x " None
           Example.service1) = inr a /\
    art_id a = "artifact-2".
Proof.
  destruct service1_session as [s Hs].
  destruct (returned_true
              (fst (store_link_artifact "artifact-2" 6 "sid-1" " https://x "
                      None Example.service1))) as [a Ha]; [by vm_compute |].
  exists a. split; [done |].
  exact (proj1 (proj2 (stored_artifact_is_retrievable "artifact-2" 6 "sid-1"
                         "" " https://x " None [] None Example.service1 s Hs)
                  a Ha)).
Defined.

Lemma stored_file_name_is_sanitised_witness :
  exists a,
    fst (store_file_artifact "artifact-1" 5 "sid-1" "../../etc/Report.XLSX"
           None [x01; x02]%byte None Example.service1) = inr a /\
    exists name, filename a = Some name /\ contains_char "/" name = false.
Proof.
  destruct service1_session as [s Hs].
  destruct (returned_true
              (fst (store_file_artifact "artifact-1" 5 "sid-1"
                      "../../etc/Report.XLSX" None [x01; x02]%byte None
                      Example.service1))) as [a Ha]; [by vm_compute |].
  exists a. split; [done |].
  destruct (stored_file_name_is_sanitised "artifact-1" 5 "sid-1"
              "../../etc/Report.XLSX" None [x01; x02]%byte None
              Example.service1 s a Hs Ha)
    as (name & ext & path & Hname & _ & Hslash & _).
  by exists name.
Defined.

Lemma store_artifact_leaves_conversation_witness :
  exists s s',
    _sessions Example.service1 !! "sid-1" = Some s /\
    _sessions (snd (store_link_artifact "artifact-2" 6 "sid-1" "https://x"
                      None Example.service1)) !! "sid-1" = Some s' /\
    transcript s' = transcript s.
Proof.
  destruct service1_session as [s Hs].
  destruct (proj2 (store_artifact_leaves_conversation "artifact-2" 6 "sid-1"
                     "" "https://x" None [] None Example.service1 s Hs))
    as ((s' & Hs' & _ & Htr & _) & _).
  by exists s, s'.
Defined.

Lemma stored_artifacts_stay_valid_witness :
  exists s a,
    _sessions (snd (run (H := Example.scripted)
                      [OpCreateSession (Example.llm_says "bootstrap") "sid-1" 0
                         Example.request;
                       OpStoreLink "artifact-2" 6 "sid-1" " HTTPS://x " None]
                      (new_service "/uploads" 1024))) !! "sid-1" = Some s /\
    Py.get (artifacts s) "artifact-2" = Some a /\
    valid_artifact 1024 "artifact-2" a.
Proof.
  set (ops := [OpCreateSession (Example.llm_says "bootstrap") "sid-1" 0
                 Example.request;
               OpStoreLink "artifact-2" 6 "sid-1" " HTTPS://x " None]).
  destruct (is_Some_true
              (_sessions (snd (run (H := Example.scripted) ops
                                 (new_service "/uploads" 1024))) !! "sid-1"))
    as [s Hs]; [by vm_compute |].
  destruct (option_bind_fact _ (fun s => Py.get (artifacts s) "artifact-2") s
              Hs) as [a Ha]; [apply is_Some_true; by vm_compute |].
  exists s, a. split; [done |]. split; [done |].
  exact (stored_artifacts_stay_valid (H := Example.scripted) ops "/uploads"
           1024 "sid-1" "artifact-2" s a Hs Ha).
Defined.

Lemma session_history_is_append_only_witness :
  exists s s',
    _sessions Example.service1 !! "sid-1" = Some s /\
    _sessions (snd (run (H := Example.scripted)
                      [OpChat Example.llm_down 1 "sid-1" "hello";
                       OpChat (Example.llm_says "data_analysis 3") 2 "sid-1"
                         "First answer"]
                      Example.service1)) !! "sid-1" = Some s' /\
    grows s s'.
Proof.
  destruct service1_session as [s Hs].
  destruct (session_history_is_append_only (H := Example.scripted)
              [OpChat Example.llm_down 1 "sid-1" "hello";
               OpChat (Example.llm_says "data_analysis 3") 2 "sid-1"
                 "First answer"]
              Example.service1 "sid-1" s Hs) as (s' & Hs' & Hg).
  - intros llm uuid now payload [Ho | [Ho | []]]; discriminate Ho.
  - by exists s, s'.
Defined.

Lemma new_session_has_no_artifacts_witness :
  list_artifacts "sid-1" Example.service1 = (inr [], Example.service1).
Proof.
  destruct (returned_true
              (fst (create_session (H := Example.scripted)
                      (Example.llm_says "bootstrap") "sid-1" 0 Example.request
                      Example.service0))) as [resp Hresp]; [by vm_compute |].
  pose proof (proj1 (new_session_has_no_artifacts (H := Example.scripted)
                       (Example.llm_says "bootstrap") "sid-1" 0
                       Example.request Example.service0 resp "artifact-1"
                       Hresp)) as Hlist.
  replace (resp_session_id resp) with "sid-1" in Hlist; [exact Hlist |].
  pose proof (create_session_outcome (H := Example.scripted)
                (Example.llm_says "bootstrap") "sid-1" 0 Example.request
                Example.service0) as Hout.
  cbv zeta in Hout. rewrite Hresp in Hout. by destruct Hout as [-> _].
Defined.

Lemma listed_artifacts_are_fetchable_witness :
  exists l,
    list_artifacts "sid-1" Example.service3 = (inr l, Example.service3) /\
    length l = 3 /\
    NoDup (map art_id l) /\
    forall a, In a l ->
      get_artifact "sid-1" (art_id a) Example.service3
        = (inr a, Example.service3).
Proof.
  destruct service3_session as [s Hs].
  destruct (listed_artifacts_are_fetchable (H := Example.scripted)
              Example.artifact_ops "/uploads" default_max_upload_bytes
              "sid-1" s Hs) as (l & Hl & Hnd & Hget).
  exists l. split; [done |]. split; [| split; [done |]].
  - apply (returned_fact (@length _)
             (fst (list_artifacts "sid-1" Example.service3))).
    + exact (f_equal fst Hl).
    + by vm_compute.
  - intros a Hin. by apply Hget.
Defined.

Lemma history_and_transcript_in_step_witness :
  exists s,
    _sessions Example.service1 !! "sid-1" = Some s /\
    in_step (H := Example.scripted) s.
Proof.
  destruct service1_session as [s Hs]. exists s. split; [done |].
  exact (history_and_transcript_in_step (H := Example.scripted)
           [OpCreateSession (Example.llm_says "bootstrap") "sid-1" 0
              Example.request] "/uploads" default_max_upload_bytes
           "sid-1" s Hs).
Defined.

Lemma parse_list_round_trip_witness :
  Config._parse_list (Some "https://a.example,http://localhost:3000") =
  ["https://a.example"; "http://localhost:3000"].
Proof.
  apply (parse_list_round_trip ["https://a.example"; "http://localhost:3000"]).
  - done.
  - intros item [<- | [<- | []]]; by vm_compute.
Defined.

Lemma unknown_session_is_404_witness :
  Main.chat (H := Example.scripted) Example.llm_down 1 "sid-9" "hello"
    Example.service0 = (Main.session_not_found, Example.service0).
Proof.
  exact (proj1 (unknown_session_is_404 (H := Example.scripted)
                  Example.service0 "sid-9" Example.llm_down 1 "hello" "" None
                  None [] "" "" "" (lookup_empty _))).
Defined.

Lemma existing_session_404_only_from_gateway_witness :
  exists s,
    _sessions Example.service1 !! "sid-1" = Some s /\
    Main.answered Example.llm_down (messages s ++ [("user", "hello")])
      (fst (Main.chat (H := Example.scripted) Example.llm_down 1 "sid-1"
              "hello" Example.service1)).
Proof.
  destruct service1_session as [s Hs]. exists s. split; [done |].
  exact (proj1 (existing_session_404_only_from_gateway (H := Example.scripted)
                  Example.llm_down 1 "sid-1" "hello" Example.service1 s Hs)).
Defined.

Lemma upload_handler_statuses_witness :
  exists a,
    fst (Main.upload_artifact "artifact-1" 5 "sid-1" None None
           [x01; x02]%byte " notes " Example.service1) = Main.Returned a /\
    filename a = Some (Pathlib.name "submission.xlsx") /\
    description a = PyStr.strip " notes ".
Proof.
  destruct service1_session as [s Hs].
  destruct (upload_handler_statuses "artifact-1" 5 "sid-1" None None
              [x01; x02]%byte " notes " Example.service1 s Hs)
    as (_ & _ & Hok & Hnone).
  destruct (Hnone (or_introl eq_refl)) as [_ Hext].
  destruct (Hok Hext) as (a & Ha & _ & Hname & Hdesc & _).
  - apply Z.leb_le. by vm_compute.
  - by exists a.
Defined.

Lemma link_handler_statuses_witness :
  store_link_artifact "artifact-2" 6 "sid-1" (PyStr.strip " https://x ")
    (Some "") Example.service1 =
  store_link_artifact "artifact-2" 6 "sid-1" " https://x " (Some "")
    Example.service1.
Proof.
  destruct service1_session as [s Hs].
  exact (proj1 (link_handler_statuses "artifact-2" 6 "sid-1" " https://x " ""
                  Example.service1 s Hs)).
Defined.

Lemma download_after_store_witness :
  exists a,
    fst (Main.link_artifact "artifact-2" 6 "sid-1" "https://x" ""
           Example.service1) = Main.Returned a /\
    fst (Main.download_artifact "sid-1" (art_id a)
           (snd (Main.link_artifact "artifact-2" 6 "sid-1" "https://x" ""
                   Example.service1))) =
      Main.http 400 (Main.Detail "Artifact is not available for download").
Proof.
  destruct service1_session as [s Hs].
  assert (Hret : exists a,
            fst (Main.link_artifact "artifact-2" 6 "sid-1" "https://x" ""
                   Example.service1) = Main.Returned a).
  { assert (Hb : (if fst (Main.link_artifact "artifact-2" 6 "sid-1"
                            "https://x" "" Example.service1)
                  is Main.Returned _ then true else false) = true)
      by (by vm_compute).
    destruct (fst (Main.link_artifact _ _ _ _ _ _)); [by eexists | done | done]. }
  destruct Hret as [a Ha]. exists a. split; [done |].
  by rewrite (proj2 (download_after_store "artifact-2" 6 "sid-1" None None []
                       "" "https://x" Example.service1 s Hs) a Ha).
Defined.

Lemma transcript_scores_are_counted_witness :
  exists s,
    _sessions (snd (run (H := Example.scripted)
                      [OpCreateSession (Example.llm_says "bootstrap") "sid-1" 0
                         Example.request;
                       OpChat (Example.llm_says "data_analysis 3") 1 "sid-1"
                         "First answer"]
                      (new_service "/uploads" 1024))) !! "sid-1" = Some s /\
    length (observations "data_analysis" (transcript s))
      <= count_of s "data_analysis".
Proof.
  set (ops := [OpCreateSession (Example.llm_says "bootstrap") "sid-1" 0
                 Example.request;
               OpChat (Example.llm_says "data_analysis 3") 1 "sid-1"
                 "First answer"]).
  destruct (is_Some_true
              (_sessions (snd (run (H := Example.scripted) ops
                                 (new_service "/uploads" 1024))) !! "sid-1"))
    as [s Hs]; [by vm_compute |].
  exists s. split; [done |].
  exact (proj1 (transcript_scores_are_counted (H := Example.scripted) ops
                  "/uploads" 1024 "sid-1" s Hs "data_analysis")).
Defined.

